(** * stackgen: a shallow embedding of the artifact generation engine

    The development follows the Go packages of the repository:
    - [models]    : internal/models/models.go (data model and domain catalog)
    - [profiles]  : internal/profiles (profile presets and materialisation)
    - [generator] : internal/generator (service synthesis, secrets, output)
    - [cmd]       : cmd/add.go (the add path: name and port resolution)

    Go's [int] is taken as the 64-bit two's-complement integer of the usual
    targets; its arithmetic is written out with [wrap64].  Go strings are
    byte strings and are modelled by [string]; Go maps are finite maps
    ([gmap]); slices are lists. *)

From Stdlib Require Import ZArith Lia.
From Stdlib Require Strings.Ascii Strings.String Strings.Byte.
From stdpp Require Import gmap strings pretty list.
Import Stdlib.Strings.Ascii.

Local Open Scope Z_scope.
Local Open Scope string_scope.
Local Open Scope list_scope.

(* ===================================================================== *)
(** ** Go integers *)
(* ===================================================================== *)

Module goint.

Definition min_int : Z := - 2 ^ 63.
Definition max_int : Z := 2 ^ 63 - 1.

(** Two's-complement reduction of a mathematical integer to an [int]. *)
Definition wrap64 (z : Z) : Z := (z + 2 ^ 63) mod 2 ^ 64 - 2 ^ 63.

(** [a + b] on Go [int]s. *)
Definition add (a b : Z) : Z := wrap64 (a + b).

(** [fmt.Sprintf("%d", z)]. *)
Definition fmt_d (z : Z) : string := pretty z.

End goint.

(* ===================================================================== *)
(** ** Stateful code: state passing with panics *)
(* ===================================================================== *)

Module gost.

(** A computation over a state [S]; [None] is a run-time panic (or, for a
    loop run on fuel, the fuel running out). *)
Definition SM (S A : Type) : Type := S → option (A * S).

Definition ret {S A} (a : A) : SM S A := λ st, Some (a, st).

Definition bind {S A B} (c : SM S A) (k : A → SM S B) : SM S B :=
  λ st, match c st with
        | Some (a, st') => k a st'
        | None => None
        end.

Definition panic {S A} : SM S A := λ _, None.

Declare Scope gost_scope.
Delimit Scope gost_scope with gost.
Notation "'do' x <- c1 ; c2" := (bind c1 (λ x, c2))
  (at level 10, x pattern, c1 at level 100, c2 at level 200) : gost_scope.
Notation "c1 ;; c2" := (bind c1 (λ _, c2))
  (at level 100, c2 at level 200, right associativity) : gost_scope.

End gost.

(* ===================================================================== *)
(** ** internal/models/models.go *)
(* ===================================================================== *)

Module models.

(** [type DatastoreType string] *)
Definition DatastoreType : Type := string.

Definition DatastorePostgres   : DatastoreType := "postgres".
Definition DatastoreMySQL      : DatastoreType := "mysql".
Definition DatastoreMSSQL      : DatastoreType := "mssql".
Definition DatastoreNeo4j      : DatastoreType := "neo4j".
Definition DatastoreRedis      : DatastoreType := "redis".
Definition DatastoreRedisStack : DatastoreType := "redis-stack".

(** [type RuntimeType string] *)
Definition RuntimeType : Type := string.

Definition RuntimeGo     : RuntimeType := "go".
Definition RuntimeNode   : RuntimeType := "node".
Definition RuntimePython : RuntimeType := "python".
Definition RuntimeJava   : RuntimeType := "java".
Definition RuntimeRust   : RuntimeType := "rust".
Definition RuntimeCSharp : RuntimeType := "csharp".

Record Volume := mkVolume {
  vol_Source : string;
  vol_Target : string;
  vol_Type : string;
  vol_ReadOnly : bool
}.

Record HealthCheck := mkHealthCheck {
  hc_Test : list string;
  hc_Interval : string;
  hc_Timeout : string;
  hc_Retries : Z;
  hc_StartPeriod : string
}.

Record Datastore := mkDatastore {
  ds_Type : DatastoreType;
  ds_Name : string;
  ds_Image : string;
  ds_Tag : string;
  ds_Port : Z;
  ds_InternalPort : Z;
  ds_Volumes : list Volume;
  ds_Environment : gmap string string;
  ds_HealthCheck : option HealthCheck;
  ds_Networks : list string
}.

Record Runtime := mkRuntime {
  rt_Type : RuntimeType;
  rt_Name : string;
  rt_Framework : string;
  rt_Port : Z;
  rt_InternalPort : Z;
  rt_BuildContext : string;
  rt_Dockerfile : string;
  rt_Volumes : list Volume;
  rt_Environment : gmap string string;
  rt_Command : string;
  rt_DependsOn : list string;
  rt_Networks : list string
}.

Record Network := mkNetwork {
  net_Name : string;
  net_Driver : string
}.

Record Project := mkProject {
  proj_Name : string;
  proj_OutputDir : string;
  proj_Datastores : list Datastore;
  proj_Runtimes : list Runtime;
  proj_Networks : list Network;
  proj_Profile : string
}.

Record EnvVar := mkEnvVar {
  env_Key : string;
  env_Value : string;
  env_Description : string;
  env_Secret : bool
}.

Record ComposeBuild := mkComposeBuild {
  cb_Context : string;
  cb_Dockerfile : string
}.

Record ComposeHealth := mkComposeHealth {
  ch_Test : list string;
  ch_Interval : string;
  ch_Timeout : string;
  ch_Retries : Z;
  ch_StartPeriod : string
}.

Record ComposeService := mkComposeService {
  svc_Image : string;
  svc_Build : option ComposeBuild;
  svc_ContainerName : string;
  svc_Ports : list string;
  svc_Volumes : list string;
  svc_Environment : gmap string string;
  svc_EnvFile : list string;
  svc_DependsOn : list string;
  svc_Networks : list string;
  svc_HealthCheck : option ComposeHealth;
  svc_Restart : string;
  svc_Command : string;
  svc_User : string
}.

(** The zero value of [ComposeService] ([var service models.ComposeService]). *)
Definition zeroComposeService : ComposeService :=
  {| svc_Image := ""; svc_Build := None; svc_ContainerName := "";
     svc_Ports := []; svc_Volumes := []; svc_Environment := ∅;
     svc_EnvFile := []; svc_DependsOn := []; svc_Networks := [];
     svc_HealthCheck := None; svc_Restart := ""; svc_Command := "";
     svc_User := "" |}.

(** The values stored under [map[string]interface{}] in a compose file:
    the bridge-network description and the empty volume description. *)
Inductive ComposeValue :=
  | CVStringMap (m : gmap string string)
  | CVEmptyMap.

(** A Go value of type [map[string]V]: [nil], or a made map with its
    entries. A nil map reads as an empty one; an assignment to an entry of a
    nil map panics. *)
Inductive GoMap (V : Type) : Type :=
  | NilMap
  | MadeMap (m : gmap string V).
Arguments NilMap {V}.
Arguments MadeMap {V} m.

Definition entries {V : Type} (m : GoMap V) : gmap string V :=
  match m with
  | NilMap => ∅
  | MadeMap m => m
  end.

(** [type ComposeFile struct]. [Services] is made by [New] and is a map
    with entries here; [Volumes] and [Networks] are nil until [Generate]
    assigns them. *)
Record ComposeFile := mkComposeFile {
  cf_Version : string;
  cf_Services : gmap string ComposeService;
  cf_Volumes : GoMap ComposeValue;
  cf_Networks : GoMap ComposeValue
}.

Definition AvailableDatastores : list DatastoreType :=
  [DatastorePostgres; DatastoreMySQL; DatastoreMSSQL;
   DatastoreNeo4j; DatastoreRedis; DatastoreRedisStack].

Definition AvailableRuntimes : list RuntimeType :=
  [RuntimeGo; RuntimeNode; RuntimePython;
   RuntimeJava; RuntimeRust; RuntimeCSharp].

Record DatastoreInfo := mkDatastoreInfo {
  di_Type : DatastoreType;
  di_DisplayName : string;
  di_Description : string;
  di_DefaultPort : Z;
  di_Edition : string
}.

Definition zeroDatastoreInfo : DatastoreInfo :=
  mkDatastoreInfo "" "" "" 0 "".

(** [GetDatastoreInfo]: a map literal indexed by the kind; a key that is
    absent yields the zero value. *)
Definition datastoreInfoTable : gmap DatastoreType DatastoreInfo :=
  list_to_map [
    (DatastorePostgres,
       mkDatastoreInfo DatastorePostgres "PostgreSQL"
         "Powerful open-source relational database" 5432 "Official Image");
    (DatastoreMySQL,
       mkDatastoreInfo DatastoreMySQL "MySQL"
         "Popular open-source relational database" 3306 "Official Image");
    (DatastoreMSSQL,
       mkDatastoreInfo DatastoreMSSQL "SQL Server"
         "Microsoft SQL Server (Developer Edition)" 1433
         "Developer Edition - for development use only");
    (DatastoreNeo4j,
       mkDatastoreInfo DatastoreNeo4j "Neo4j"
         "Graph database for connected data" 7474 "Community Edition");
    (DatastoreRedis,
       mkDatastoreInfo DatastoreRedis "Redis"
         "In-memory data store and cache" 6379 "Community");
    (DatastoreRedisStack,
       mkDatastoreInfo DatastoreRedisStack "Redis Stack"
         "Redis with JSON, Search, TimeSeries modules" 6379 "Community")
  ].

Definition GetDatastoreInfo (t : DatastoreType) : DatastoreInfo :=
  default zeroDatastoreInfo (datastoreInfoTable !! t).

Record RuntimeInfo := mkRuntimeInfo {
  ri_Type : RuntimeType;
  ri_DisplayName : string;
  ri_Description : string;
  ri_DefaultPort : Z;
  ri_Frameworks : list string
}.

Definition zeroRuntimeInfo : RuntimeInfo :=
  mkRuntimeInfo "" "" "" 0 [].

Definition runtimeInfoTable : gmap RuntimeType RuntimeInfo :=
  list_to_map [
    (RuntimeGo,
       mkRuntimeInfo RuntimeGo "Go" "Fast, statically typed language" 8080
         ["stdlib"; "gin"; "fiber"; "echo"]);
    (RuntimeNode,
       mkRuntimeInfo RuntimeNode "Node.js" "JavaScript runtime for server-side" 3000
         ["express"; "fastify"; "nextjs"; "nestjs"]);
    (RuntimePython,
       mkRuntimeInfo RuntimePython "Python" "Versatile scripting language" 8000
         ["fastapi"; "flask"; "django"]);
    (RuntimeJava,
       mkRuntimeInfo RuntimeJava "Java" "Enterprise-grade JVM language" 8080
         ["spring-boot"; "quarkus"; "micronaut"]);
    (RuntimeRust,
       mkRuntimeInfo RuntimeRust "Rust" "Memory-safe systems language" 8080
         ["actix-web"; "axum"; "rocket"]);
    (RuntimeCSharp,
       mkRuntimeInfo RuntimeCSharp "C# / .NET" "Microsoft .NET platform" 5000
         ["aspnetcore"; "minimal-api"])
  ].

Definition GetRuntimeInfo (t : RuntimeType) : RuntimeInfo :=
  default zeroRuntimeInfo (runtimeInfoTable !! t).

End models.

(* ===================================================================== *)
(** ** internal/profiles *)
(* ===================================================================== *)

Module profiles.
Import models.

Record RuntimeConfig := mkRuntimeConfig {
  rc_Type : RuntimeType;
  rc_Framework : string
}.

Record Profile := mkProfile {
  prof_Name : string;
  prof_Description : string;
  prof_Datastores : list DatastoreType;
  prof_Runtimes : list RuntimeConfig
}.

Definition AvailableProfiles : list Profile :=
  [ mkProfile "web-app" "Full-stack web application (Node.js + Postgres + Redis)"
      [DatastorePostgres; DatastoreRedis]
      [mkRuntimeConfig RuntimeNode "express"];
    mkProfile "api" "REST API backend (Go + Postgres)"
      [DatastorePostgres]
      [mkRuntimeConfig RuntimeGo "stdlib"];
    mkProfile "ml" "Machine learning / data science (Python + Postgres + Redis)"
      [DatastorePostgres; DatastoreRedis]
      [mkRuntimeConfig RuntimePython "fastapi"];
    mkProfile "fullstack"
      "Complete microservices stack (Node + Go + Postgres + Redis + Neo4j)"
      [DatastorePostgres; DatastoreRedis; DatastoreNeo4j]
      [mkRuntimeConfig RuntimeNode "express"; mkRuntimeConfig RuntimeGo "stdlib"];
    mkProfile "java-enterprise" "Enterprise Java stack (Spring Boot + Postgres + Redis)"
      [DatastorePostgres; DatastoreRedis]
      [mkRuntimeConfig RuntimeJava "spring-boot"];
    mkProfile "dotnet" ".NET Core application (C# + SQL Server)"
      [DatastoreMSSQL]
      [mkRuntimeConfig RuntimeCSharp "aspnetcore"];
    mkProfile "rust-api" "High-performance Rust API (Rust + Postgres + Redis)"
      [DatastorePostgres; DatastoreRedis]
      [mkRuntimeConfig RuntimeRust "actix-web"] ].

(** [GetProfile]: the first profile of that name, or [nil]. *)
Fixpoint findProfile (name : string) (ps : list Profile) : option Profile :=
  match ps with
  | [] => None
  | p :: ps' => if String.eqb (prof_Name p) name then Some p else findProfile name ps'
  end.

Definition GetProfile (name : string) : option Profile :=
  findProfile name AvailableProfiles.

Definition defaultTagTable : gmap DatastoreType string :=
  list_to_map [
    (DatastorePostgres, "16-alpine");
    (DatastoreMySQL, "8.0");
    (DatastoreMSSQL, "2022-latest");
    (DatastoreNeo4j, "5");
    (DatastoreRedis, "7-alpine");
    (DatastoreRedisStack, "latest") ].

Definition getDefaultTag (dsType : DatastoreType) : string :=
  default "" (defaultTagTable !! dsType).

(** One iteration of the runtime loop of [BuildProjectFromProfile]: the
    accumulator is [project.Runtimes] and [runtimePortOffset]. *)
Definition addProfileRuntime (dependsOn : list string)
    (acc : list Runtime * Z) (rtConfig : RuntimeConfig) : list Runtime * Z :=
  let '(runtimes, runtimePortOffset) := acc in
  let info := GetRuntimeInfo (rc_Type rtConfig) in
  let rt :=
    {| rt_Type := rc_Type rtConfig;
       rt_Name := rc_Type rtConfig +:+ "-app";
       rt_Framework := rc_Framework rtConfig;
       rt_Port := goint.add (ri_DefaultPort info) runtimePortOffset;
       rt_InternalPort := ri_DefaultPort info;
       rt_BuildContext := rc_Type rtConfig +:+ "-app";
       rt_Dockerfile := "Dockerfile";
       rt_Volumes := [];
       rt_Environment := ∅;
       rt_Command := "";
       rt_DependsOn := dependsOn;
       rt_Networks := [] |} in
  (runtimes ++ [rt], goint.add runtimePortOffset 1000).

Definition BuildProjectFromProfile (profile : Profile)
    (projectName outputDir : string) : Project :=
  (* Add datastores with default ports: portOffset is never incremented *)
  let portOffset := 0 in
  let datastores :=
    foldl (λ dss dsType,
             let info := GetDatastoreInfo dsType in
             dss ++ [ {| ds_Type := dsType;
                         ds_Name := dsType;
                         ds_Image := "";
                         ds_Tag := getDefaultTag dsType;
                         ds_Port := goint.add (di_DefaultPort info) portOffset;
                         ds_InternalPort := di_DefaultPort info;
                         ds_Volumes := [];
                         ds_Environment := ∅;
                         ds_HealthCheck := None;
                         ds_Networks := [] |} ])
          [] (prof_Datastores profile) in
  (* Add runtimes *)
  let dependsOn :=
    foldl (λ deps (dsType : DatastoreType), deps ++ [dsType : string])
          [] (prof_Datastores profile) in
  let '(runtimes, _) :=
    foldl (addProfileRuntime dependsOn) ([], 0) (prof_Runtimes profile) in
  {| proj_Name := projectName;
     proj_OutputDir := outputDir;
     proj_Datastores := datastores;
     proj_Runtimes := runtimes;
     proj_Networks := [];
     proj_Profile := prof_Name profile |}.

End profiles.

(* ===================================================================== *)
(** ** internal/generator *)
(* ===================================================================== *)

Module generator.
Import models gost.
Local Open Scope gost_scope.

(** *** The collaborators of the package *)

Inductive result (A : Type) :=
  | Ok (a : A)
  | Err (msg : string).
Arguments Ok {A} a.
Arguments Err {A} msg.

(** Package [templates] and [yaml.Marshal] are outside the engine: the
    per-kind build-recipe texts, the ignore-list text and the YAML encoder
    are taken as they come. *)
Record Externals := mkExternals {
  GoDockerfile : string → string;
  NodeDockerfile : string → string;
  PythonDockerfile : string → string;
  JavaDockerfile : string → string;
  RustDockerfile : string → string;
  CSharpDockerfile : string → string;
  GitIgnore : string;
  yaml_Marshal : ComposeFile → result string
}.

(** One call of [crypto/rand.Read] that returns: the bytes it wrote at the
    front of the buffer and the error it returned ([None] is [nil]). From
    Go 1.24 on a call that returns has filled the buffer and its error is
    nil: a read that fails ends the process inside the library and does
    not return, so no run of the program goes on after it. *)
Record ReadResult := mkReadResult {
  rr_bytes : list Byte.byte;
  rr_err : option string
}.

(** The process-wide random source: what its k-th call answers. *)
Definition RandSource : Type := nat → ReadResult.

(** [type Generator struct] *)
Record Generator := mkGenerator {
  g_project : Project;
  g_compose : ComposeFile;
  g_envVars : list EnvVar;
  g_dockerfiles : gmap string string
}.

Record GeneratedOutput := mkGeneratedOutput {
  ComposeYAML : string;
  EnvFile : string;
  EnvExampleFile : string;
  out_GitIgnore : string;
  Dockerfiles : gmap string string
}.

(** The state a generation call runs in: the receiver [g] and the number
    of reads made so far from the random source. *)
Record State := mkState {
  st_g : Generator;
  st_reads : nat
}.

(** Computations of the generator over [State]. *)
Definition M (A : Type) : Type := SM State A.

Definition getG : M Generator := λ st, Some (st_g st, st).

Definition modifyG (f : Generator → Generator) : M unit :=
  λ st, Some (tt, mkState (f (st_g st)) (st_reads st)).

(** *** Byte and string helpers of the Go library *)

Definition zero_byte : Byte.byte := Byte.x00.

(** The double-quote character. *)
Definition dquote : ascii := ascii_of_nat 34.

Definition byte_to_nat (b : Byte.byte) : nat := N.to_nat (Byte.to_N b).

(** [s[i]] for an index in range. *)
Definition str_index (s : string) (i : nat) : ascii :=
  default "000"%char (String.get i s).

Definition hextable : string := "0123456789abcdef".

(** [hex.EncodeToString]: two digits per byte, high nibble first. *)
Fixpoint hex_EncodeToString (src : list Byte.byte) : string :=
  match src with
  | [] => ""
  | v :: src' =>
      String (str_index hextable (N.to_nat (N.shiftr (Byte.to_N v) 4)))
        (String (str_index hextable (N.to_nat (N.land (Byte.to_N v) 15)))
           (hex_EncodeToString src'))
  end.

(** [string(b)] for a byte slice. *)
Definition string_of_bytes (b : list ascii) : string :=
  String.string_of_list_ascii b.

(** [strings.ToLower] for strings whose letters are ASCII, as the keys of
    the variables the generator builds are: the letters A to Z are lowered;
    letters beyond ASCII, which Go lowers too, are left as they are. *)
Definition lower_ascii (c : ascii) : ascii :=
  let n := nat_of_ascii c in
  if ((65 <=? n) && (n <=? 90))%nat then ascii_of_nat (n + 32) else c.

Fixpoint strings_ToLower (s : string) : string :=
  match s with
  | EmptyString => EmptyString
  | String c s' => String (lower_ascii c) (strings_ToLower s')
  end.

(** [strings.ReplaceAll(s, old, new)] for one-character [old] and [new]. *)
Fixpoint strings_ReplaceAll1 (s : string) (old new : ascii) : string :=
  match s with
  | EmptyString => EmptyString
  | String c s' =>
      String (if Ascii.eqb c old then new else c) (strings_ReplaceAll1 s' old new)
  end.

(** [strings.HasPrefix(s, p)] and [strings.Contains(s, sub)]. *)
Fixpoint strings_HasPrefix (s p : string) : bool :=
  match p, s with
  | EmptyString, _ => true
  | String _ _, EmptyString => false
  | String a p', String b s' => Ascii.eqb a b && strings_HasPrefix s' p'
  end.

Fixpoint strings_Contains (s sub : string) : bool :=
  strings_HasPrefix s sub ||
  match s with
  | EmptyString => false
  | String _ s' => strings_Contains s' sub
  end.

(** [strings.ContainsAny(s, chars)]. *)
Fixpoint strings_ContainsAny (s chars : string) : bool :=
  match s with
  | EmptyString => false
  | String c s' =>
      bool_decide (c ∈ String.list_ascii_of_string chars) || strings_ContainsAny s' chars
  end.

(** The content of the buffer [b] after a read that answered [r]. *)
Definition readInto (r : ReadResult) (b : list Byte.byte) : list Byte.byte :=
  take (length b) (rr_bytes r ++ drop (length (rr_bytes r)) b).

(** The password policy of the enterprise-relational kind, as the package's
    test checks it with [strings.ContainsAny]. *)
Definition upperChars : string := "ABCDEFGHIJKLMNOPQRSTUVWXYZ".
Definition lowerChars : string := "abcdefghijklmnopqrstuvwxyz".
Definition digitChars : string := "0123456789".
Definition symbolChars : string := "!@#$%".

Definition meetsPolicy (pw : string) : bool :=
  strings_ContainsAny pw upperChars && strings_ContainsAny pw lowerChars &&
  strings_ContainsAny pw digitChars && strings_ContainsAny pw symbolChars.

Section Engine.

Context (ext : Externals) (rnd : RandSource).

(** [rand.Read(b)]: the bytes written replace the front of [b], the rest of
    [b] keeps its content; the call is counted. *)
Definition rand_Read (b : list Byte.byte) : M (list Byte.byte * option string) :=
  λ st,
    let r := rnd (st_reads st) in
    Some ((readInto r b, rr_err r), mkState (st_g st) (S (st_reads st))).

Definition generatePassword (n : nat) : M string :=
  let bytes := replicate (n / 2)%nat zero_byte in
  do (bytes, _) <- rand_Read bytes;
  ret (hex_EncodeToString bytes).

Definition chars : string :=
  "abcdefghijklmnopqrstuvwxyzABCDEFGHIJKLMNOPQRSTUVWXYZ0123456789!@#$%".

(** The character the fill loop stores for one random byte:
    [chars[int(b) % len(chars)]]. *)
Definition pick (b : Byte.byte) : ascii :=
  str_index chars (byte_to_nat b mod String.length chars).

(** The loop [for i := 4; i < length; i++] over [password]. *)
Definition fillPassword (randBytes : list Byte.byte)
    (password : list ascii) (n : nat) : list ascii :=
  foldl (λ pw i, <[ i := pick (default zero_byte (randBytes !! (i - 4)%nat)) ]> pw)
        password (seq 4 (n - 4)).

(** Indexing [password[0..3]] panics on a slice shorter than four bytes. *)
Definition generateStrongPassword (n : nat) : M string :=
  if (n <? 4)%nat then panic
  else
    let password := replicate n "000"%char in
    let password := <[ 0%nat := "A"%char ]> password in
    let password := <[ 1%nat := "a"%char ]> password in
    let password := <[ 2%nat := "1"%char ]> password in
    let password := <[ 3%nat := "!"%char ]> password in
    let randBytes := replicate (n - 4)%nat zero_byte in
    do (randBytes, _) <- rand_Read randBytes;
    ret (string_of_bytes (fillPassword randBytes password n)).

(** *** Updates of the receiver *)

Definition setComposeNetworks (m : GoMap ComposeValue) (g : Generator) : Generator :=
  let c := g_compose g in
  mkGenerator (g_project g)
    (mkComposeFile (cf_Version c) (cf_Services c) (cf_Volumes c) m)
    (g_envVars g) (g_dockerfiles g).

Definition setComposeVolumes (m : GoMap ComposeValue) (g : Generator) : Generator :=
  let c := g_compose g in
  mkGenerator (g_project g)
    (mkComposeFile (cf_Version c) (cf_Services c) m (cf_Networks c))
    (g_envVars g) (g_dockerfiles g).

(** [g.compose.Volumes[name] = map[string]interface{}{}]: the assignment
    panics while [Volumes] is nil. *)
Definition putComposeVolume (name : string) : M unit :=
  do g <- getG;
  match cf_Volumes (g_compose g) with
  | NilMap => panic
  | MadeMap m => modifyG (setComposeVolumes (MadeMap (<[ name := CVEmptyMap ]> m)))
  end.

(** [g.compose.Services[name] = service] *)
Definition putComposeService (name : string) (service : ComposeService)
    (g : Generator) : Generator :=
  let c := g_compose g in
  mkGenerator (g_project g)
    (mkComposeFile (cf_Version c) (<[ name := service ]> (cf_Services c))
       (cf_Volumes c) (cf_Networks c))
    (g_envVars g) (g_dockerfiles g).

(** [g.envVars = append(g.envVars, envs...)] *)
Definition appendEnvVars (envs : list EnvVar) (g : Generator) : Generator :=
  mkGenerator (g_project g) (g_compose g) (g_envVars g ++ envs) (g_dockerfiles g).

(** [g.dockerfiles[name] = dockerfile] *)
Definition putDockerfile (name dockerfile : string) (g : Generator) : Generator :=
  mkGenerator (g_project g) (g_compose g) (g_envVars g)
    (<[ name := dockerfile ]> (g_dockerfiles g)).

Definition datastoreHealth (test : list string) (startPeriod : string) : ComposeHealth :=
  {| ch_Test := test; ch_Interval := "10s"; ch_Timeout := "5s";
     ch_Retries := 5; ch_StartPeriod := startPeriod |}.

(** *** Service synthesis *)

Definition generateDatastoreService (ds : Datastore) (network : string)
    : M (ComposeService * list EnvVar * option string) :=
  do g <- getG;
  let projectName := proj_Name (g_project g) in
  let volumeName := ds_Name ds +:+ "-data" in
  do password <- generatePassword 16;
  if String.eqb (ds_Type ds) DatastorePostgres then
    let service :=
      {| svc_Image := "postgres:" +:+ ds_Tag ds;
         svc_Build := None;
         svc_ContainerName := projectName +:+ "-" +:+ ds_Name ds;
         svc_Ports := [goint.fmt_d (ds_Port ds) +:+ ":5432"];
         svc_Volumes := [volumeName +:+ ":/var/lib/postgresql/data"];
         svc_Environment := list_to_map [
           ("POSTGRES_USER", "${POSTGRES_USER:-postgres}");
           ("POSTGRES_PASSWORD", "${POSTGRES_PASSWORD}");
           ("POSTGRES_DB", "${POSTGRES_DB:-" +:+ projectName +:+ "}") ];
         svc_EnvFile := [];
         svc_DependsOn := [];
         svc_Networks := [network];
         svc_HealthCheck :=
           Some (datastoreHealth ["CMD-SHELL"; "pg_isready -U postgres"] "10s");
         svc_Restart := "unless-stopped";
         svc_Command := "";
         svc_User := "" |} in
    let envs := [
      mkEnvVar "POSTGRES_USER" "postgres" "PostgreSQL username" false;
      mkEnvVar "POSTGRES_PASSWORD" password "PostgreSQL password" true;
      mkEnvVar "POSTGRES_DB" projectName "PostgreSQL database name" false;
      mkEnvVar "DATABASE_URL"
        ("postgresql://postgres:" +:+ password +:+ "@" +:+ ds_Name ds
           +:+ ":5432/" +:+ projectName)
        "PostgreSQL connection string" true ] in
    ret (service, envs, None)
  else if String.eqb (ds_Type ds) DatastoreMySQL then
    let service :=
      {| svc_Image := "mysql:" +:+ ds_Tag ds;
         svc_Build := None;
         svc_ContainerName := projectName +:+ "-" +:+ ds_Name ds;
         svc_Ports := [goint.fmt_d (ds_Port ds) +:+ ":3306"];
         svc_Volumes := [volumeName +:+ ":/var/lib/mysql"];
         svc_Environment := list_to_map [
           ("MYSQL_ROOT_PASSWORD", "${MYSQL_ROOT_PASSWORD}");
           ("MYSQL_DATABASE", "${MYSQL_DATABASE:-" +:+ projectName +:+ "}");
           ("MYSQL_USER", "${MYSQL_USER:-app}");
           ("MYSQL_PASSWORD", "${MYSQL_PASSWORD}") ];
         svc_EnvFile := [];
         svc_DependsOn := [];
         svc_Networks := [network];
         svc_HealthCheck :=
           Some (datastoreHealth ["CMD"; "mysqladmin"; "ping"; "-h"; "localhost"] "30s");
         svc_Restart := "unless-stopped";
         svc_Command := "";
         svc_User := "" |} in
    do rootPassword <- generatePassword 16;
    let envs := [
      mkEnvVar "MYSQL_ROOT_PASSWORD" rootPassword "MySQL root password" true;
      mkEnvVar "MYSQL_DATABASE" projectName "MySQL database name" false;
      mkEnvVar "MYSQL_USER" "app" "MySQL application user" false;
      mkEnvVar "MYSQL_PASSWORD" password "MySQL application password" true;
      mkEnvVar "MYSQL_URL"
        ("mysql://app:" +:+ password +:+ "@" +:+ ds_Name ds
           +:+ ":3306/" +:+ projectName)
        "MySQL connection string" true ] in
    ret (service, envs, None)
  else if String.eqb (ds_Type ds) DatastoreMSSQL then
    let service :=
      {| svc_Image := "mcr.microsoft.com/mssql/server:" +:+ ds_Tag ds;
         svc_Build := None;
         svc_ContainerName := projectName +:+ "-" +:+ ds_Name ds;
         svc_Ports := [goint.fmt_d (ds_Port ds) +:+ ":1433"];
         svc_Volumes := [volumeName +:+ ":/var/opt/mssql"];
         svc_Environment := list_to_map [
           ("ACCEPT_EULA", "Y");
           ("MSSQL_SA_PASSWORD", "${MSSQL_SA_PASSWORD}");
           ("MSSQL_PID", "Developer") ];
         svc_EnvFile := [];
         svc_DependsOn := [];
         svc_Networks := [network];
         svc_HealthCheck :=
           Some (datastoreHealth
                   ["CMD-SHELL";
                    "/opt/mssql-tools/bin/sqlcmd -S localhost -U sa -P "
                      +:+ String dquote "$MSSQL_SA_PASSWORD"
                      +:+ String dquote " -Q "
                      +:+ String dquote "SELECT 1"
                      +:+ String dquote " || exit 1"]
                   "30s");
         svc_Restart := "unless-stopped";
         svc_Command := "";
         svc_User := "" |} in
    (* MSSQL requires strong passwords *)
    do strongPassword <- generateStrongPassword 16;
    let envs := [
      mkEnvVar "MSSQL_SA_PASSWORD" strongPassword
        "SQL Server SA password (Developer Edition)" true;
      mkEnvVar "MSSQL_URL"
        ("Server=" +:+ ds_Name ds +:+ ",1433;Database=master;User Id=sa;Password="
           +:+ strongPassword +:+ ";TrustServerCertificate=True")
        "SQL Server connection string" true ] in
    ret (service, envs, None)
  else if String.eqb (ds_Type ds) DatastoreNeo4j then
    let service :=
      {| svc_Image := "neo4j:" +:+ ds_Tag ds +:+ "-community";
         svc_Build := None;
         svc_ContainerName := projectName +:+ "-" +:+ ds_Name ds;
         svc_Ports := [goint.fmt_d (ds_Port ds) +:+ ":7474";
                       goint.fmt_d (goint.add (ds_Port ds) 213) +:+ ":7687"];
         svc_Volumes := [volumeName +:+ ":/data"; ds_Name ds +:+ "-logs:/logs"];
         svc_Environment := list_to_map [
           ("NEO4J_AUTH", "${NEO4J_AUTH:-neo4j/password}") ];
         svc_EnvFile := [];
         svc_DependsOn := [];
         svc_Networks := [network];
         svc_HealthCheck :=
           Some (datastoreHealth
                   ["CMD-SHELL";
                    "wget --no-verbose --tries=1 --spider http://localhost:7474 || exit 1"]
                   "30s");
         svc_Restart := "unless-stopped";
         svc_Command := "";
         svc_User := "" |} in
    putComposeVolume (ds_Name ds +:+ "-logs") ;;
    let envs := [
      mkEnvVar "NEO4J_AUTH" ("neo4j/" +:+ password)
        "Neo4j authentication (Community Edition)" true;
      mkEnvVar "NEO4J_URI" ("bolt://" +:+ ds_Name ds +:+ ":7687")
        "Neo4j Bolt connection URI" false ] in
    ret (service, envs, None)
  else if String.eqb (ds_Type ds) DatastoreRedis then
    let service :=
      {| svc_Image := "redis:" +:+ ds_Tag ds;
         svc_Build := None;
         svc_ContainerName := projectName +:+ "-" +:+ ds_Name ds;
         svc_Ports := [goint.fmt_d (ds_Port ds) +:+ ":6379"];
         svc_Volumes := [volumeName +:+ ":/data"];
         svc_Environment := ∅;
         svc_EnvFile := [];
         svc_DependsOn := [];
         svc_Networks := [network];
         svc_HealthCheck :=
           Some (datastoreHealth
                   ["CMD"; "redis-cli"; "--pass"; "${REDIS_PASSWORD}"; "ping"] "5s");
         svc_Restart := "unless-stopped";
         svc_Command := "redis-server --appendonly yes --requirepass ${REDIS_PASSWORD}";
         svc_User := "" |} in
    let envs := [
      mkEnvVar "REDIS_PASSWORD" password "Redis password" true;
      mkEnvVar "REDIS_URL"
        ("redis://:" +:+ password +:+ "@" +:+ ds_Name ds +:+ ":6379")
        "Redis connection string" true ] in
    ret (service, envs, None)
  else if String.eqb (ds_Type ds) DatastoreRedisStack then
    let service :=
      {| svc_Image := "redis/redis-stack:" +:+ ds_Tag ds;
         svc_Build := None;
         svc_ContainerName := projectName +:+ "-" +:+ ds_Name ds;
         svc_Ports := [goint.fmt_d (ds_Port ds) +:+ ":6379";
                       goint.fmt_d (goint.add (ds_Port ds) 1622) +:+ ":8001"];
         svc_Volumes := [volumeName +:+ ":/data"];
         svc_Environment := list_to_map [
           ("REDIS_ARGS", "--requirepass ${REDIS_STACK_PASSWORD}") ];
         svc_EnvFile := [];
         svc_DependsOn := [];
         svc_Networks := [network];
         svc_HealthCheck :=
           Some (datastoreHealth
                   ["CMD"; "redis-cli"; "--pass"; "${REDIS_STACK_PASSWORD}"; "ping"] "5s");
         svc_Restart := "unless-stopped";
         svc_Command := "";
         svc_User := "" |} in
    let envs := [
      mkEnvVar "REDIS_STACK_PASSWORD" password "Redis Stack password (Community)" true;
      mkEnvVar "REDIS_STACK_URL"
        ("redis://:" +:+ password +:+ "@" +:+ ds_Name ds +:+ ":6379")
        "Redis Stack connection string" true ] in
    ret (service, envs, None)
  else
    ret (zeroComposeService, [], None).

Definition generateRuntimeService (rt : Runtime) (network : string)
    : M (ComposeService * list EnvVar * string * option string) :=
  do g <- getG;
  let service :=
    {| svc_Image := "";
       svc_Build := Some (mkComposeBuild (rt_BuildContext rt) (rt_Dockerfile rt));
       svc_ContainerName := proj_Name (g_project g) +:+ "-" +:+ rt_Name rt;
       svc_Ports := [goint.fmt_d (rt_Port rt) +:+ ":" +:+ goint.fmt_d (rt_InternalPort rt)];
       svc_Volumes := ["./" +:+ rt_BuildContext rt +:+ ":/app"];
       svc_Environment := ∅;
       svc_EnvFile := [".env"];
       svc_DependsOn := rt_DependsOn rt;
       svc_Networks := [network];
       svc_HealthCheck := None;
       svc_Restart := "unless-stopped";
       svc_Command := "";
       svc_User := "" |} in
  let portVar :=
    mkEnvVar "PORT" (goint.fmt_d (rt_InternalPort rt)) "Application port" false in
  if String.eqb (rt_Type rt) RuntimeGo then
    ret (service,
         [mkEnvVar "GO_ENV" "development" "Go environment" false; portVar],
         GoDockerfile ext (rt_Framework rt), None)
  else if String.eqb (rt_Type rt) RuntimeNode then
    ret (service,
         [mkEnvVar "NODE_ENV" "development" "Node environment" false; portVar],
         NodeDockerfile ext (rt_Framework rt), None)
  else if String.eqb (rt_Type rt) RuntimePython then
    ret (service,
         [mkEnvVar "PYTHON_ENV" "development" "Python environment" false; portVar],
         PythonDockerfile ext (rt_Framework rt), None)
  else if String.eqb (rt_Type rt) RuntimeJava then
    ret (service,
         [mkEnvVar "JAVA_ENV" "development" "Java environment" false; portVar],
         JavaDockerfile ext (rt_Framework rt), None)
  else if String.eqb (rt_Type rt) RuntimeRust then
    ret (service,
         [mkEnvVar "RUST_ENV" "development" "Rust environment" false; portVar],
         RustDockerfile ext (rt_Framework rt), None)
  else if String.eqb (rt_Type rt) RuntimeCSharp then
    ret (service,
         [mkEnvVar "ASPNETCORE_ENVIRONMENT" "Development" ".NET environment" false;
          mkEnvVar "ASPNETCORE_URLS" ("http://+:" +:+ goint.fmt_d (rt_InternalPort rt))
            "ASP.NET Core URLs" false],
         CSharpDockerfile ext (rt_Framework rt), None)
  else
    ret (service, [], "", None).

(** *** Output assembly *)

Definition composeHeader : string :=
  "# Generated by stackgen - Local Development Environment Generator" +:+ "
" +:+ "# For local development and testing only." +:+ "
" +:+ "# Review configurations before any production use." +:+ "
" +:+ "#" +:+ "
" +:+ "# Usage:" +:+ "
" +:+ "#   docker compose up -d      # Start all services" +:+ "
" +:+ "#   docker compose down       # Stop all services" +:+ "
" +:+ "#   docker compose logs -f    # View logs" +:+ "
" +:+ "#" +:+ "
" +:+ "
".

Definition addComposeHeader (yaml : string) : string := composeHeader +:+ yaml.

Definition nl : string := "
".

(** One iteration of the [.env] loop: the builder's content so far is [acc]. *)
Definition writeEnvLine (acc : string) (env : EnvVar) : string :=
  let acc :=
    if String.eqb (env_Description env) "" then acc
    else acc +:+ "# " +:+ env_Description env +:+ nl in
  acc +:+ env_Key env +:+ "=" +:+ env_Value env +:+ nl.

(** One iteration of the [.env.example] loop. *)
Definition writeEnvExampleLine (acc : string) (env : EnvVar) : string :=
  let acc :=
    if String.eqb (env_Description env) "" then acc
    else acc +:+ "# " +:+ env_Description env +:+ nl in
  if env_Secret env then
    acc +:+ env_Key env +:+ "=<your-"
        +:+ strings_ToLower (strings_ReplaceAll1 (env_Key env) "_"%char "-"%char)
        +:+ ">" +:+ nl
  else
    acc +:+ env_Key env +:+ "=" +:+ env_Value env +:+ nl.

Definition renderEnvFile (envVars : list EnvVar) : string :=
  foldl writeEnvLine
    ("# Generated by stackgen - For local development only" +:+ nl +:+
     "# WARNING: Do not commit this file to version control" +:+ nl +:+ nl)
    envVars.

Definition renderEnvExampleFile (envVars : list EnvVar) : string :=
  foldl writeEnvExampleLine
    ("# Environment variables for stackgen" +:+ nl +:+
     "# Copy this file to .env and fill in the values" +:+ nl +:+ nl)
    envVars.

Definition buildOutput : M (result GeneratedOutput) :=
  do g <- getG;
  match yaml_Marshal ext (g_compose g) with
  | Err e => ret (Err ("failed to marshal compose file: " +:+ e))
  | Ok composeYAML =>
      ret (Ok {| ComposeYAML := addComposeHeader composeYAML;
                 EnvFile := renderEnvFile (g_envVars g);
                 EnvExampleFile := renderEnvExampleFile (g_envVars g);
                 out_GitIgnore := GitIgnore ext;
                 Dockerfiles := g_dockerfiles g |})
  end.

(** The loop over [g.project.Datastores]; [Some msg] is the early
    [return nil, err]. *)
Fixpoint processDatastores (networkName : string) (dss : list Datastore)
    : M (option string) :=
  match dss with
  | [] => ret None
  | ds :: dss' =>
      do (service, envs, err) <- generateDatastoreService ds networkName;
      match err with
      | Some e =>
          ret (Some ("failed to generate datastore " +:+ ds_Name ds +:+ ": " +:+ e))
      | None =>
          modifyG (putComposeService (ds_Name ds) service) ;;
          modifyG (appendEnvVars envs) ;;
          (* Add volume *)
          putComposeVolume (ds_Name ds +:+ "-data") ;;
          processDatastores networkName dss'
      end
  end.

(** The loop over [g.project.Runtimes]. *)
Fixpoint processRuntimes (networkName : string) (rts : list Runtime)
    : M (option string) :=
  match rts with
  | [] => ret None
  | rt :: rts' =>
      do (service, envs, dockerfile, err) <- generateRuntimeService rt networkName;
      match err with
      | Some e =>
          ret (Some ("failed to generate runtime " +:+ rt_Name rt +:+ ": " +:+ e))
      | None =>
          modifyG (putComposeService (rt_Name rt) service) ;;
          modifyG (appendEnvVars envs) ;;
          (if String.eqb dockerfile "" then ret tt
           else modifyG (putDockerfile (rt_Name rt) dockerfile)) ;;
          processRuntimes networkName rts'
      end
  end.

Definition Generate : M (result GeneratedOutput) :=
  do g <- getG;
  (* Initialize networks *)
  modifyG (setComposeNetworks
             (MadeMap {[ proj_Name (g_project g) +:+ "-network" :=
                           CVStringMap {[ "driver" := "bridge" ]} ]})) ;;
  modifyG (setComposeVolumes (MadeMap ∅)) ;;
  let networkName := proj_Name (g_project g) +:+ "-network" in
  (* Process datastores *)
  do err <- processDatastores networkName (proj_Datastores (g_project g));
  match err with
  | Some e => ret (Err e)
  | None =>
      (* Process runtimes *)
      do err <- processRuntimes networkName (proj_Runtimes (g_project g));
      match err with
      | Some e => ret (Err e)
      | None => buildOutput
      end
  end.

End Engine.

(** Does the service give every secret variable it assigns a plain
    reference [${KEY}], with no fallback default? *)
Definition credentialsPlain (service : ComposeService) (envs : list EnvVar) : bool :=
  forallb (λ e,
             if env_Secret e then
               match svc_Environment service !! env_Key e with
               | Some v => String.eqb v ("${" +:+ env_Key e +:+ "}")
               | None => true
               end
             else true)
          envs.

(** Two environment variables that agree on everything but, when they are
    flagged secret, their value. *)
Definition sameButSecret (e1 e2 : EnvVar) : Prop :=
  env_Key e1 = env_Key e2 ∧ env_Description e1 = env_Description e2 ∧
  env_Secret e1 = env_Secret e2 ∧
  (env_Secret e1 = false → env_Value e1 = env_Value e2).

(** [New] creates a Generator for a project: of the maps of the compose
    file it makes [Services] only. *)
Definition New (project : Project) : Generator :=
  {| g_project := project;
     g_compose := mkComposeFile "" ∅ NilMap NilMap;
     g_envVars := [];
     g_dockerfiles := ∅ |}.

(** One generation call as the commands make it: [New(project).Generate()],
    with the random source at its [reads]-th call. *)
Definition generate (ext : Externals) (rnd : RandSource) (project : Project)
    (reads : nat) : option (result GeneratedOutput * State) :=
  Generate ext rnd (mkState (New project) reads).

End generator.

(* ===================================================================== *)
(** ** cmd/add.go *)
(* ===================================================================== *)

Module cmd.
Import models gost.
Local Open Scope gost_scope.

(** What a command does to its surroundings, in order. *)
Inductive Event :=
  | EvWriteFile (path data : string)
  | EvGenerate (project : Project)
  | EvWriteToDir (dir : string) (output : generator.GeneratedOutput)
  | EvPrint (msg : string).

(** The collaborators of the command: the YAML encoder of the saved
    configuration, the file system and the terminal prompt. An error is
    [Some msg], [None] is [nil]. *)
Record System := mkSystem {
  yaml_MarshalProject : Project → generator.result string;
  os_WriteFile : string → string → option string;
  filepath_Abs : string → string;
  WriteToDir : generator.GeneratedOutput → string → option string;
  prompt_Run : string → list string → nat * string * option string
}.

(** The state a command runs in: the [*models.Project] it was handed, the
    reads made from the random source, and the effects so far. *)
Record World := mkWorld {
  w_project : Project;
  w_reads : nat;
  w_events : list Event
}.

Definition C (A : Type) : Type := SM World A.

Definition getProject : C Project := λ w, Some (w_project w, w).

Definition setProject (p : Project) : C unit :=
  λ w, Some (tt, mkWorld p (w_reads w) (w_events w)).

Definition emit (e : Event) : C unit :=
  λ w, Some (tt, mkWorld (w_project w) (w_reads w) (w_events w ++ [e])).

(** [getDefaultTag] of package [cmd]. *)
Definition defaultTagTable : gmap DatastoreType string :=
  list_to_map [
    (DatastorePostgres, "16-alpine");
    (DatastoreMySQL, "8.0");
    (DatastoreMSSQL, "2022-latest");
    (DatastoreNeo4j, "5");
    (DatastoreRedis, "7-alpine");
    (DatastoreRedisStack, "latest") ].

Definition getDefaultTag (dsType : DatastoreType) : string :=
  default "" (defaultTagTable !! dsType).

(** [usedPorts[port]] on a [map[int]bool]: absent keys read [false]. *)
Definition usedPort (usedPorts : gmap Z bool) (port : Z) : bool :=
  default false (usedPorts !! port).

(** [for usedPorts[port] { port += step }], run on fuel. *)
Fixpoint probePort (fuel : nat) (usedPorts : gmap Z bool) (step port : Z) : option Z :=
  match fuel with
  | O => None
  | S fuel' =>
      if usedPort usedPorts port
      then probePort fuel' usedPorts step (goint.add port step)
      else Some port
  end.

(** The inner loop of the name check: is [name] the name of a runtime? *)
Fixpoint runtimeNameExists (name : string) (rts : list Runtime) : bool :=
  match rts with
  | [] => false
  | rt :: rts' => if String.eqb (rt_Name rt) name then true else runtimeNameExists name rts'
  end.

(** The outer [for { ... }] of the name check, run on fuel: the loop
    variables are [name] and [counter]. *)
Fixpoint uniqueName (fuel : nat) (rts : list Runtime) (baseName name : string)
    (counter : Z) : option string :=
  match fuel with
  | O => None
  | S fuel' =>
      if runtimeNameExists name rts then
        let counter := goint.add counter 1 in
        uniqueName fuel' rts baseName (baseName +:+ "-" +:+ goint.fmt_d counter) counter
      else Some name
  end.

(** The first loop of [addDatastore]: is the kind already configured? *)
Fixpoint datastoreTypeExists (dsType : DatastoreType) (dss : list Datastore) : bool :=
  match dss with
  | [] => false
  | ds :: dss' =>
      if String.eqb (ds_Type ds) dsType then true else datastoreTypeExists dsType dss'
  end.

Section Commands.

Context (sys : System) (ext : generator.Externals) (rnd : generator.RandSource).

Definition saveAndRegenerate (configPath : string) : C (option string) :=
  do project <- getProject;
  (* Save stackgen.yaml *)
  match yaml_MarshalProject sys project with
  | generator.Err e => ret (Some ("failed to marshal config: " +:+ e))
  | generator.Ok data =>
      emit (EvWriteFile configPath data) ;;
      match os_WriteFile sys configPath data with
      | Some e => ret (Some ("failed to save config: " +:+ e))
      | None =>
          (* Regenerate *)
          emit (EvGenerate project) ;;
          do output <- (λ w,
            match generator.generate ext rnd project (w_reads w) with
            | None => None
            | Some (r, st) =>
                Some (r, mkWorld (w_project w) (generator.st_reads st) (w_events w))
            end);
          match output with
          | generator.Err e => ret (Some ("failed to generate configuration: " +:+ e))
          | generator.Ok output =>
              let outputDir := proj_OutputDir project in
              let outputDir := if String.eqb outputDir "" then "." else outputDir in
              let absOutput := filepath_Abs sys outputDir in
              emit (EvWriteToDir absOutput output) ;;
              ret (WriteToDir sys output absOutput)
          end
      end
  end.

Definition addDatastore (fuel : nat) (configPath : string) (dsType : DatastoreType)
    : C (option string) :=
  do project <- getProject;
  (* Check if already exists *)
  if datastoreTypeExists dsType (proj_Datastores project) then
    ret (Some (dsType +:+ " is already in the configuration"))
  else
    let info := GetDatastoreInfo dsType in
    (* Find available port *)
    let port := di_DefaultPort info in
    let usedPorts : gmap Z bool :=
      foldl (λ m ds, <[ ds_Port ds := true ]> m) ∅ (proj_Datastores project) in
    match probePort fuel usedPorts 1 port with
    | None => panic
    | Some port =>
        let ds :=
          {| ds_Type := dsType;
             ds_Name := dsType;
             ds_Image := "";
             ds_Tag := getDefaultTag dsType;
             ds_Port := port;
             ds_InternalPort := di_DefaultPort info;
             ds_Volumes := [];
             ds_Environment := ∅;
             ds_HealthCheck := None;
             ds_Networks := [] |} in
        setProject
          (mkProject (proj_Name project) (proj_OutputDir project)
             (proj_Datastores project ++ [ds]) (proj_Runtimes project)
             (proj_Networks project) (proj_Profile project)) ;;
        (* Save and regenerate *)
        do err <- saveAndRegenerate configPath;
        match err with
        | Some e => ret (Some e)
        | None =>
            emit (EvPrint ("Added " +:+ di_DisplayName info +:+ " (port "
                             +:+ goint.fmt_d port +:+ ")")) ;;
            ret None
        end
    end.

Definition addRuntime (fuel : nat) (configPath : string) (rtType : RuntimeType)
    : C (option string) :=
  do project <- getProject;
  let info := GetRuntimeInfo rtType in
  (* Select framework if multiple available *)
  match ri_Frameworks info with
  | [] => panic (* info.Frameworks[0]: index out of range *)
  | framework0 :: _ =>
      let framework :=
        if (1 <? length (ri_Frameworks info))%nat
        then (prompt_Run sys "Select framework" (ri_Frameworks info)).1.2
        else framework0 in
      (* Check for duplicate name *)
      let baseName := rtType +:+ "-app" in
      match uniqueName fuel (proj_Runtimes project) baseName baseName 1 with
      | None => panic
      | Some name =>
          (* Find available port *)
          let port := ri_DefaultPort info in
          let usedPorts : gmap Z bool :=
            foldl (λ m rt, <[ rt_Port rt := true ]> m) ∅ (proj_Runtimes project) in
          match probePort fuel usedPorts 1000 port with
          | None => panic
          | Some port =>
              (* Build depends_on from datastores *)
              let dependsOn :=
                foldl (λ deps ds, deps ++ [ds_Name ds]) [] (proj_Datastores project) in
              let rt :=
                {| rt_Type := rtType;
                   rt_Name := name;
                   rt_Framework := framework;
                   rt_Port := port;
                   rt_InternalPort := ri_DefaultPort info;
                   rt_BuildContext := name;
                   rt_Dockerfile := "Dockerfile";
                   rt_Volumes := [];
                   rt_Environment := ∅;
                   rt_Command := "";
                   rt_DependsOn := dependsOn;
                   rt_Networks := [] |} in
              setProject
                (mkProject (proj_Name project) (proj_OutputDir project)
                   (proj_Datastores project) (proj_Runtimes project ++ [rt])
                   (proj_Networks project) (proj_Profile project)) ;;
              (* Save and regenerate *)
              do err <- saveAndRegenerate configPath;
              match err with
              | Some e => ret (Some e)
              | None =>
                  emit (EvPrint ("Added " +:+ ri_DisplayName info +:+ " ["
                                   +:+ framework +:+ "] (port "
                                   +:+ goint.fmt_d port +:+ ")")) ;;
                  ret None
              end
          end
      end
  end.

End Commands.

(* --------------------------------------------------------------------- *)
(** *** The commands: cmd/root.go, cmd/add.go, cmd/generate.go, cmd/init.go *)
(* --------------------------------------------------------------------- *)

(** The outcome of [os.Stat], as far as the commands look at it:
    [err == nil], [os.IsNotExist(err)], or another error. *)
Inductive StatResult := StatOk | StatNotExist | StatOtherError.

(** The flags of [root.go] and [init.go], and the further collaborators of
    the commands: the file system as it is queried, the YAML decoder of the
    saved configuration, the path functions, [strings.ToLower] (which maps
    letters beyond ASCII too), the confirmation prompt, and the order in
    which a [range] runs over the recipes of a bundle. *)
Record Shell := mkShell {
  cfgFile : string;
  dryRun : bool;
  forceWrite : bool;
  composeOut : string;
  projectName : string;
  outputDir : string;
  profileName : string;
  skipPrompts : bool;
  os_Stat : string → StatResult;
  os_Getwd : string;
  os_ReadFile : string → generator.result string;
  yaml_UnmarshalProject : string → generator.result Project;
  filepath_Base : string → string;
  filepath_Dir : string → string;
  filepath_Join : string → string → string;
  strings_ToLower : string → string;
  confirm_Run : string → option string;
  range_Dockerfiles : gmap string string → list (string * string)
}.

(** One answer of the terminal to a prompt of [init]: the index and the
    value of a [promptui.Select], or the text of a [promptui.Prompt], and
    the error. *)
Record Answer := mkAnswer {
  an_idx : nat;
  an_value : string;
  an_err : option string
}.

(** [init] asks an unbounded number of questions: its state also holds the
    answers the terminal is still going to give. *)
Record Session := mkSession {
  s_world : World;
  s_answers : list Answer
}.

Definition Interactive (A : Type) : Type := SM Session A.

Definition liftC {A : Type} (c : C A) : Interactive A :=
  λ s, match c (s_world s) with
       | None => None
       | Some (a, w) => Some (a, mkSession w (s_answers s))
       end.

(** [prompt.Run()]: the next answer; without one the run does not go on. *)
Definition ask : Interactive Answer :=
  λ s, match s_answers s with
       | [] => None
       | a :: rest => Some (a, mkSession (s_world s) rest)
       end.

(** The item tables of [selectDatastores] and [selectRuntimes]: name, kind,
    description (and edition). The kind of the last item is empty. *)
Definition datastoreItems : list (string * DatastoreType * string * string) :=
  [ ("PostgreSQL", DatastorePostgres, "Relational database", "Official Image");
    ("MySQL", DatastoreMySQL, "Relational database", "Official Image");
    ("SQL Server", DatastoreMSSQL, "Microsoft SQL Server", "Developer Edition");
    ("Neo4j", DatastoreNeo4j, "Graph database", "Community Edition");
    ("Redis", DatastoreRedis, "In-memory cache", "Community");
    ("Redis Stack", DatastoreRedisStack, "Redis + modules", "Community");
    ("[Done]", "", "Finish selection", "") ].

Definition runtimeItems : list (string * RuntimeType * string) :=
  [ ("Go", RuntimeGo, "Fast, statically typed");
    ("Node.js", RuntimeNode, "JavaScript runtime");
    ("Python", RuntimePython, "Versatile scripting");
    ("Java", RuntimeJava, "Enterprise JVM");
    ("Rust", RuntimeRust, "Memory-safe systems");
    ("C# / .NET", RuntimeCSharp, "Microsoft .NET");
    ("[Done]", "", "Finish selection") ].

(** The [for { ... }] of both selections, one answer per round: [types]
    are the kinds of the items, [selected] and [selectedMap] the loop
    variables. The display strings built in each round only go to the
    prompt. [items[idx]] out of range panics. After the loop the result is
    [selected] without the kinds that are off in [selectedMap]. *)
Fixpoint toggleLoop (types : list string) (answers : list Answer)
    (selected : list string) (selectedMap : gmap string bool)
    : option (generator.result (list string) * list Answer) :=
  match answers with
  | [] => None
  | a :: answers' =>
      match an_err a with
      | Some e => Some (generator.Err e, answers')
      | None =>
          match types !! an_idx a with
          | None => None
          | Some t =>
              if String.eqb t "" then
                (* Done selected *)
                Some (generator.Ok
                        (List.filter (λ ds, default false (selectedMap !! ds)) selected),
                      answers')
              else if default false (selectedMap !! t) then
                (* Toggle selection *)
                toggleLoop types answers' selected (delete t selectedMap)
              else
                toggleLoop types answers' (selected ++ [t]) (<[ t := true ]> selectedMap)
          end
      end
  end.

Definition selectDatastores : Interactive (generator.result (list DatastoreType)) :=
  λ s, match toggleLoop (map (λ item, item.1.1.2) datastoreItems) (s_answers s) [] ∅ with
       | None => None
       | Some (r, rest) => Some (r, mkSession (s_world s) rest)
       end.

Definition selectRuntimes : Interactive (generator.result (list RuntimeType)) :=
  λ s, match toggleLoop (map (λ item, item.1.2) runtimeItems) (s_answers s) [] ∅ with
       | None => None
       | Some (r, rest) => Some (r, mkSession (s_world s) rest)
       end.

Definition selectFramework (rtType : RuntimeType) (frameworks : list string)
    : Interactive string :=
  match frameworks with
  | [] => ret ""
  | [framework] => ret framework
  | framework0 :: _ =>
      do a <- ask;
      match an_err a with
      | Some _ => ret framework0
      | None => ret (an_value a)
      end
  end.

(** The first loop of [interactiveInit]: configure the selected datastores. *)
Fixpoint configureDatastores (selected : list DatastoreType) (portOffset : Z)
    (project : Project) : C Project :=
  match selected with
  | [] => ret project
  | dsType :: selected' =>
      let info := GetDatastoreInfo dsType in
      let ds :=
        {| ds_Type := dsType;
           ds_Name := dsType;
           ds_Image := "";
           ds_Tag := getDefaultTag dsType;
           ds_Port := goint.add (di_DefaultPort info) portOffset;
           ds_InternalPort := di_DefaultPort info;
           ds_Volumes := [];
           ds_Environment := ∅;
           ds_HealthCheck := None;
           ds_Networks := [] |} in
      let project :=
        mkProject (proj_Name project) (proj_OutputDir project)
          (proj_Datastores project ++ [ds]) (proj_Runtimes project)
          (proj_Networks project) (proj_Profile project) in
      emit (EvPrint (di_DisplayName info +:+ " (port "
                       +:+ goint.fmt_d (ds_Port ds) +:+ ")")) ;;
      configureDatastores selected' portOffset project
  end.

(** The second loop of [interactiveInit]: configure the selected runtimes. *)
Fixpoint configureRuntimes (selected : list RuntimeType) (dependsOn : list string)
    (runtimePortOffset : Z) (project : Project) : Interactive Project :=
  match selected with
  | [] => ret project
  | rtType :: selected' =>
      let info := GetRuntimeInfo rtType in
      (* Select framework *)
      do framework <- selectFramework rtType (ri_Frameworks info);
      let rt :=
        {| rt_Type := rtType;
           rt_Name := rtType +:+ "-app";
           rt_Framework := framework;
           rt_Port := goint.add (ri_DefaultPort info) runtimePortOffset;
           rt_InternalPort := ri_DefaultPort info;
           rt_BuildContext := rtType +:+ "-app";
           rt_Dockerfile := "Dockerfile";
           rt_Volumes := [];
           rt_Environment := ∅;
           rt_Command := "";
           rt_DependsOn := dependsOn;
           rt_Networks := [] |} in
      let project :=
        mkProject (proj_Name project) (proj_OutputDir project)
          (proj_Datastores project) (proj_Runtimes project ++ [rt])
          (proj_Networks project) (proj_Profile project) in
      liftC (emit (EvPrint (ri_DisplayName info +:+ " [" +:+ framework +:+ "] (port "
                              +:+ goint.fmt_d (rt_Port rt) +:+ ")"))) ;;
      configureRuntimes selected' dependsOn (goint.add runtimePortOffset 1000) project
  end.

(** An [EvPrint] holds the text of a message, without colour, pictograph
    and surrounding line breaks. *)
Definition interactiveInit (name outDir : string)
    : Interactive (generator.result Project) :=
  let project :=
    {| proj_Name := name; proj_OutputDir := outDir; proj_Datastores := [];
       proj_Runtimes := []; proj_Networks := []; proj_Profile := "" |} in
  (* Select datastores *)
  liftC (emit (EvPrint "Select datastores:")) ;;
  do selectedDatastores <- selectDatastores;
  match selectedDatastores with
  | generator.Err e => ret (generator.Err e)
  | generator.Ok selectedDatastores =>
      (* Configure selected datastores *)
      do project <- liftC (configureDatastores selectedDatastores 0 project);
      (* Select runtimes *)
      liftC (emit (EvPrint "")) ;;
      liftC (emit (EvPrint "Select runtimes:")) ;;
      do selectedRuntimes <- selectRuntimes;
      match selectedRuntimes with
      | generator.Err e => ret (generator.Err e)
      | generator.Ok selectedRuntimes =>
          (* Configure selected runtimes *)
          let dependsOn :=
            foldl (λ deps ds, deps ++ [ds_Name ds]) [] (proj_Datastores project) in
          do project <- configureRuntimes selectedRuntimes dependsOn 0 project;
          ret (generator.Ok project)
      end
  end.

Section Callers.

Context (sh : Shell) (sys : System) (ext : generator.Externals)
        (rnd : generator.RandSource).

(** [generator.New(project).Generate()] as a step of a command. *)
Definition New_Generate (project : Project)
    : C (generator.result generator.GeneratedOutput) :=
  emit (EvGenerate project) ;;
  (λ w, match generator.generate ext rnd project (w_reads w) with
        | None => None
        | Some (r, st) =>
            Some (r, mkWorld (w_project w) (generator.st_reads st) (w_events w))
        end).

(** The loop of [GeneratedOutput.Print] over the recipes. *)
Fixpoint printDockerfiles (dockerfiles : list (string * string)) : C unit :=
  match dockerfiles with
  | [] => ret tt
  | (name, content) :: rest =>
      emit (EvPrint ("=== " +:+ name +:+ "/Dockerfile ===")) ;;
      emit (EvPrint content) ;;
      printDockerfiles rest
  end.

(** [GeneratedOutput.Print] of generator.go, for [--dry-run]. *)
Definition GeneratedOutput_Print (out : generator.GeneratedOutput) : C unit :=
  emit (EvPrint "=== docker-compose.yml ===") ;;
  emit (EvPrint (generator.ComposeYAML out)) ;;
  emit (EvPrint "=== .env ===") ;;
  emit (EvPrint (generator.EnvFile out)) ;;
  emit (EvPrint "=== .env.example ===") ;;
  emit (EvPrint (generator.EnvExampleFile out)) ;;
  printDockerfiles (range_Dockerfiles sh (generator.Dockerfiles out)).

(** **** cmd/add.go *)

Definition interactiveAdd (fuel : nat) (configPath : string) : C (option string) :=
  match prompt_Run sys "What do you want to add?" ["Datastore"; "Runtime"] with
  | (_, _, Some err) => ret (Some err)
  | (idx, _, None) =>
      if (idx =? 0)%nat then
        (* Add datastore *)
        let items :=
          foldl (λ items ds,
                   let info := GetDatastoreInfo ds in
                   items ++ [ds +:+ " - " +:+ di_Description info +:+ " ["
                             +:+ di_Edition info +:+ "]"])
                [] AvailableDatastores in
        match prompt_Run sys "Select datastore" items with
        | (_, _, Some err) => ret (Some err)
        | (dsIdx, _, None) =>
            match AvailableDatastores !! dsIdx with
            | None => panic (* index out of range *)
            | Some dsType => addDatastore sys ext rnd fuel configPath dsType
            end
        end
      else
        (* Add runtime *)
        let items :=
          foldl (λ items rt,
                   let info := GetRuntimeInfo rt in
                   items ++ [rt +:+ " - " +:+ ri_Description info])
                [] AvailableRuntimes in
        match prompt_Run sys "Select runtime" items with
        | (_, _, Some err) => ret (Some err)
        | (rtIdx, _, None) =>
            match AvailableRuntimes !! rtIdx with
            | None => panic (* index out of range *)
            | Some rtType => addRuntime sys ext rnd fuel configPath rtType
            end
        end
  end.

(** The configuration [runAdd] starts from: the saved one, or a minimal
    project named after the working directory when only a compose file is
    there. *)
Definition loadForAdd (configPath : string) : generator.result Project :=
  match os_Stat sh configPath with
  | StatNotExist =>
      (* Try to infer from docker-compose.yml *)
      match os_Stat sh "docker-compose.yml" with
      | StatNotExist =>
          generator.Err "no configuration found. Run 'stackgen init' first"
      | _ =>
          (* Create minimal project from directory name *)
          let cwd := os_Getwd sh in
          generator.Ok
            {| proj_Name := filepath_Base sh cwd; proj_OutputDir := ".";
               proj_Datastores := []; proj_Runtimes := []; proj_Networks := [];
               proj_Profile := "" |}
      end
  | _ =>
      (* Read existing config *)
      match os_ReadFile sh configPath with
      | generator.Err e => generator.Err ("failed to read config file: " +:+ e)
      | generator.Ok data =>
          match yaml_UnmarshalProject sh data with
          | generator.Err e => generator.Err ("failed to parse config file: " +:+ e)
          | generator.Ok project => generator.Ok project
          end
      end
  end.

(** [runAdd]: the project it loads becomes the project of the world. *)
Definition runAdd (fuel : nat) (args : list string) : C (option string) :=
  (* Find config file *)
  let configPath := cfgFile sh in
  let configPath := if String.eqb configPath "" then "stackgen.yaml" else configPath in
  match loadForAdd configPath with
  | generator.Err e => ret (Some e)
  | generator.Ok project =>
      setProject project ;;
      (* Interactive or argument-based *)
      match args with
      | args0 :: args1 :: _ =>
          let category := strings_ToLower sh args0 in
          let typeName := strings_ToLower sh args1 in
          if String.eqb category "datastore" || String.eqb category "ds"
             || String.eqb category "d" then
            addDatastore sys ext rnd fuel configPath typeName
          else if String.eqb category "runtime" || String.eqb category "rt"
                  || String.eqb category "r" then
            addRuntime sys ext rnd fuel configPath typeName
          else
            ret (Some ("unknown category: " +:+ category
                         +:+ ". Use: datastore or runtime"))
      | _ => interactiveAdd fuel configPath
      end
  end.

(** **** cmd/generate.go *)

(** [runGenerate]: the project it decodes becomes the project of the world. *)
Definition runGenerate : C (option string) :=
  (* Find config file *)
  let configPath := cfgFile sh in
  let configPath := if String.eqb configPath "" then "stackgen.yaml" else configPath in
  (* Check if file exists *)
  match os_Stat sh configPath with
  | StatNotExist =>
      ret (Some ("config file not found: " +:+ configPath +:+ generator.nl
                   +:+ "Run 'stackgen init' to create a new configuration"))
  | _ =>
      (* Read config *)
      match os_ReadFile sh configPath with
      | generator.Err e => ret (Some ("failed to read config file: " +:+ e))
      | generator.Ok data =>
          match yaml_UnmarshalProject sh data with
          | generator.Err e => ret (Some ("failed to parse config file: " +:+ e))
          | generator.Ok project =>
              setProject project ;;
              emit (EvPrint ("Generating from " +:+ configPath +:+ "...")) ;;
              (* Generate *)
              do output <- New_Generate project;
              match output with
              | generator.Err e =>
                  ret (Some ("failed to generate configuration: " +:+ e))
              | generator.Ok output =>
                  (* Output *)
                  if dryRun sh then
                    emit (EvPrint "Dry run - previewing generated files:") ;;
                    GeneratedOutput_Print output ;;
                    ret None
                  else
                    (* Determine output directory *)
                    let outputDir := proj_OutputDir project in
                    let outputDir :=
                      if String.eqb (composeOut sh) "" then outputDir
                      else filepath_Dir sh (composeOut sh) in
                    let outputDir := if String.eqb outputDir "" then "." else outputDir in
                    let absOutput := filepath_Abs sys outputDir in
                    (* Check for existing files and prompt if --force not set *)
                    let cancelled :=
                      if forceWrite sh then false
                      else
                        let composeFileName :=
                          if String.eqb (composeOut sh) "" then "docker-compose.yml"
                          else filepath_Base sh (composeOut sh) in
                        let composePath := filepath_Join sh absOutput composeFileName in
                        match os_Stat sh composePath with
                        | StatOk =>
                            match confirm_Run sh ("File " +:+ composePath
                                                    +:+ " exists. Overwrite") with
                            | Some _ => true
                            | None => false
                            end
                        | _ => false
                        end in
                    if cancelled then
                      emit (EvPrint "Cancelled.") ;;
                      ret None
                    else
                      emit (EvWriteToDir absOutput output) ;;
                      match WriteToDir sys output absOutput with
                      | Some e => ret (Some ("failed to write files: " +:+ e))
                      | None =>
                          emit (EvPrint "Configuration regenerated successfully!") ;;
                          ret None
                      end
              end
          end
      end
  end.

(** **** cmd/init.go *)

Definition sanitizeName (name : string) : string :=
  let name := strings_ToLower sh name in
  let name := generator.strings_ReplaceAll1 name " "%char "-"%char in
  let name := generator.strings_ReplaceAll1 name "_"%char "-"%char in
  name.

(** The loop of [runInit] over the names of the recipes. *)
Fixpoint printDockerfileNames (dockerfiles : list (string * string)) : C unit :=
  match dockerfiles with
  | [] => ret tt
  | (name, _) :: rest =>
      emit (EvPrint (name +:+ "/Dockerfile")) ;;
      printDockerfileNames rest
  end.

(** [runInit]: the project it builds becomes the project of the world; the
    global [projectName] it assigns is the local name here. *)
Definition runInit : Interactive (option string) :=
  (* Get project name *)
  do named <-
    (if String.eqb (projectName sh) "" then
       let cwd := os_Getwd sh in
       let projectName := filepath_Base sh cwd in
       if skipPrompts sh then ret (generator.Ok projectName)
       else
         do a <- ask;
         match an_err a with
         | Some err => ret (generator.Err err)
         | None => ret (generator.Ok (sanitizeName (an_value a)))
         end
     else ret (generator.Ok (projectName sh)));
  match named with
  | generator.Err err => ret (Some err)
  | generator.Ok projectName =>
      liftC (emit (EvPrint "stackgen - Local Development Environment Generator")) ;;
      liftC (emit (EvPrint ("   Project: " +:+ projectName))) ;;
      (* Check if using a profile *)
      do built <-
        (if String.eqb (profileName sh) "" then
           (* Interactive selection *)
           interactiveInit projectName (outputDir sh)
         else
           match profiles.GetProfile (profileName sh) with
           | None =>
               ret (generator.Err
                      ("unknown profile: " +:+ profileName sh +:+
                       ". Run 'stackgen list profiles' to see available profiles"))
           | Some profile =>
               let project :=
                 profiles.BuildProjectFromProfile profile projectName (outputDir sh) in
               liftC (emit (EvPrint ("Using profile: " +:+ profiles.prof_Name profile))) ;;
               liftC (emit (EvPrint ("  " +:+ profiles.prof_Description profile))) ;;
               ret (generator.Ok project)
           end);
      match built with
      | generator.Err err => ret (Some err)
      | generator.Ok project =>
          liftC (setProject project) ;;
          (* Generate configuration *)
          do output <- liftC (New_Generate project);
          match output with
          | generator.Err e =>
              ret (Some ("failed to generate configuration: " +:+ e))
          | generator.Ok output =>
              (* Output *)
              if dryRun sh then
                liftC (emit (EvPrint "Dry run - previewing generated files:")) ;;
                liftC (GeneratedOutput_Print output) ;;
                ret None
              else
                (* Write files *)
                let absOutput := filepath_Abs sys (outputDir sh) in
                liftC (emit (EvWriteToDir absOutput output)) ;;
                match WriteToDir sys output absOutput with
                | Some e => ret (Some ("failed to write files: " +:+ e))
                | None =>
                    (* Success message *)
                    liftC (emit (EvPrint
                             "stackgen configuration generated successfully!")) ;;
                    liftC (emit (EvPrint "Generated files:")) ;;
                    liftC (emit (EvPrint "docker-compose.yml")) ;;
                    liftC (emit (EvPrint ".env")) ;;
                    liftC (emit (EvPrint ".env.example")) ;;
                    liftC (emit (EvPrint ".gitignore")) ;;
                    liftC (printDockerfileNames
                             (range_Dockerfiles sh (generator.Dockerfiles output))) ;;
                    liftC (emit (EvPrint "Next steps:")) ;;
                    liftC (emit (EvPrint
                             "  1. Review the generated .env file and adjust values as needed")) ;;
                    liftC (emit (EvPrint "  2. Run: docker compose up -d")) ;;
                    liftC (emit (EvPrint "  3. Check status: docker compose ps")) ;;
                    liftC (emit (EvPrint "")) ;;
                    liftC (emit (EvPrint "For local development and testing only.")) ;;
                    liftC (emit (EvPrint
                             "   Review configurations before any production use.")) ;;
                    liftC (emit (EvPrint "")) ;;
                    ret None
                end
          end
      end
  end.

End Callers.

End cmd.


(* ===================================================================== *)
(** ** Concrete collaborators and projects *)
(* ===================================================================== *)

Module examples.
Import models generator.

(** A YAML encoder that lists the service names, and one-line recipes. *)
Definition ext0 : Externals :=
  {| GoDockerfile := λ fw, "FROM golang:1.22-alpine # " +:+ fw;
     NodeDockerfile := λ fw, "FROM node:20-alpine # " +:+ fw;
     PythonDockerfile := λ fw, "FROM python:3.12-slim # " +:+ fw;
     JavaDockerfile := λ fw, "FROM eclipse-temurin:21 # " +:+ fw;
     RustDockerfile := λ fw, "FROM rust:1.77 # " +:+ fw;
     CSharpDockerfile := λ fw, "FROM mcr.microsoft.com/dotnet/sdk:8.0 # " +:+ fw;
     GitIgnore := ".env";
     yaml_Marshal := λ c,
       Ok ("services: " +:+
           foldr (λ kv acc, kv.1 +:+ " " +:+ acc) "" (map_to_list (cf_Services c))) |}.

(** A source that answers every read with the same sixteen bytes. *)
Definition rndFixed : RandSource :=
  λ _, mkReadResult
         [Byte.x00; Byte.x46; Byte.x12; Byte.xfe; Byte.x80; Byte.x07; Byte.xa5; Byte.x3c;
          Byte.x99; Byte.x42; Byte.x10; Byte.xff; Byte.x01; Byte.x23; Byte.x45; Byte.x67]
         None.

(** A source whose k-th read answers sixteen copies of the byte k mod 256. *)
Definition rndCounting : RandSource :=
  λ k, mkReadResult
         (replicate 16 (default Byte.x00 (Byte.of_N (N.of_nat (k mod 256)))))
         None.

Definition datastore (t : DatastoreType) (port : Z) : Datastore :=
  {| ds_Type := t; ds_Name := t; ds_Image := ""; ds_Tag := "1";
     ds_Port := port; ds_InternalPort := port; ds_Volumes := [];
     ds_Environment := ∅; ds_HealthCheck := None; ds_Networks := [] |}.

Definition runtime (t : RuntimeType) (name : string) (port : Z) : Runtime :=
  {| rt_Type := t; rt_Name := name; rt_Framework := "stdlib";
     rt_Port := port; rt_InternalPort := port; rt_BuildContext := name;
     rt_Dockerfile := "Dockerfile"; rt_Volumes := []; rt_Environment := ∅;
     rt_Command := ""; rt_DependsOn := []; rt_Networks := [] |}.

Definition project (dss : list Datastore) (rts : list Runtime) : Project :=
  {| proj_Name := "demo"; proj_OutputDir := "."; proj_Datastores := dss;
     proj_Runtimes := rts; proj_Networks := []; proj_Profile := "" |}.

Definition st0 (p : Project) : State := mkState (New p) 0.

(** The receiver as [Generate] has initialised it before its loops: the
    network and the volume map are made. *)
Definition stMade (p : Project) : State :=
  mkState
    (setComposeVolumes (MadeMap ∅)
       (setComposeNetworks
          (MadeMap {[ proj_Name p +:+ "-network" :=
                        CVStringMap {[ "driver" := "bridge" ]} ]})
          (New p)))
    0.

(** A system where every write succeeds and the prompt picks the first item. *)
Definition sys0 : cmd.System :=
  {| cmd.yaml_MarshalProject := λ p, Ok ("name: " +:+ proj_Name p);
     cmd.os_WriteFile := λ _ _, None;
     cmd.filepath_Abs := λ d, "/work/" +:+ d;
     cmd.WriteToDir := λ _ _, None;
     cmd.prompt_Run := λ _ items, (0%nat, default "" (head items), None) |}.

(** A configuration with a cache on 6379, and a Go and a second Go runtime. *)
Definition world0 : cmd.World :=
  cmd.mkWorld
    (project [datastore DatastorePostgres 5432; datastore DatastoreRedis 6379]
             [runtime RuntimeGo "go-app" 8080; runtime RuntimeGo "go-app-2" 9080])
    0 [].

(** The same system on a read-only file system. *)
Definition sysReadOnly : cmd.System :=
  {| cmd.yaml_MarshalProject := λ p, Ok ("name: " +:+ proj_Name p);
     cmd.os_WriteFile := λ _ _, Some "read-only file system";
     cmd.filepath_Abs := λ d, "/work/" +:+ d;
     cmd.WriteToDir := λ _ _, Some "read-only file system";
     cmd.prompt_Run := λ _ items, (0%nat, default "" (head items), None) |}.

(** The world a command leaves, for a run that returns. *)
Definition worldAfter (r : option (option string * cmd.World)) : cmd.World :=
  match r with
  | Some (_, w) => w
  | None => world0
  end.

(** A working directory /work/demo that holds the files [present]; the
    saved configuration decodes to [saved]. The flags are [dry] for
    --dry-run, [force] for --force and [profile] for --profile. *)
Definition shell (present : list string) (saved : Project) (dry force : bool)
    (profile : string) : cmd.Shell :=
  {| cmd.cfgFile := ""; cmd.dryRun := dry; cmd.forceWrite := force;
     cmd.composeOut := ""; cmd.projectName := ""; cmd.outputDir := ".";
     cmd.profileName := profile; cmd.skipPrompts := true;
     cmd.os_Stat := λ path,
       if existsb (String.eqb path) present then cmd.StatOk else cmd.StatNotExist;
     cmd.os_Getwd := "/work/demo";
     cmd.os_ReadFile := λ path, Ok ("contents of " +:+ path);
     cmd.yaml_UnmarshalProject := λ _, Ok saved;
     cmd.filepath_Base := λ path,
       if String.eqb path "/work/demo" then "demo" else path;
     cmd.filepath_Dir := λ _, ".";
     cmd.filepath_Join := λ dir name, dir +:+ "/" +:+ name;
     cmd.strings_ToLower := strings_ToLower;
     cmd.confirm_Run := λ _, Some "^C";
     cmd.range_Dockerfiles := map_to_list |}.

(** The bundle generated for a project, and the generator's state after
    it, with the recipes of [ext0] and the fixed random source. *)
Definition generated (p : Project) : GeneratedOutput :=
  match generate ext0 rndFixed p 0 with
  | Some (Ok out, _) => out
  | _ => {| ComposeYAML := ""; EnvFile := ""; EnvExampleFile := "";
            out_GitIgnore := ""; Dockerfiles := ∅ |}
  end.

Definition generatedState (p : Project) : State :=
  match generate ext0 rndFixed p 0 with
  | Some (_, st) => st
  | None => st0 p
  end.

End examples.

Module GeneratorFacts.
Import models gost generator.

Lemma bind_Some {S A B : Type} (c : SM S A) (k : A → SM S B) (st : S) (a : A) (st' : S) :
  c st = Some (a, st') → bind c k st = k a st'.
Proof. intros H. unfold bind. rewrite H. done. Qed.

Lemma string_get_of_list (l : list ascii) (i : nat) :
  String.get i (String.string_of_list_ascii l) = l !! i.
Proof.
  revert i. induction l as [|c l IH]; intros [|i]; simpl; auto.
Qed.

Lemma string_length_of_list (l : list ascii) :
  String.length (String.string_of_list_ascii l) = length l.
Proof. induction l; simpl; auto. Qed.

Lemma readInto_length r b : length (readInto r b) = length b.
Proof.
  unfold readInto. rewrite length_take, length_app, length_drop. lia.
Qed.

Section Fill.
Context {A : Type} (f : nat → A).

Lemma fill_lookup (a k : nat) (pw : list A) (i : nat) :
  foldl (λ pw i, <[ i := f i ]> pw) pw (seq a k) !! i =
  if bool_decide (a ≤ i < a + k)%nat then (λ _, f i) <$> pw !! i else pw !! i.
Proof.
  revert pw. induction k as [|k IH]; intros pw.
  - simpl. rewrite bool_decide_eq_false_2 by lia. done.
  - rewrite seq_S, foldl_app. simpl.
    destruct (decide (i = a + k)%nat) as [->|Hne].
    + rewrite bool_decide_eq_true_2 by lia.
      destruct (decide (a + k < length pw)%nat) as [Hlt|Hge].
      * rewrite list_lookup_insert_eq
          by (clear -Hlt; revert pw Hlt; induction (seq a k); intros; simpl;
              [done | apply IHl; rewrite length_insert; done]).
        destruct (lookup_lt_is_Some_2 pw (a + k)%nat Hlt) as [x ->]. done.
      * rewrite list_insert_ge.
        2:{ clear -Hge. revert pw Hge. induction (seq a k); intros; simpl;
            [lia | apply IHl; rewrite length_insert; done]. }
        rewrite IH. rewrite bool_decide_eq_false_2 by lia.
        rewrite lookup_ge_None_2 by lia. done.
    + rewrite list_lookup_insert_ne by done. rewrite IH.
      destruct (decide (a ≤ i < a + k)%nat).
      * rewrite !bool_decide_eq_true_2 by lia. done.
      * rewrite !bool_decide_eq_false_2 by lia. done.
Qed.

End Fill.

(** *** The strong-password generator *)

Definition seedPrefix (rest : string) : string :=
  String "A" (String "a" (String "1" (String "!" rest))).

Lemma fillPassword_seeded (rb : list Byte.byte) (m : nat) :
  length rb = m →
  fillPassword rb
    (<[ 3%nat := "!"%char ]> (<[ 2%nat := "1"%char ]> (<[ 1%nat := "a"%char ]>
       (<[ 0%nat := "A"%char ]> (replicate (4 + m) "000"%char))))) (4 + m)
  = "A"%char :: "a"%char :: "1"%char :: "!"%char :: map pick rb.
Proof.
  intros Hlen. unfold fillPassword. simpl replicate. simpl.
  replace (m - 0)%nat with m by lia.
  apply list_eq. intros i.
  rewrite (fill_lookup (λ i, pick (default zero_byte (rb !! (i - 4)%nat)))).
  destruct i as [|[|[|[|i]]]]; try (rewrite bool_decide_eq_false_2 by lia; done).
  simpl lookup. rewrite list_lookup_fmap.
  destruct (decide (i < m)%nat) as [Hlt|Hge].
  - rewrite bool_decide_eq_true_2 by lia.
    rewrite lookup_replicate_2 by done. simpl.
    destruct (lookup_lt_is_Some_2 rb i ltac:(lia)) as [b Hb].
    replace (i - 0)%nat with i by lia. rewrite Hb. done.
  - rewrite bool_decide_eq_false_2 by lia.
    rewrite (lookup_ge_None_2 rb) by lia.
    simpl. apply lookup_replicate_None. lia.
Qed.

Lemma generateStrongPassword_eq (rnd : RandSource) (n : nat) (st : State) :
  (4 ≤ n)%nat →
  generateStrongPassword rnd n st =
  Some (seedPrefix (string_of_bytes
          (map pick (readInto (rnd (st_reads st)) (replicate (n - 4) zero_byte)))),
        mkState (st_g st) (S (st_reads st))).
Proof.
  intros Hn. unfold generateStrongPassword.
  destruct (Nat.ltb_spec n 4) as [?|_]; [lia|].
  unfold bind, rand_Read, ret. do 2 f_equal.
  destruct n as [|[|[|[|m]]]]; try lia.
  change (S (S (S (S m)))) with (4 + m)%nat.
  replace (4 + m - 4)%nat with m by lia.
  rewrite fillPassword_seeded; [done|].
  rewrite readInto_length, length_replicate. done.
Qed.

Lemma string_get_lt (s : string) (k : nat) :
  (k < String.length s)%nat → String.get k s = Some (str_index s k).
Proof.
  unfold str_index. revert k. induction s as [|c s IH]; intros k Hk; simpl in *.
  - lia.
  - destruct k as [|k]; [done|]. simpl. apply IH. lia.
Qed.

Lemma chars_length : String.length chars = 67%nat.
Proof. reflexivity. Qed.

Lemma pick_get (b : Byte.byte) :
  String.get (byte_to_nat b mod 67) chars = Some (pick b).
Proof.
  unfold pick. rewrite chars_length. apply string_get_lt.
  rewrite chars_length. apply Nat.mod_upper_bound. done.
Qed.

Lemma ContainsAny_here (c : ascii) (s cs : string) :
  c ∈ String.list_ascii_of_string cs → strings_ContainsAny (String c s) cs = true.
Proof. intros H. simpl. rewrite bool_decide_eq_true_2 by done. done. Qed.

Lemma ContainsAny_later (c : ascii) (s cs : string) :
  strings_ContainsAny s cs = true → strings_ContainsAny (String c s) cs = true.
Proof. intros H. simpl. rewrite H. apply orb_true_r. Qed.

Lemma seedPrefix_meetsPolicy (rest : string) : meetsPolicy (seedPrefix rest) = true.
Proof.
  unfold meetsPolicy, seedPrefix.
  rewrite !andb_true_iff. split; [split; [split|]|].
  - apply ContainsAny_here, list_elem_of_In. simpl. tauto.
  - apply ContainsAny_later, ContainsAny_here, list_elem_of_In. simpl. tauto.
  - do 2 apply ContainsAny_later. apply ContainsAny_here, list_elem_of_In.
    simpl. tauto.
  - do 3 apply ContainsAny_later. apply ContainsAny_here, list_elem_of_In.
    simpl. tauto.
Qed.

Lemma generatePassword_eq (rnd : RandSource) (n : nat) (st : State) :
  generatePassword rnd n st =
  Some (hex_EncodeToString
          (readInto (rnd (st_reads st)) (replicate (n / 2) zero_byte)),
        mkState (st_g st) (S (st_reads st))).
Proof. reflexivity. Qed.

(** C2. Whatever the random source answers, the service synthesised for a
    datastore of the enterprise-relational kind (MSSQL) returns and carries
    the administrative password [MSSQL_SA_PASSWORD] as its first environment
    variable, and that password contains an uppercase letter, a lowercase
    letter, a digit and a symbol of the policy alphabet. *)
Theorem mssql_password_meets_policy
    (rnd : RandSource) (ds : Datastore) (network : string) (st : State) :
  ds_Type ds = DatastoreMSSQL →
  ∃ service pw url st',
    generateDatastoreService rnd ds network st =
      Some ((service,
             [mkEnvVar "MSSQL_SA_PASSWORD" pw
                "SQL Server SA password (Developer Edition)" true; url],
             None), st')
    ∧ generateStrongPassword rnd 16 (mkState (st_g st) (S (st_reads st)))
        = Some (pw, st')
    ∧ meetsPolicy pw = true.
Proof.
  intros Hty. unfold generateDatastoreService.
  unfold bind at 1. unfold getG.
  unfold bind at 1. rewrite generatePassword_eq.
  rewrite Hty.
  change (String.eqb DatastoreMSSQL DatastorePostgres) with false.
  change (String.eqb DatastoreMSSQL DatastoreMySQL) with false.
  change (String.eqb DatastoreMSSQL DatastoreMSSQL) with true.
  cbv iota. unfold bind at 1.
  rewrite generateStrongPassword_eq by lia.
  unfold ret. do 4 eexists. split; [reflexivity|]. split; [reflexivity|].
  apply seedPrefix_meetsPolicy.
Qed.

Lemma mssql_password_meets_policy_witness :
  ∃ service pw url st',
    generateDatastoreService examples.rndFixed
      (examples.datastore DatastoreMSSQL 1433) "demo-network"
      (examples.st0 (examples.project [examples.datastore DatastoreMSSQL 1433] []))
    = Some ((service,
             [mkEnvVar "MSSQL_SA_PASSWORD" pw
                "SQL Server SA password (Developer Edition)" true; url],
             None), st')
    ∧ generateStrongPassword examples.rndFixed 16
        (mkState (st_g (examples.st0
           (examples.project [examples.datastore DatastoreMSSQL 1433] []))) 1)
        = Some (pw, st')
    ∧ meetsPolicy pw = true.
Proof.
  apply (mssql_password_meets_policy examples.rndFixed
           (examples.datastore DatastoreMSSQL 1433)).
  reflexivity.
Defined.

(** C3 (amended). For a length of at least four the strong-password
    generator returns; positions 0 to 3 of the password are the uppercase
    letter A, the lowercase letter a, the digit 1 and the symbol !, in that
    order; every later position i holds the character of the fixed alphabet
    [chars] indexed by the random byte i-4 modulo the alphabet length; and
    that alphabet has 67 characters. *)
Theorem strong_password_layout (rnd : RandSource) (n : nat) (st : State) :
  (4 ≤ n)%nat →
  ∃ pw,
    generateStrongPassword rnd n st = Some (pw, mkState (st_g st) (S (st_reads st)))
    ∧ String.length pw = n
    ∧ String.get 0 pw = Some "A"%char
    ∧ String.get 1 pw = Some "a"%char
    ∧ String.get 2 pw = Some "1"%char
    ∧ String.get 3 pw = Some "!"%char
    ∧ "A"%char ∈ String.list_ascii_of_string upperChars
    ∧ "a"%char ∈ String.list_ascii_of_string lowerChars
    ∧ "1"%char ∈ String.list_ascii_of_string digitChars
    ∧ "!"%char ∈ String.list_ascii_of_string symbolChars
    ∧ (∀ i b, (4 ≤ i < n)%nat →
         readInto (rnd (st_reads st)) (replicate (n - 4) zero_byte) !! (i - 4)%nat
           = Some b →
         String.get i pw = String.get (byte_to_nat b mod String.length chars) chars)
    ∧ (∀ i, (4 ≤ i < n)%nat →
         ∃ b, readInto (rnd (st_reads st)) (replicate (n - 4) zero_byte) !! (i - 4)%nat
                = Some b)
    ∧ String.length chars = 67%nat.
Proof.
  intros Hn. eexists. split; [apply generateStrongPassword_eq; done|].
  set (rb := readInto _ _).
  assert (Hrb : length rb = (n - 4)%nat).
  { subst rb. rewrite readInto_length, length_replicate. done. }
  split.
  { unfold seedPrefix, string_of_bytes. simpl.
    rewrite string_length_of_list, length_map, Hrb. lia. }
  do 4 (split; [reflexivity|]).
  do 4 (split; [apply list_elem_of_In; simpl; tauto|]).
  split; [|split; [|reflexivity]].
  - intros i b Hi Hb.
    destruct i as [|[|[|[|i]]]]; try lia.
    unfold seedPrefix, string_of_bytes. simpl String.get.
    rewrite string_get_of_list, list_lookup_fmap.
    simpl in Hb. replace (i - 0)%nat with i in Hb by lia. rewrite Hb. simpl.
    symmetry. apply pick_get.
  - intros i Hi. apply lookup_lt_is_Some_2. lia.
Qed.

Lemma strong_password_layout_witness :
  ∃ pw,
    generateStrongPassword examples.rndFixed 16 (examples.st0 (examples.project [] []))
      = Some (pw, mkState (st_g (examples.st0 (examples.project [] []))) 1)
    ∧ String.length pw = 16%nat
    ∧ String.get 0 pw = Some "A"%char
    ∧ String.get 1 pw = Some "a"%char
    ∧ String.get 2 pw = Some "1"%char
    ∧ String.get 3 pw = Some "!"%char
    ∧ "A"%char ∈ String.list_ascii_of_string upperChars
    ∧ "a"%char ∈ String.list_ascii_of_string lowerChars
    ∧ "1"%char ∈ String.list_ascii_of_string digitChars
    ∧ "!"%char ∈ String.list_ascii_of_string symbolChars
    ∧ (∀ i b, (4 ≤ i < 16)%nat →
         readInto (examples.rndFixed 0%nat) (replicate (16 - 4) zero_byte) !! (i - 4)%nat
           = Some b →
         String.get i pw = String.get (byte_to_nat b mod String.length chars) chars)
    ∧ (∀ i, (4 ≤ i < 16)%nat →
         ∃ b, readInto (examples.rndFixed 0%nat) (replicate (16 - 4) zero_byte)
                !! (i - 4)%nat = Some b)
    ∧ String.length chars = 67%nat.
Proof.
  apply (strong_password_layout examples.rndFixed 16
           (examples.st0 (examples.project [] []))).
  lia.
Defined.

(** C3, as stated, fails: no 70-character alphabet indexed by the random
    byte modulo 70 describes the fill. The bytes 0 and 70 are equal modulo
    70, yet the generator stores a for the first and d for the second. *)
Lemma strong_password_alphabet_not_70 :
  ¬ ∃ alphabet : string,
      String.length alphabet = 70%nat ∧
      ∀ (rnd : RandSource) (st : State) (pw : string) (st' : State) (i : nat)
        (b : Byte.byte),
        generateStrongPassword rnd 16 st = Some (pw, st') →
        (4 ≤ i < 16)%nat →
        readInto (rnd (st_reads st)) (replicate 12 zero_byte) !! (i - 4)%nat = Some b →
        String.get i pw = String.get (byte_to_nat b mod 70) alphabet.
Proof.
  intros (alphabet & _ & H).
  pose (st := examples.st0 (examples.project [] [])).
  assert (Hrun : generateStrongPassword examples.rndFixed 16 st
                 = Some ("Aa1!ads19hF8t%q2", mkState (st_g st) 1)) by reflexivity.
  pose proof (H examples.rndFixed st _ _ 4%nat Byte.x00 Hrun ltac:(lia) eq_refl) as H0.
  pose proof (H examples.rndFixed st _ _ 5%nat Byte.x46 Hrun ltac:(lia) eq_refl) as H1.
  change (byte_to_nat Byte.x00 mod 70)%nat with 0%nat in H0.
  change (byte_to_nat Byte.x46 mod 70)%nat with 0%nat in H1.
  rewrite <- H0 in H1. discriminate H1.
Qed.

(** *** The volume map of the receiver *)

(** [Generate] has made [g.compose.Volumes]. *)
Definition volumesMade (g : Generator) : Prop :=
  ∃ m, cf_Volumes (g_compose g) = MadeMap m.

(** The receiver after a successful assignment of a volume entry. *)
Definition insertVolume (name : string) (g : Generator) : Generator :=
  setComposeVolumes
    (MadeMap (<[ name := CVEmptyMap ]> (entries (cf_Volumes (g_compose g))))) g.

Lemma putComposeVolume_made (name : string) (st : State) :
  volumesMade (st_g st) →
  putComposeVolume name st
  = Some (tt, mkState (insertVolume name (st_g st)) (st_reads st)).
Proof.
  intros [m Hm]. unfold putComposeVolume, bind, getG, modifyG, insertVolume.
  rewrite Hm. done.
Qed.

Lemma putComposeVolume_nil (name : string) (st : State) :
  cf_Volumes (g_compose (st_g st)) = NilMap → putComposeVolume name st = None.
Proof. intros Hm. unfold putComposeVolume, bind, getG. rewrite Hm. done. Qed.

Lemma putComposeVolume_Some (name : string) (st st' : State) (u : unit) :
  putComposeVolume name st = Some (u, st') →
  st' = mkState (insertVolume name (st_g st)) (st_reads st).
Proof.
  unfold putComposeVolume, bind, getG, modifyG, insertVolume.
  destruct (cf_Volumes (g_compose (st_g st))); [discriminate|].
  intros H. injection H as _ <-. reflexivity.
Qed.

Lemma insertVolume_made (name : string) (g : Generator) :
  volumesMade (insertVolume name g).
Proof. eexists. reflexivity. Qed.

Lemma insertVolume_project (name : string) (g : Generator) :
  g_project (insertVolume name g) = g_project g.
Proof. reflexivity. Qed.

(** *** Service synthesis, kind by kind *)

Ltac eqb_cases ds :=
  destruct (String.eqb (ds_Type ds) DatastorePostgres) eqn:Epg;
  [|destruct (String.eqb (ds_Type ds) DatastoreMySQL) eqn:Emy;
    [|destruct (String.eqb (ds_Type ds) DatastoreMSSQL) eqn:Ems;
      [|destruct (String.eqb (ds_Type ds) DatastoreNeo4j) eqn:Eneo;
        [|destruct (String.eqb (ds_Type ds) DatastoreRedis) eqn:Erd;
          [|destruct (String.eqb (ds_Type ds) DatastoreRedisStack) eqn:Ers]]]]].

Ltac run_service :=
  unfold generateDatastoreService, bind, getG, modifyG, ret;
  rewrite ?generatePassword_eq; cbv beta iota;
  rewrite ?generatePassword_eq, ?generateStrongPassword_eq by lia; cbv beta iota.

(** On a receiver whose volume map is made, the synthesis of a datastore
    service returns, with a nil error, and the map stays made. *)
Lemma generateDatastoreService_total
    (rnd : RandSource) (ds : Datastore) (network : string) (st : State) :
  volumesMade (st_g st) →
  ∃ service envs st',
    generateDatastoreService rnd ds network st = Some ((service, envs, None), st')
    ∧ g_project (st_g st') = g_project (st_g st)
    ∧ volumesMade (st_g st').
Proof.
  intros Hmade.
  unfold generateDatastoreService, bind at 1, getG, bind at 1.
  rewrite generatePassword_eq.
  eqb_cases ds; unfold bind, modifyG, ret;
    rewrite ?generatePassword_eq, ?generateStrongPassword_eq by lia;
    rewrite ?putComposeVolume_made by exact Hmade;
    do 3 eexists; (split; [reflexivity|]); (split; [reflexivity|]);
    first [exact Hmade | apply insertVolume_made].
Qed.

(** Every kind but the graph database gives its secret variables plain
    references. *)
Lemma credentialsPlain_but_neo4j
    (rnd : RandSource) (ds : Datastore) (network : string) (st : State) :
  ds_Type ds ≠ DatastoreNeo4j →
  ∃ service envs st',
    generateDatastoreService rnd ds network st = Some ((service, envs, None), st')
    ∧ credentialsPlain service envs = true.
Proof.
  intros Hne.
  unfold generateDatastoreService, bind at 1, getG, bind at 1.
  rewrite generatePassword_eq.
  eqb_cases ds; unfold bind, modifyG, ret;
    rewrite ?generatePassword_eq, ?generateStrongPassword_eq by lia;
    try (apply String.eqb_eq in Eneo; contradiction);
    do 3 eexists; (split; [reflexivity|]); vm_compute; reflexivity.
Qed.

(** The graph-database case, for every instance on a receiver whose volume
    map is made: the [NEO4J_AUTH] assignment carries the fallback default
    [neo4j/password], although the variable is one of the generated
    secrets. *)
Lemma neo4j_auth_assignment
    (rnd : RandSource) (ds : Datastore) (network : string) (st : State) :
  ds_Type ds = DatastoreNeo4j →
  volumesMade (st_g st) →
  ∃ service pw uri st',
    generateDatastoreService rnd ds network st =
      Some ((service,
             [mkEnvVar "NEO4J_AUTH" ("neo4j/" +:+ pw)
                "Neo4j authentication (Community Edition)" true; uri],
             None), st')
    ∧ svc_Environment service !! "NEO4J_AUTH" = Some "${NEO4J_AUTH:-neo4j/password}"
    ∧ credentialsPlain service
        [mkEnvVar "NEO4J_AUTH" ("neo4j/" +:+ pw)
           "Neo4j authentication (Community Edition)" true; uri] = false.
Proof.
  intros Hty Hmade.
  unfold generateDatastoreService, bind at 1, getG, bind at 1.
  rewrite generatePassword_eq, Hty.
  change (String.eqb DatastoreNeo4j DatastorePostgres) with false.
  change (String.eqb DatastoreNeo4j DatastoreMySQL) with false.
  change (String.eqb DatastoreNeo4j DatastoreMSSQL) with false.
  change (String.eqb DatastoreNeo4j DatastoreNeo4j) with true.
  cbv iota. unfold bind. rewrite putComposeVolume_made by exact Hmade. unfold ret.
  do 4 eexists. split; [reflexivity|]. split; vm_compute; reflexivity.
Qed.

(** C1, at the failing input. One generation call, [New(project).Generate()],
    for a project with a graph-database instance on port 7474: the service
    stored in the compose structure under the instance's name assigns the
    variable [NEO4J_AUTH] the reference [${NEO4J_AUTH:-neo4j/password}], a
    reference with a fallback default, although [NEO4J_AUTH] is among the
    collected variables as a generated secret; so the check that every
    credential reference is plain fails. The same holds for every
    graph-database instance, random source and receiver on which
    [Generate] has made the volume map. *)
Theorem neo4j_credential_has_fallback_default :
  match generate examples.ext0 examples.rndFixed
          (examples.project [examples.datastore DatastoreNeo4j 7474] []) 0
  with
  | Some (Ok _, st) =>
      match cf_Services (g_compose (st_g st)) !! "neo4j" with
      | Some service =>
          svc_Environment service !! "NEO4J_AUTH" = Some "${NEO4J_AUTH:-neo4j/password}"
          ∧ Exists (λ e, env_Key e = "NEO4J_AUTH" ∧ env_Secret e = true)
              (g_envVars (st_g st))
          ∧ credentialsPlain service (g_envVars (st_g st)) = false
      | None => False
      end
  | _ => False
  end
  ∧ ∀ (rnd : RandSource) (ds : Datastore) (network : string) (st : State),
      ds_Type ds = DatastoreNeo4j →
      volumesMade (st_g st) →
      ∃ service envs st',
        generateDatastoreService rnd ds network st = Some ((service, envs, None), st')
        ∧ svc_Environment service !! "NEO4J_AUTH"
          = Some "${NEO4J_AUTH:-neo4j/password}"
        ∧ Exists (λ e, env_Key e = "NEO4J_AUTH" ∧ env_Secret e = true) envs
        ∧ credentialsPlain service envs = false.
Proof.
  split.
  - vm_compute. split; [reflexivity|]. split; [|reflexivity].
    apply Exists_cons_hd. split; reflexivity.
  - intros rnd ds network st Hty Hmade.
    destruct (neo4j_auth_assignment rnd ds network st Hty Hmade)
      as (service & pw & uri & st' & Hrun & Henv & Hplain).
    do 3 eexists. split; [exact Hrun|]. split; [exact Henv|]. split; [|exact Hplain].
    apply Exists_cons_hd. split; reflexivity.
Qed.

(** C10. For every graph-database instance with external port p, on a
    receiver whose volume map [Generate] has made, the service publishes
    exactly the mappings p:7474 and (p+213):7687, and for every
    key-value-cache-with-modules instance, on any receiver, p:6379 and
    (p+1622):8001, whatever the project and the services already synthesised
    are: the second host port is computed from p alone. The sums are Go's
    [int] sums, which are the mathematical ones unless they overflow. *)
Theorem second_port_fixed_offset
    (rnd : RandSource) (ds : Datastore) (network : string) (st : State) :
  (ds_Type ds = DatastoreNeo4j →
   volumesMade (st_g st) →
     ∃ service envs st',
       generateDatastoreService rnd ds network st = Some ((service, envs, None), st')
       ∧ svc_Ports service =
           [goint.fmt_d (ds_Port ds) +:+ ":7474";
            goint.fmt_d (goint.add (ds_Port ds) 213) +:+ ":7687"])
  ∧ (ds_Type ds = DatastoreRedisStack →
     ∃ service envs st',
       generateDatastoreService rnd ds network st = Some ((service, envs, None), st')
       ∧ svc_Ports service =
           [goint.fmt_d (ds_Port ds) +:+ ":6379";
            goint.fmt_d (goint.add (ds_Port ds) 1622) +:+ ":8001"])
  ∧ ((goint.min_int ≤ ds_Port ds)%Z → (ds_Port ds + 1622 ≤ goint.max_int)%Z →
     goint.add (ds_Port ds) 213 = ds_Port ds + 213
     ∧ goint.add (ds_Port ds) 1622 = ds_Port ds + 1622).
Proof.
  split; [|split].
  - intros Hty Hmade.
    unfold generateDatastoreService, bind at 1, getG, bind at 1.
    rewrite generatePassword_eq, Hty.
    change (String.eqb DatastoreNeo4j DatastorePostgres) with false.
    change (String.eqb DatastoreNeo4j DatastoreMySQL) with false.
    change (String.eqb DatastoreNeo4j DatastoreMSSQL) with false.
    change (String.eqb DatastoreNeo4j DatastoreNeo4j) with true.
    cbv iota. unfold bind. rewrite putComposeVolume_made by exact Hmade. unfold ret.
    do 3 eexists. split; reflexivity.
  - intros Hty.
    unfold generateDatastoreService, bind at 1, getG, bind at 1.
    rewrite generatePassword_eq, Hty.
    change (String.eqb DatastoreRedisStack DatastorePostgres) with false.
    change (String.eqb DatastoreRedisStack DatastoreMySQL) with false.
    change (String.eqb DatastoreRedisStack DatastoreMSSQL) with false.
    change (String.eqb DatastoreRedisStack DatastoreNeo4j) with false.
    change (String.eqb DatastoreRedisStack DatastoreRedis) with false.
    change (String.eqb DatastoreRedisStack DatastoreRedisStack) with true.
    cbv iota. unfold ret.
    do 3 eexists. split; reflexivity.
  - unfold goint.add, goint.wrap64, goint.min_int, goint.max_int. intros Hlo Hhi.
    split.
    + rewrite Z.mod_small by lia. lia.
    + rewrite Z.mod_small by lia. lia.
Qed.

Lemma second_port_fixed_offset_witness :
  (∃ service envs st',
     generateDatastoreService examples.rndFixed
       (examples.datastore DatastoreNeo4j 7474) "demo-network"
       (examples.stMade (examples.project [examples.datastore DatastoreNeo4j 7474] []))
     = Some ((service, envs, None), st')
     ∧ svc_Ports service = ["7474:7474"; "7687:7687"])
  ∧ (∃ service envs st',
     generateDatastoreService examples.rndFixed
       (examples.datastore DatastoreRedisStack 6379) "demo-network"
       (examples.st0 (examples.project [] []))
     = Some ((service, envs, None), st')
     ∧ svc_Ports service = ["6379:6379"; "8001:8001"])
  ∧ (goint.add 7474 213 = 7687 ∧ goint.add 7474 1622 = 9096).
Proof.
  split; [|split].
  - apply (second_port_fixed_offset examples.rndFixed
             (examples.datastore DatastoreNeo4j 7474) "demo-network"
             (examples.stMade
                (examples.project [examples.datastore DatastoreNeo4j 7474] []))).
    + reflexivity.
    + eexists. reflexivity.
  - apply (second_port_fixed_offset examples.rndFixed
             (examples.datastore DatastoreRedisStack 6379) "demo-network"
             (examples.st0 (examples.project [] []))).
    reflexivity.
  - apply (second_port_fixed_offset examples.rndFixed
             (examples.datastore DatastoreNeo4j 7474) "demo-network"
             (examples.st0 (examples.project [] []))).
    + vm_compute. discriminate.
    + vm_compute. discriminate.
Defined.

(** The graph-database instance of a project, through one generation call:
    the service stored under its name publishes 7474 and 7687. On the
    receiver [New] returns, before [Generate] has made the volume map, the
    synthesis of the graph-database service panics. *)
Example neo4j_ports_through_generate :
  match generate examples.ext0 examples.rndFixed
          (examples.project [examples.datastore DatastoreNeo4j 7474] []) 0
  with
  | Some (Ok _, st) =>
      svc_Ports <$> (cf_Services (g_compose (st_g st)) !! "neo4j")
      = Some ["7474:7474"; "7687:7687"]
  | _ => False
  end
  ∧ generateDatastoreService examples.rndFixed
      (examples.datastore DatastoreNeo4j 7474) "demo-network"
      (examples.st0 (examples.project [examples.datastore DatastoreNeo4j 7474] []))
    = None.
Proof. vm_compute. split; reflexivity. Qed.

(** *** The result of a read *)

(** Both password generators call [rand.Read] as a statement: neither looks
    at the count or the error it hands back, so with the same bytes in the
    buffer the outcome is the same. Generation has no branch on the result
    of a read. *)
Lemma passwords_ignore_read_error (rnd rnd' : RandSource) (n : nat) (st : State) :
  rr_bytes (rnd (st_reads st)) = rr_bytes (rnd' (st_reads st)) →
  generatePassword rnd n st = generatePassword rnd' n st
  ∧ generateStrongPassword rnd n st = generateStrongPassword rnd' n st.
Proof.
  intros Hb. split.
  - rewrite !generatePassword_eq. unfold readInto. rewrite Hb. done.
  - unfold generateStrongPassword. destruct (n <? 4)%nat; [done|].
    unfold bind, rand_Read, readInto. rewrite Hb. done.
Qed.

(** *** Two generations of one project *)

(** Two receivers that differ at most in the values of secret variables. *)
Definition simG (g1 g2 : Generator) : Prop :=
  g_project g1 = g_project g2 ∧ g_compose g1 = g_compose g2 ∧
  g_dockerfiles g1 = g_dockerfiles g2 ∧
  Forall2 sameButSecret (g_envVars g1) (g_envVars g2).

Lemma sameButSecret_refl (e : EnvVar) : sameButSecret e e.
Proof. unfold sameButSecret. auto. Qed.

Lemma sameButSecret_secret (k v1 v2 d : string) :
  sameButSecret (mkEnvVar k v1 d true) (mkEnvVar k v2 d true).
Proof. unfold sameButSecret. simpl. repeat split; auto. discriminate. Qed.

Local Hint Resolve sameButSecret_refl sameButSecret_secret : core.

Lemma simG_append (g1 g2 : Generator) (envs1 envs2 : list EnvVar) :
  simG g1 g2 → Forall2 sameButSecret envs1 envs2 →
  simG (appendEnvVars envs1 g1) (appendEnvVars envs2 g2).
Proof.
  intros (Hp & Hc & Hd & He) Henvs. unfold simG, appendEnvVars. simpl.
  repeat split; auto. apply Forall2_app; auto.
Qed.

Lemma simG_update (f : Generator → Generator) (g1 g2 : Generator) :
  (∀ g, g_project (f g) = g_project g) →
  (∀ g, g_envVars (f g) = g_envVars g) →
  (∀ g g', g_compose g = g_compose g' → g_compose (f g) = g_compose (f g')) →
  (∀ g g', g_dockerfiles g = g_dockerfiles g' → g_dockerfiles (f g) = g_dockerfiles (f g')) →
  simG g1 g2 → simG (f g1) (f g2).
Proof.
  intros Hp He Hc Hd (H1 & H2 & H3 & H4). unfold simG.
  rewrite !Hp, !He. repeat split; auto.
Qed.

Lemma simG_insertVolume (name : string) (g1 g2 : Generator) :
  simG g1 g2 → simG (insertVolume name g1) (insertVolume name g2).
Proof.
  apply simG_update; try done.
  intros g g' H. unfold insertVolume, setComposeVolumes. simpl. rewrite H. done.
Qed.

Lemma simG_volumesMade (g1 g2 : Generator) :
  simG g1 g2 → volumesMade g1 → volumesMade g2.
Proof. intros (_ & Hc & _) [m Hm]. exists m. by rewrite <- Hc. Qed.

Lemma simG_putComposeService (name : string) (svc : ComposeService) (g1 g2 : Generator) :
  simG g1 g2 → simG (putComposeService name svc g1) (putComposeService name svc g2).
Proof.
  apply simG_update; try done.
  intros g g' H. unfold putComposeService. simpl. rewrite H. done.
Qed.

Lemma simG_putDockerfile (name df : string) (g1 g2 : Generator) :
  simG g1 g2 → simG (putDockerfile name df g1) (putDockerfile name df g2).
Proof.
  apply simG_update; try done.
  intros g g' H. unfold putDockerfile. simpl. rewrite H. done.
Qed.

Lemma generateDatastoreService_sim
    (rnd1 rnd2 : RandSource) (ds : Datastore) (network : string) (st1 st2 : State) :
  simG (st_g st1) (st_g st2) →
  volumesMade (st_g st1) →
  ∃ service envs1 envs2 st1' st2',
    generateDatastoreService rnd1 ds network st1 = Some ((service, envs1, None), st1')
    ∧ generateDatastoreService rnd2 ds network st2 = Some ((service, envs2, None), st2')
    ∧ Forall2 sameButSecret envs1 envs2
    ∧ simG (st_g st1') (st_g st2')
    ∧ volumesMade (st_g st1').
Proof.
  intros Hsim Hmade1. pose proof Hsim as (Hp & _).
  pose proof (simG_volumesMade _ _ Hsim Hmade1) as Hmade2.
  unfold generateDatastoreService, bind at 1, getG, bind at 1.
  unfold bind at 2, bind at 2.
  rewrite !generatePassword_eq. rewrite Hp.
  eqb_cases ds; unfold bind, modifyG, ret;
    rewrite ?generatePassword_eq, ?generateStrongPassword_eq by lia;
    rewrite ?putComposeVolume_made by first [exact Hmade1 | exact Hmade2];
    do 5 eexists;
    (split; [reflexivity|]); (split; [reflexivity|]);
    (split;
       [repeat (first [apply List.Forall2_nil
                      | apply List.Forall2_cons; [solve [auto]|]])|]);
    simpl; (split; [auto using simG_insertVolume|]);
    first [exact Hmade1 | apply insertVolume_made].
Qed.

Lemma processDatastores_sim
    (rnd1 rnd2 : RandSource) (network : string) (dss : list Datastore)
    (st1 st2 : State) :
  simG (st_g st1) (st_g st2) →
  volumesMade (st_g st1) →
  ∃ st1' st2',
    processDatastores rnd1 network dss st1 = Some (None, st1')
    ∧ processDatastores rnd2 network dss st2 = Some (None, st2')
    ∧ simG (st_g st1') (st_g st2').
Proof.
  revert st1 st2. induction dss as [|ds dss IH]; intros st1 st2 Hsim Hmade.
  - do 2 eexists. split; [reflexivity|]. split; [reflexivity|]. done.
  - destruct (generateDatastoreService_sim rnd1 rnd2 ds network st1 st2 Hsim Hmade)
      as (svc & envs1 & envs2 & st1' & st2' & H1 & H2 & Henvs & Hsim' & Hmade').
    simpl processDatastores.
    rewrite (bind_Some _ _ _ _ _ H1), (bind_Some _ _ _ _ _ H2).
    assert (HsimA : simG (appendEnvVars envs1 (putComposeService (ds_Name ds) svc (st_g st1')))
                         (appendEnvVars envs2 (putComposeService (ds_Name ds) svc (st_g st2')))).
    { apply simG_append; [|done]. by apply simG_putComposeService. }
    assert (HmadeA : volumesMade
                       (appendEnvVars envs1 (putComposeService (ds_Name ds) svc (st_g st1')))).
    { destruct Hmade' as [m Hm]. exists m. simpl. exact Hm. }
    unfold bind at 1, modifyG at 1. unfold bind at 1, modifyG at 1.
    unfold bind at 1.
    rewrite (putComposeVolume_made _ (mkState _ _) HmadeA).
    unfold bind at 1, modifyG at 1. unfold bind at 1, modifyG at 1.
    unfold bind at 1.
    rewrite (putComposeVolume_made _ (mkState _ _)
               (simG_volumesMade _ _ HsimA HmadeA)).
    apply IH.
    + simpl. by apply simG_insertVolume.
    + apply insertVolume_made.
Qed.

(** The synthesis of a runtime service reads no randomness and leaves the
    state alone. *)
Lemma generateRuntimeService_sim
    (ext : Externals) (rt : Runtime) (network : string) (st1 st2 : State) :
  g_project (st_g st1) = g_project (st_g st2) →
  ∃ service envs dockerfile,
    generateRuntimeService ext rt network st1 = Some ((service, envs, dockerfile, None), st1)
    ∧ generateRuntimeService ext rt network st2 = Some ((service, envs, dockerfile, None), st2).
Proof.
  intros Hp. unfold generateRuntimeService, bind, getG. rewrite Hp.
  repeat match goal with
         | |- context [String.eqb (rt_Type rt) ?k] =>
             destruct (String.eqb (rt_Type rt) k)
         end;
    do 3 eexists; split; reflexivity.
Qed.

Lemma processRuntimes_sim
    (ext : Externals) (network : string) (rts : list Runtime) (st1 st2 : State) :
  simG (st_g st1) (st_g st2) →
  ∃ st1' st2',
    processRuntimes ext network rts st1 = Some (None, st1')
    ∧ processRuntimes ext network rts st2 = Some (None, st2')
    ∧ simG (st_g st1') (st_g st2').
Proof.
  revert st1 st2. induction rts as [|rt rts IH]; intros st1 st2 Hsim.
  - do 2 eexists. split; [reflexivity|]. split; [reflexivity|]. done.
  - pose proof Hsim as (Hp & _).
    destruct (generateRuntimeService_sim ext rt network st1 st2 Hp)
      as (svc & envs & df & H1 & H2).
    simpl processRuntimes.
    rewrite (bind_Some _ _ _ _ _ H1), (bind_Some _ _ _ _ _ H2).
    unfold bind, modifyG, ret. simpl.
    destruct (String.eqb df ""); simpl; apply IH; simpl.
    + apply simG_append; [|apply Forall2_same_length_lookup_2; [done|]].
      * apply simG_putComposeService. done.
      * intros i x y Hx Hy. rewrite Hx in Hy. injection Hy as <-. auto.
    + apply simG_putDockerfile, simG_append;
        [|apply Forall2_same_length_lookup_2; [done|]].
      * apply simG_putComposeService. done.
      * intros i x y Hx Hy. rewrite Hx in Hy. injection Hy as <-. auto.
Qed.

Lemma renderEnvExampleFile_sim (envs1 envs2 : list EnvVar) :
  Forall2 sameButSecret envs1 envs2 →
  renderEnvExampleFile envs1 = renderEnvExampleFile envs2.
Proof.
  unfold renderEnvExampleFile. generalize
    ("# Environment variables for stackgen" +:+ nl +:+
     "# Copy this file to .env and fill in the values" +:+ nl +:+ nl).
  intros acc H. revert acc. induction H as [|e1 e2 l1 l2 He _ IH]; intros acc.
  - done.
  - simpl. replace (writeEnvExampleLine acc e2) with (writeEnvExampleLine acc e1);
      [apply IH|].
    destruct He as (Hk & Hd & Hs & Hv). unfold writeEnvExampleLine.
    rewrite <- Hk, <- Hd, <- Hs. destruct (env_Secret e1); [done|].
    rewrite Hv by done. done.
Qed.

Lemma Generate_unfold (ext : Externals) (rnd : RandSource) (st : State) :
  let g := st_g st in
  let networkName := proj_Name (g_project g) +:+ "-network" in
  Generate ext rnd st =
  bind (processDatastores rnd networkName (proj_Datastores (g_project g)))
       (λ err,
          match err with
          | Some e => ret (Err e)
          | None =>
              bind (processRuntimes ext networkName (proj_Runtimes (g_project g)))
                   (λ err, match err with
                           | Some e => ret (Err e)
                           | None => buildOutput ext
                           end)
          end)
       (mkState
          (setComposeVolumes (MadeMap ∅)
             (setComposeNetworks
                (MadeMap {[ networkName := CVStringMap {[ "driver" := "bridge" ]} ]}) g))
          (st_reads st)).
Proof. reflexivity. Qed.

(** Two runs of [generate] on one project, step by step. *)
Lemma generate_sim
    (ext : Externals) (rnd1 rnd2 : RandSource) (p : Project) (k1 k2 : nat) :
  ∃ r1 st1 r2 st2,
    generate ext rnd1 p k1 = Some (r1, st1)
    ∧ generate ext rnd2 p k2 = Some (r2, st2)
    ∧ g_compose (st_g st1) = g_compose (st_g st2)
    ∧ Forall2 sameButSecret (g_envVars (st_g st1)) (g_envVars (st_g st2))
    ∧ match r1, r2 with
      | Ok o1, Ok o2 =>
          ComposeYAML o1 = ComposeYAML o2
          ∧ EnvExampleFile o1 = EnvExampleFile o2
          ∧ out_GitIgnore o1 = out_GitIgnore o2
          ∧ Dockerfiles o1 = Dockerfiles o2
          ∧ EnvFile o1 = renderEnvFile (g_envVars (st_g st1))
          ∧ EnvFile o2 = renderEnvFile (g_envVars (st_g st2))
      | Err e1, Err e2 => e1 = e2
      | _, _ => False
      end.
Proof.
  unfold generate. rewrite !Generate_unfold. cbv zeta. simpl st_g. simpl g_project.
  simpl st_reads.
  set (stA := mkState _ k1). set (stB := mkState _ k2).
  assert (HsimAB : simG (st_g stA) (st_g stB)).
  { subst stA stB. unfold simG. simpl. repeat split; auto. }
  assert (HmadeA : volumesMade (st_g stA)) by (eexists; reflexivity).
  destruct (processDatastores_sim rnd1 rnd2
              (proj_Name p +:+ "-network") (proj_Datastores p) stA stB HsimAB HmadeA)
    as (stA' & stB' & HA & HB & Hsim').
  rewrite (bind_Some _ _ _ _ _ HA), (bind_Some _ _ _ _ _ HB).
  destruct (processRuntimes_sim ext
              (proj_Name p +:+ "-network") (proj_Runtimes p) stA' stB' Hsim')
    as (stA'' & stB'' & HA' & HB' & Hsim'').
  rewrite (bind_Some _ _ _ _ _ HA'), (bind_Some _ _ _ _ _ HB').
  unfold buildOutput, bind, getG.
  destruct Hsim'' as (Hp & Hc & Hd & He). rewrite Hc.
  destruct (yaml_Marshal ext (g_compose (st_g stB''))) as [yaml|e]; unfold ret;
    do 4 eexists; (split; [reflexivity|]); (split; [reflexivity|]);
    (split; [exact Hc|]); (split; [exact He|]); simpl.
  - repeat split; auto using renderEnvExampleFile_sim.
  - reflexivity.
Qed.

(** A generation call never panics. *)
Lemma generate_total (ext : Externals) (rnd : RandSource) (p : Project) (k : nat) :
  ∃ r st, generate ext rnd p k = Some (r, st).
Proof.
  destruct (generate_sim ext rnd rnd p k k) as (r & st & _ & _ & H & _). eauto.
Qed.

(** C6. Two generation calls on one project, whatever the random source
    answers in each and wherever it stands, both return; they produce the
    same compose structure and byte-identical orchestration documents, the
    same redacted example, ignore list and build recipes; their secret
    environment files render two lists of variables with the same keys,
    descriptions and secrecy flags, equal in every value that is not flagged
    secret. If the YAML encoder refuses the compose structure, both calls
    fail with the same error. *)
Theorem regeneration_same_shape
    (ext : Externals) (rnd1 rnd2 : RandSource) (p : Project) (k1 k2 : nat) :
  ∃ r1 st1 r2 st2,
    generate ext rnd1 p k1 = Some (r1, st1)
    ∧ generate ext rnd2 p k2 = Some (r2, st2)
    ∧ g_compose (st_g st1) = g_compose (st_g st2)
    ∧ Forall2 sameButSecret (g_envVars (st_g st1)) (g_envVars (st_g st2))
    ∧ match r1, r2 with
      | Ok o1, Ok o2 =>
          ComposeYAML o1 = ComposeYAML o2
          ∧ EnvExampleFile o1 = EnvExampleFile o2
          ∧ out_GitIgnore o1 = out_GitIgnore o2
          ∧ Dockerfiles o1 = Dockerfiles o2
          ∧ EnvFile o1 = renderEnvFile (g_envVars (st_g st1))
          ∧ EnvFile o2 = renderEnvFile (g_envVars (st_g st2))
      | Err e1, Err e2 => e1 = e2
      | _, _ => False
      end.
Proof. apply generate_sim. Qed.

(** [Generate] called a second time on the same receiver, instead of on a
    fresh [New(project)], appends the environment variables again: the
    commands never do that, and the statement above is about fresh
    receivers. *)
Example generate_on_reused_receiver :
  let p := examples.project [examples.datastore DatastoreRedis 6379] [] in
  match Generate examples.ext0 examples.rndFixed (examples.st0 p) with
  | Some (Ok _, st1) =>
      match Generate examples.ext0 examples.rndFixed st1 with
      | Some (Ok _, st2) =>
          g_compose (st_g st2) = g_compose (st_g st1)
          ∧ map env_Key (g_envVars (st_g st1)) = ["REDIS_PASSWORD"; "REDIS_URL"]
          ∧ map env_Key (g_envVars (st_g st2))
            = ["REDIS_PASSWORD"; "REDIS_URL"; "REDIS_PASSWORD"; "REDIS_URL"]
      | _ => False
      end
  | _ => False
  end.
Proof. vm_compute. repeat split; reflexivity. Qed.

End GeneratorFacts.

(* ===================================================================== *)
(** ** Go integers and the catalog: facts *)
(* ===================================================================== *)

Module CatalogFacts.
Import models.

Lemma wrap64_small (z : Z) :
  (goint.min_int ≤ z ≤ goint.max_int)%Z → goint.wrap64 z = z.
Proof.
  unfold goint.wrap64, goint.min_int, goint.max_int. intros H.
  rewrite Z.mod_small by lia. lia.
Qed.

Lemma wrap64_add_wrap64_r (a b : Z) :
  goint.wrap64 (a + goint.wrap64 b) = goint.wrap64 (a + b).
Proof.
  unfold goint.wrap64.
  replace (a + ((b + 2 ^ 63) mod 2 ^ 64 - 2 ^ 63) + 2 ^ 63)%Z
    with (a + (b + 2 ^ 63) mod 2 ^ 64)%Z by lia.
  rewrite Zplus_mod_idemp_r. f_equal. f_equal. lia.
Qed.

Lemma wrap64_add_wrap64_l (a b : Z) :
  goint.wrap64 (goint.wrap64 a + b) = goint.wrap64 (a + b).
Proof.
  rewrite (Z.add_comm (goint.wrap64 a)), wrap64_add_wrap64_r. f_equal. lia.
Qed.

(** Every datastore default port, also the zero value of an unknown kind,
    lies between 0 and 7474. *)
Lemma datastore_default_port_range (t : DatastoreType) :
  (0 ≤ di_DefaultPort (GetDatastoreInfo t) ≤ 7474)%Z.
Proof.
  unfold GetDatastoreInfo. destruct (datastoreInfoTable !! t) as [d|] eqn:E; simpl.
  - apply elem_of_list_to_map_2 in E.
    repeat (apply elem_of_cons in E as [E|E]; [injection E as _ ->; simpl; lia|]).
    by apply elem_of_nil in E.
  - lia.
Qed.

Lemma runtime_default_port_range (t : RuntimeType) :
  (0 ≤ ri_DefaultPort (GetRuntimeInfo t) ≤ 8080)%Z.
Proof.
  unfold GetRuntimeInfo. destruct (runtimeInfoTable !! t) as [d|] eqn:E; simpl.
  - apply elem_of_list_to_map_2 in E.
    repeat (apply elem_of_cons in E as [E|E]; [injection E as _ ->; simpl; lia|]).
    by apply elem_of_nil in E.
  - lia.
Qed.

(** A kind of the closed runtime enumeration has at least two frameworks. *)
Lemma runtime_frameworks (t : RuntimeType) :
  t ∈ AvailableRuntimes →
  ∃ f0 f1 fs, ri_Frameworks (GetRuntimeInfo t) = f0 :: f1 :: fs.
Proof.
  intros H. unfold AvailableRuntimes in H.
  repeat (apply elem_of_cons in H as [->|H]; [do 3 eexists; reflexivity|]).
  by apply elem_of_nil in H.
Qed.

Lemma foldl_snoc_map {A B : Type} (f : A → B) (l : list A) (acc : list B) :
  foldl (λ acc x, acc ++ [f x]) acc l = acc ++ map f l.
Proof.
  revert acc. induction l as [|x l IH]; intros acc; simpl.
  - by rewrite app_nil_r.
  - rewrite IH, <- app_assoc. done.
Qed.

End CatalogFacts.

(* ===================================================================== *)
(** ** Profile materialisation *)
(* ===================================================================== *)

Module ProfilesFacts.
Import models profiles CatalogFacts.

(** The runtimes the loop of [BuildProjectFromProfile] appends, started at
    an offset. *)
Fixpoint materialise (dependsOn : list string) (off : Z) (rcs : list RuntimeConfig)
    : list Runtime :=
  match rcs with
  | [] => []
  | rc :: rcs' =>
      (addProfileRuntime dependsOn ([], off) rc).1
        ++ materialise dependsOn (goint.add off 1000) rcs'
  end.

Lemma addProfileRuntime_foldl (dependsOn : list string) (rcs : list RuntimeConfig)
    (rts : list Runtime) (off : Z) :
  (foldl (addProfileRuntime dependsOn) (rts, off) rcs).1
    = rts ++ materialise dependsOn off rcs.
Proof.
  revert rts off. induction rcs as [|rc rcs IH]; intros rts off; simpl.
  - by rewrite app_nil_r.
  - rewrite IH, <- app_assoc. done.
Qed.

Lemma materialise_length (dependsOn : list string) (rcs : list RuntimeConfig) (off : Z) :
  length (materialise dependsOn off rcs) = length rcs.
Proof. revert off. induction rcs as [|rc rcs IH]; intros off; simpl; auto. Qed.

Lemma materialise_lookup (dependsOn : list string) (rcs : list RuntimeConfig)
    (off : Z) (i : nat) (rc : RuntimeConfig) :
  rcs !! i = Some rc →
  ∃ rt, materialise dependsOn off rcs !! i = Some rt
    ∧ rt_Type rt = rc_Type rc
    ∧ rt_Name rt = rc_Type rc +:+ "-app"
    ∧ rt_Framework rt = rc_Framework rc
    ∧ rt_Port rt = goint.wrap64
        (ri_DefaultPort (GetRuntimeInfo (rc_Type rc)) + (off + Z.of_nat i * 1000))
    ∧ rt_InternalPort rt = ri_DefaultPort (GetRuntimeInfo (rc_Type rc))
    ∧ rt_DependsOn rt = dependsOn.
Proof.
  revert off i. induction rcs as [|rc0 rcs IH]; intros off i Hi; [done|].
  destruct i as [|i]; simpl in Hi.
  - injection Hi as ->. eexists. split; [reflexivity|]. simpl.
    repeat split; auto. unfold goint.add. f_equal. lia.
  - destruct (IH (goint.add off 1000) i Hi) as (rt & Hrt & Hty & Hnm & Hfw & Hport & Hrest).
    exists rt. split; [exact Hrt|]. repeat split; try tauto.
    rewrite Hport. unfold goint.add.
    replace (ri_DefaultPort (GetRuntimeInfo (rc_Type rc))
             + (goint.wrap64 (off + 1000) + Z.of_nat i * 1000))%Z
      with ((ri_DefaultPort (GetRuntimeInfo (rc_Type rc)) + Z.of_nat i * 1000)
            + goint.wrap64 (off + 1000))%Z by lia.
    rewrite wrap64_add_wrap64_r. f_equal. lia.
Qed.

(** C8. Materialising a profile, in Go's integer arithmetic: the project has
    one datastore per kind of the profile, in order, named after its kind and
    on exactly the catalog default port of the kind; one runtime per runtime
    entry, the one at index i on the port default_port + i * 1000 (the [int]
    sum, which is the mathematical one for every index below 2^50); and
    every runtime depends on the full list of datastore instance names in
    declaration order. *)
Theorem profile_materialisation (profile : Profile) (projectName outputDir : string) :
  let project := BuildProjectFromProfile profile projectName outputDir in
  length (proj_Datastores project) = length (prof_Datastores profile)
  ∧ length (proj_Runtimes project) = length (prof_Runtimes profile)
  ∧ (∀ i dsType, prof_Datastores profile !! i = Some dsType →
       ∃ ds, proj_Datastores project !! i = Some ds
         ∧ ds_Type ds = dsType
         ∧ ds_Name ds = dsType
         ∧ ds_Port ds = di_DefaultPort (GetDatastoreInfo dsType))
  ∧ (∀ i rc, prof_Runtimes profile !! i = Some rc →
       ∃ rt, proj_Runtimes project !! i = Some rt
         ∧ rt_Type rt = rc_Type rc
         ∧ rt_Port rt = goint.wrap64
             (ri_DefaultPort (GetRuntimeInfo (rc_Type rc)) + Z.of_nat i * 1000)
         ∧ ((Z.of_nat i < 2 ^ 50)%Z →
            rt_Port rt
              = (ri_DefaultPort (GetRuntimeInfo (rc_Type rc)) + Z.of_nat i * 1000)%Z)
         ∧ rt_DependsOn rt = map ds_Name (proj_Datastores project)
         ∧ rt_DependsOn rt = prof_Datastores profile).
Proof.
  unfold BuildProjectFromProfile.
  rewrite (foldl_snoc_map (λ dsType : DatastoreType, dsType : string)).
  rewrite (foldl_snoc_map
             (λ dsType,
                {| ds_Type := dsType; ds_Name := dsType; ds_Image := "";
                   ds_Tag := getDefaultTag dsType;
                   ds_Port := goint.add (di_DefaultPort (GetDatastoreInfo dsType)) 0;
                   ds_InternalPort := di_DefaultPort (GetDatastoreInfo dsType);
                   ds_Volumes := []; ds_Environment := ∅;
                   ds_HealthCheck := None; ds_Networks := [] |})).
  simpl app. rewrite map_id.
  pose proof (addProfileRuntime_foldl (prof_Datastores profile)
                (prof_Runtimes profile) [] 0) as Hfold.
  destruct (foldl _ _ (prof_Runtimes profile)) as [rts off]. simpl in Hfold. subst rts.
  cbv zeta. simpl proj_Datastores. simpl proj_Runtimes.
  split; [by rewrite length_map|].
  split; [by rewrite materialise_length|].
  split.
  - intros i dsType Hi. eexists. split.
    + rewrite list_lookup_fmap, Hi. reflexivity.
    + simpl. repeat split; auto. unfold goint.add. rewrite Z.add_0_r.
      apply wrap64_small. pose proof (datastore_default_port_range dsType).
      unfold goint.min_int, goint.max_int. lia.
  - intros i rc Hi.
    destruct (materialise_lookup (prof_Datastores profile) _ 0 i rc Hi)
      as (rt & Hrt & Hty & _ & _ & Hport & _ & Hdeps).
    exists rt. split; [exact Hrt|]. split; [exact Hty|].
    split; [exact Hport|]. split; [|split].
    + intros Hlt. rewrite Hport. apply wrap64_small.
      pose proof (runtime_default_port_range (rc_Type rc)).
      unfold goint.min_int, goint.max_int. lia.
    + rewrite Hdeps, map_map. simpl. by rewrite map_id.
    + exact Hdeps.
Qed.

(** The fullstack preset: Node on 3000, Go on 9080, both depending on the
    three datastores, each on its default port. *)
Example fullstack_materialised :
  match GetProfile "fullstack" with
  | Some profile =>
      let project := BuildProjectFromProfile profile "demo" "." in
      map ds_Port (proj_Datastores project) = [5432; 6379; 7474]%Z
      ∧ map (λ rt, (rt_Name rt, rt_Port rt, rt_DependsOn rt)) (proj_Runtimes project)
        = [("node-app", 3000%Z, ["postgres"; "redis"; "neo4j"]);
           ("go-app", 9080%Z, ["postgres"; "redis"; "neo4j"])]
  | None => False
  end.
Proof. vm_compute. split; reflexivity. Qed.

End ProfilesFacts.

(* ===================================================================== *)
(** ** The add path *)
(* ===================================================================== *)

Module CmdFacts.
Import models gost cmd CatalogFacts.

(** *** Counting candidates *)

(** n distinct candidates that all occur in a list: the list has at least
    n entries. *)
Lemma pigeonhole {A : Type} (f : nat → A) (l : list A) (n : nat) :
  (∀ i j, (i < n)%nat → (j < n)%nat → f i = f j → i = j) →
  (∀ j, (j < n)%nat → f j ∈ l) →
  (n ≤ length l)%nat.
Proof.
  intros Hinj Hin.
  assert (Hnd : NoDup (f <$> seq 0 n)).
  { apply NoDup_fmap_2_strong; [|apply NoDup_seq].
    intros i j Hi Hj. apply elem_of_seq in Hi, Hj. apply Hinj; lia. }
  assert (Hsub : (f <$> seq 0 n) ⊆+ l).
  { apply NoDup_submseteq; [done|]. intros x Hx.
    apply list_elem_of_fmap in Hx as (j & -> & Hj). apply elem_of_seq in Hj.
    apply Hin. lia. }
  apply submseteq_length in Hsub. rewrite length_fmap, length_seq in Hsub. done.
Qed.

(** *** The set of used ports *)

Lemma usedPort_foldl {A : Type} (f : A → Z) (l : list A) (m : gmap Z bool) (p : Z) :
  usedPort (foldl (λ m x, <[ f x := true ]> m) m l) p = true
  ↔ usedPort m p = true ∨ p ∈ map f l.
Proof.
  revert m. induction l as [|x l IH]; intros m; simpl.
  - split; [auto|]. intros [H|H]; [done|]. by apply elem_of_nil in H.
  - rewrite IH. unfold usedPort. rewrite elem_of_cons.
    destruct (decide (f x = p)) as [<-|Hne].
    + rewrite lookup_insert_eq. simpl. tauto.
    + rewrite lookup_insert_ne by done. split; [tauto|].
      intros [H|[H|H]]; [tauto|congruence|tauto].
Qed.

Lemma usedPort_ports {A : Type} (f : A → Z) (l : list A) (p : Z) :
  usedPort (foldl (λ m x, <[ f x := true ]> m) ∅ l) p = true ↔ p ∈ map f l.
Proof.
  rewrite usedPort_foldl. unfold usedPort. rewrite lookup_empty. simpl.
  split; [intros [?|?]; done|auto].
Qed.

(** *** The port probe *)

Lemma probePort_more_fuel (fuel fuel' : nat) (used : gmap Z bool) (step port r : Z) :
  probePort fuel used step port = Some r → (fuel ≤ fuel')%nat →
  probePort fuel' used step port = Some r.
Proof.
  revert fuel' port. induction fuel as [|fuel IH]; intros fuel' port H Hle; [done|].
  destruct fuel' as [|fuel']; [lia|]. simpl in *.
  destruct (usedPort used port); [|done]. apply IH; [done|lia].
Qed.

(** What the probe answers within a window that does not overflow: the
    first free candidate, or that every candidate of the window is used. *)
Lemma probePort_spec (fuel : nat) (used : gmap Z bool) (step port : Z) :
  (0 < step)%Z → (goint.min_int ≤ port)%Z →
  (port + step * Z.of_nat fuel ≤ goint.max_int)%Z →
  match probePort fuel used step port with
  | Some r =>
      ∃ k : nat, (k < fuel)%nat ∧ r = (port + step * Z.of_nat k)%Z
        ∧ usedPort used r = false
        ∧ ∀ j : nat, (j < k)%nat → usedPort used (port + step * Z.of_nat j) = true
  | None =>
      ∀ j : nat, (j < fuel)%nat → usedPort used (port + step * Z.of_nat j) = true
  end.
Proof.
  intros Hstep. revert port. induction fuel as [|fuel IH]; intros port Hlo Hhi; simpl.
  - intros j Hj. lia.
  - destruct (usedPort used port) eqn:Hused.
    + assert (Hadd : goint.add port step = (port + step)%Z).
      { apply wrap64_small. unfold goint.min_int, goint.max_int in *. nia. }
      rewrite Hadd. specialize (IH (port + step)%Z).
      destruct (probePort fuel used step (port + step)) as [r|].
      * destruct IH as (k & Hk & Hr & Hfree & Hbelow); [lia|nia|].
        exists (S k). split; [lia|]. split; [lia|]. split; [done|].
        intros [|j] Hj.
        -- by replace (port + step * Z.of_nat 0)%Z with port by lia.
        -- replace (port + step * Z.of_nat (S j))%Z
             with (port + step + step * Z.of_nat j)%Z by lia.
           apply Hbelow. lia.
      * intros [|j] Hj.
        -- by replace (port + step * Z.of_nat 0)%Z with port by lia.
        -- replace (port + step * Z.of_nat (S j))%Z
             with (port + step + step * Z.of_nat j)%Z by lia.
           apply IH; [lia|nia|lia].
    + exists 0%nat. split; [lia|]. split; [lia|]. split; [done|]. intros j Hj. lia.
Qed.

(** With more fuel than there are instances the probe finds a port. *)
Lemma probePort_finds {A : Type} (f : A → Z) (l : list A) (fuel : nat) (step port : Z) :
  (0 < step)%Z → (0 ≤ port ≤ 8080)%Z →
  (Z.of_nat (length l) < 2 ^ 50)%Z → (step ≤ 1000)%Z →
  (length l < fuel)%nat →
  ∃ k : nat,
    probePort fuel (foldl (λ m x, <[ f x := true ]> m) ∅ l) step port
      = Some (port + step * Z.of_nat k)%Z
    ∧ ((port + step * Z.of_nat k)%Z ∉ map f l)
    ∧ ∀ j : nat, (j < k)%nat → (port + step * Z.of_nat j)%Z ∈ map f l.
Proof.
  intros Hstep Hport Hlen Hstep' Hfuel.
  set (used := foldl _ ∅ l).
  pose proof (probePort_spec (S (length l)) used step port Hstep) as Hspec.
  destruct (probePort (S (length l)) used step port) as [r|] eqn:Hprobe.
  - destruct Hspec as (k & Hk & -> & Hfree & Hbelow).
    { unfold goint.min_int. lia. }
    { unfold goint.max_int. nia. }
    exists k. split; [|split].
    + eapply probePort_more_fuel; [exact Hprobe|lia].
    + intros Hin. apply usedPort_ports in Hin. fold used in Hin. congruence.
    + intros j Hj. apply usedPort_ports. apply Hbelow. done.
  - exfalso.
    assert (Hall : ∀ j : nat, (j < S (length l))%nat →
                     (port + step * Z.of_nat j)%Z ∈ map f l).
    { intros j Hj. apply usedPort_ports. apply Hspec; [unfold goint.min_int; lia| |done].
      unfold goint.max_int. nia. }
    pose proof (pigeonhole (λ j, (port + step * Z.of_nat j)%Z) (map f l)
                  (S (length l))) as Hpig.
    rewrite length_map in Hpig. enough (S (length l) ≤ length l)%nat by lia.
    apply Hpig; [|exact Hall]. intros i j _ _ Heq. nia.
Qed.

(** *** The name check *)

Lemma runtimeNameExists_spec (name : string) (rts : list Runtime) :
  runtimeNameExists name rts = true ↔ name ∈ map rt_Name rts.
Proof.
  induction rts as [|rt rts IH]; simpl.
  - split; [done|]. intros H. by apply elem_of_nil in H.
  - rewrite elem_of_cons. destruct (String.eqb_spec (rt_Name rt) name) as [->|Hne].
    + tauto.
    + rewrite IH. split; [tauto|]. intros [H|H]; [congruence|done].
Qed.

Lemma datastoreTypeExists_spec (dsType : DatastoreType) (dss : list Datastore) :
  datastoreTypeExists dsType dss = true ↔ ∃ ds, ds ∈ dss ∧ ds_Type ds = dsType.
Proof.
  induction dss as [|ds dss IH]; simpl.
  - split; [done|]. intros (ds & H & _). by apply elem_of_nil in H.
  - destruct (String.eqb_spec (ds_Type ds) dsType) as [Heq|Hne].
    + split; [|done]. intros _. exists ds. split; [left|done].
    + rewrite IH. split.
      * intros (d & Hd & Ht). exists d. split; [by right|done].
      * intros (d & Hd & Ht). apply elem_of_cons in Hd as [->|Hd]; [done|].
        exists d. done.
Qed.

(** The name the loop examines in its j-th round, started at [name] with
    the counter at [c]. *)
Definition candidate (baseName name : string) (c : Z) (j : nat) : string :=
  match j with
  | O => name
  | S _ => baseName +:+ "-" +:+ goint.fmt_d (c + Z.of_nat j)
  end.

Lemma uniqueName_more_fuel (fuel fuel' : nat) (rts : list Runtime)
    (baseName name : string) (c : Z) (r : string) :
  uniqueName fuel rts baseName name c = Some r → (fuel ≤ fuel')%nat →
  uniqueName fuel' rts baseName name c = Some r.
Proof.
  revert fuel' name c. induction fuel as [|fuel IH]; intros fuel' name c H Hle; [done|].
  destruct fuel' as [|fuel']; [lia|]. simpl in *.
  destruct (runtimeNameExists name rts); [|done]. apply IH; [done|lia].
Qed.

Lemma uniqueName_spec (fuel : nat) (rts : list Runtime) (baseName name : string) (c : Z) :
  (goint.min_int ≤ c)%Z → (c + Z.of_nat fuel ≤ goint.max_int)%Z →
  match uniqueName fuel rts baseName name c with
  | Some r =>
      ∃ k : nat, (k < fuel)%nat ∧ r = candidate baseName name c k
        ∧ runtimeNameExists r rts = false
        ∧ ∀ j : nat, (j < k)%nat →
            runtimeNameExists (candidate baseName name c j) rts = true
  | None =>
      ∀ j : nat, (j < fuel)%nat →
        runtimeNameExists (candidate baseName name c j) rts = true
  end.
Proof.
  revert name c. induction fuel as [|fuel IH]; intros name c Hlo Hhi; simpl.
  - intros j Hj. lia.
  - destruct (runtimeNameExists name rts) eqn:Hex.
    + assert (Hadd : goint.add c 1 = (c + 1)%Z).
      { apply wrap64_small. unfold goint.min_int, goint.max_int in *. lia. }
      rewrite Hadd.
      assert (Hcand : ∀ j, candidate baseName
                             (baseName +:+ "-" +:+ goint.fmt_d (c + 1)) (c + 1) j
                           = candidate baseName name c (S j)).
      { intros [|j]; simpl; do 3 f_equal; lia. }
      specialize (IH (baseName +:+ "-" +:+ goint.fmt_d (c + 1)) (c + 1)%Z).
      destruct (uniqueName fuel rts baseName _ (c + 1)) as [r|].
      * destruct IH as (k & Hk & Hr & Hfree & Hbelow); [lia|lia|].
        exists (S k). split; [lia|]. split; [by rewrite <- Hcand|]. split; [done|].
        intros [|j] Hj; [done|]. rewrite <- Hcand. apply Hbelow. lia.
      * intros [|j] Hj; [done|]. rewrite <- Hcand. apply IH; lia.
    + exists 0%nat. split; [lia|]. split; [done|]. split; [done|]. intros j Hj. lia.
Qed.

Lemma string_length_app (s t : string) :
  String.length (s +:+ t) = (String.length s + String.length t)%nat.
Proof.
  induction s as [|a s IH]; [done|].
  change (String a s +:+ t) with (String a (s +:+ t)). simpl. by rewrite IH.
Qed.

Lemma append_ne_self (s t : string) : t ≠ "" → s +:+ t ≠ s.
Proof.
  intros Ht H. assert (Hlen : String.length (s +:+ t) = String.length s) by (by rewrite H).
  rewrite string_length_app in Hlen. destruct t; [done|]. simpl in Hlen. lia.
Qed.

Lemma candidate_inj (baseName : string) (c : Z) (i j : nat) :
  candidate baseName baseName c i = candidate baseName baseName c j → i = j.
Proof.
  destruct i as [|i], j as [|j]; simpl; intros H; [done| | |].
  - symmetry in H. by apply append_ne_self in H.
  - by apply append_ne_self in H.
  - apply String.app_inj in H. apply (String.app_inj "-") in H.
    unfold goint.fmt_d in H. apply pretty_Z_inj in H. lia.
Qed.

(** With more fuel than there are runtimes the name check finds a name. *)
Lemma uniqueName_finds (rts : list Runtime) (fuel : nat) (baseName : string) :
  (Z.of_nat (length rts) < 2 ^ 50)%Z → (length rts < fuel)%nat →
  ∃ k : nat,
    uniqueName fuel rts baseName baseName 1 = Some (candidate baseName baseName 1 k)
    ∧ (candidate baseName baseName 1 k ∉ map rt_Name rts)
    ∧ ∀ j : nat, (j < k)%nat → candidate baseName baseName 1 j ∈ map rt_Name rts.
Proof.
  intros Hlen Hfuel.
  pose proof (uniqueName_spec (S (length rts)) rts baseName baseName 1) as Hspec.
  destruct (uniqueName (S (length rts)) rts baseName baseName 1) as [r|] eqn:Hrun.
  - destruct Hspec as (k & Hk & -> & Hfree & Hbelow).
    { unfold goint.min_int. lia. }
    { unfold goint.max_int. lia. }
    exists k. split; [|split].
    + eapply uniqueName_more_fuel; [exact Hrun|lia].
    + intros Hin. apply runtimeNameExists_spec in Hin. congruence.
    + intros j Hj. apply runtimeNameExists_spec. apply Hbelow. done.
  - exfalso.
    pose proof (pigeonhole (candidate baseName baseName 1) (map rt_Name rts)
                  (S (length rts))) as Hpig.
    rewrite length_map in Hpig. enough (S (length rts) ≤ length rts)%nat by lia.
    apply Hpig.
    + intros i j _ _. apply candidate_inj.
    + intros j Hj. apply runtimeNameExists_spec.
      apply Hspec; [unfold goint.min_int; lia|unfold goint.max_int; lia|done].
Qed.

(** *** Save and regenerate *)

Section Commands.
Context (sys : System) (ext : generator.Externals) (rnd : generator.RandSource).

(** Saving and regenerating never panics and leaves the project alone. *)
Lemma saveAndRegenerate_total (configPath : string) (w : World) :
  ∃ err w', saveAndRegenerate sys ext rnd configPath w = Some (err, w')
    ∧ w_project w' = w_project w.
Proof.
  unfold saveAndRegenerate, bind at 1, getProject.
  destruct (yaml_MarshalProject sys (w_project w)) as [data|e].
  - unfold bind at 1, emit.
    destruct (os_WriteFile sys configPath data) as [e|].
    + do 2 eexists. split; reflexivity.
    + unfold bind at 1, bind at 1. simpl w_reads. simpl w_project.
      destruct (GeneratorFacts.generate_total ext rnd (w_project w) (w_reads w))
        as (r & st & Hgen).
      rewrite Hgen. destruct r as [out|e].
      * do 2 eexists. split; reflexivity.
      * do 2 eexists. split; reflexivity.
  - do 2 eexists. split; reflexivity.
Qed.

(** *** Adding a datastore *)

Lemma addDatastore_spec (fuel : nat) (configPath : string) (dsType : DatastoreType)
    (w : World) :
  datastoreTypeExists dsType (proj_Datastores (w_project w)) = false →
  (length (proj_Datastores (w_project w)) < fuel)%nat →
  (Z.of_nat (length (proj_Datastores (w_project w))) < 2 ^ 50)%Z →
  ∃ err w' ds (k : nat),
    addDatastore sys ext rnd fuel configPath dsType w = Some (err, w')
    ∧ proj_Datastores (w_project w') = proj_Datastores (w_project w) ++ [ds]
    ∧ proj_Runtimes (w_project w') = proj_Runtimes (w_project w)
    ∧ ds_Type ds = dsType
    ∧ ds_Port ds = (di_DefaultPort (GetDatastoreInfo dsType) + Z.of_nat k)%Z
    ∧ (∀ j : nat, (j < k)%nat →
         (di_DefaultPort (GetDatastoreInfo dsType) + Z.of_nat j)%Z
           ∈ map ds_Port (proj_Datastores (w_project w)))
    ∧ (ds_Port ds ∉ map ds_Port (proj_Datastores (w_project w))).
Proof.
  intros Hnew Hfuel Hlen.
  unfold addDatastore, bind at 1, getProject. rewrite Hnew.
  pose proof (datastore_default_port_range dsType) as Hrange.
  destruct (probePort_finds ds_Port (proj_Datastores (w_project w)) fuel 1
              (di_DefaultPort (GetDatastoreInfo dsType)))
    as (k & Hprobe & Hfree & Hbelow); [lia|lia|done|lia|done|].
  rewrite Hprobe. unfold bind at 1, setProject. unfold bind at 1.
  match goal with
  | |- context [saveAndRegenerate sys ext rnd configPath ?w1] =>
      destruct (saveAndRegenerate_total configPath w1) as (err & w' & Hsave & Hproj);
      rewrite Hsave
  end.
  simpl in Hproj.
  destruct err as [e|].
  - exists (Some e), w'. eexists. exists k. split; [reflexivity|]. rewrite Hproj. simpl.
    split; [reflexivity|]. split; [reflexivity|]. split; [reflexivity|].
    simpl. split; [lia|]. split; [|done].
    intros j Hj. specialize (Hbelow j Hj).
    by replace (1 * Z.of_nat j)%Z with (Z.of_nat j) in Hbelow by lia.
  - unfold bind, emit, ret. do 3 eexists. exists k. split; [reflexivity|]. simpl.
    rewrite Hproj. simpl.
    split; [reflexivity|]. split; [reflexivity|]. split; [reflexivity|].
    simpl. split; [lia|]. split; [|done].
    intros j Hj. specialize (Hbelow j Hj).
    by replace (1 * Z.of_nat j)%Z with (Z.of_nat j) in Hbelow by lia.
Qed.

(** C7. Adding a datastore whose kind the project already has returns the
    error and nothing else: the world after the call is the world before it,
    so the datastore and runtime lists are as they were, nothing was saved,
    regenerated or written, and the random source was not read. *)
Theorem duplicate_datastore_rejected (fuel : nat) (configPath : string)
    (dsType : DatastoreType) (w : World) :
  (∃ ds, ds ∈ proj_Datastores (w_project w) ∧ ds_Type ds = dsType) →
  ∃ w',
    addDatastore sys ext rnd fuel configPath dsType w
      = Some (Some (dsType +:+ " is already in the configuration"), w')
    ∧ w' = w
    ∧ proj_Datastores (w_project w') = proj_Datastores (w_project w)
    ∧ proj_Runtimes (w_project w') = proj_Runtimes (w_project w)
    ∧ w_events w' = w_events w
    ∧ w_reads w' = w_reads w.
Proof.
  intros Hdup. apply datastoreTypeExists_spec in Hdup.
  exists w. unfold addDatastore, bind, getProject. rewrite Hdup. unfold ret. done.
Qed.

(** *** Adding a runtime *)

Lemma addRuntime_spec (fuel : nat) (configPath : string) (rtType : RuntimeType)
    (w : World) :
  rtType ∈ AvailableRuntimes →
  (length (proj_Runtimes (w_project w)) < fuel)%nat →
  (Z.of_nat (length (proj_Runtimes (w_project w))) < 2 ^ 50)%Z →
  ∃ err w' rt (kn kp : nat),
    addRuntime sys ext rnd fuel configPath rtType w = Some (err, w')
    ∧ proj_Runtimes (w_project w') = proj_Runtimes (w_project w) ++ [rt]
    ∧ proj_Datastores (w_project w') = proj_Datastores (w_project w)
    ∧ rt_Type rt = rtType
    ∧ rt_Name rt = candidate (rtType +:+ "-app") (rtType +:+ "-app") 1 kn
    ∧ (rt_Name rt ∉ map rt_Name (proj_Runtimes (w_project w)))
    ∧ (∀ j : nat, (j < kn)%nat →
         candidate (rtType +:+ "-app") (rtType +:+ "-app") 1 j
           ∈ map rt_Name (proj_Runtimes (w_project w)))
    ∧ rt_Port rt = (ri_DefaultPort (GetRuntimeInfo rtType) + 1000 * Z.of_nat kp)%Z
    ∧ (rt_Port rt ∉ map rt_Port (proj_Runtimes (w_project w)))
    ∧ (∀ j : nat, (j < kp)%nat →
         (ri_DefaultPort (GetRuntimeInfo rtType) + 1000 * Z.of_nat j)%Z
           ∈ map rt_Port (proj_Runtimes (w_project w))).
Proof.
  intros Hkind Hfuel Hlen.
  unfold addRuntime, bind at 1, getProject.
  destruct (runtime_frameworks rtType Hkind) as (f0 & f1 & fs & Hfw). rewrite Hfw.
  destruct (uniqueName_finds (proj_Runtimes (w_project w)) fuel (rtType +:+ "-app")
              Hlen Hfuel) as (kn & Hname & Hnfree & Hnbelow).
  rewrite Hname.
  pose proof (runtime_default_port_range rtType) as Hrange.
  destruct (probePort_finds rt_Port (proj_Runtimes (w_project w)) fuel 1000
              (ri_DefaultPort (GetRuntimeInfo rtType)))
    as (kp & Hprobe & Hpfree & Hpbelow); [lia|lia|done|lia|done|].
  rewrite Hprobe. unfold bind at 1, setProject. unfold bind at 1.
  match goal with
  | |- context [saveAndRegenerate sys ext rnd configPath ?w1] =>
      destruct (saveAndRegenerate_total configPath w1) as (err & w' & Hsave & Hproj);
      rewrite Hsave
  end.
  simpl in Hproj.
  destruct err as [e|].
  - exists (Some e), w'. eexists. exists kn, kp. split; [reflexivity|].
    rewrite Hproj. simpl.
    repeat (split; [first [reflexivity|done]|]). done.
  - unfold bind, emit, ret. do 3 eexists. exists kn, kp. split; [reflexivity|]. simpl.
    rewrite Hproj. simpl. repeat (split; [first [reflexivity|done]|]). done.
Qed.

(** C5. On the add path, in a world whose lists are shorter than the fuel
    and than 2^50: adding a datastore of a kind not yet present returns and
    appends one datastore whose port is default + k for the least k such that
    default, default+1, ..., default+k-1 are all ports of existing datastores
    and default + k is not; adding a runtime of a kind of the enumeration
    returns and appends one runtime whose port is default + 1000*k for the
    least such k over the existing runtime ports. In both cases the new
    port differs from every existing port of its list. *)
Theorem add_path_port_resolution (fuel : nat) (configPath : string) (w : World) :
  (∀ dsType : DatastoreType,
     datastoreTypeExists dsType (proj_Datastores (w_project w)) = false →
     (length (proj_Datastores (w_project w)) < fuel)%nat →
     (Z.of_nat (length (proj_Datastores (w_project w))) < 2 ^ 50)%Z →
     ∃ err w' ds (k : nat),
       addDatastore sys ext rnd fuel configPath dsType w = Some (err, w')
       ∧ proj_Datastores (w_project w') = proj_Datastores (w_project w) ++ [ds]
       ∧ ds_Type ds = dsType
       ∧ ds_Port ds = (di_DefaultPort (GetDatastoreInfo dsType) + Z.of_nat k)%Z
       ∧ (∀ j : nat, (j < k)%nat →
            (di_DefaultPort (GetDatastoreInfo dsType) + Z.of_nat j)%Z
              ∈ map ds_Port (proj_Datastores (w_project w)))
       ∧ (ds_Port ds ∉ map ds_Port (proj_Datastores (w_project w))))
  ∧ (∀ rtType : RuntimeType,
     rtType ∈ AvailableRuntimes →
     (length (proj_Runtimes (w_project w)) < fuel)%nat →
     (Z.of_nat (length (proj_Runtimes (w_project w))) < 2 ^ 50)%Z →
     ∃ err w' rt (k : nat),
       addRuntime sys ext rnd fuel configPath rtType w = Some (err, w')
       ∧ proj_Runtimes (w_project w') = proj_Runtimes (w_project w) ++ [rt]
       ∧ rt_Type rt = rtType
       ∧ rt_Port rt = (ri_DefaultPort (GetRuntimeInfo rtType) + 1000 * Z.of_nat k)%Z
       ∧ (∀ j : nat, (j < k)%nat →
            (ri_DefaultPort (GetRuntimeInfo rtType) + 1000 * Z.of_nat j)%Z
              ∈ map rt_Port (proj_Runtimes (w_project w)))
       ∧ (rt_Port rt ∉ map rt_Port (proj_Runtimes (w_project w)))).
Proof.
  split.
  - intros dsType Hnew Hfuel Hlen.
    destruct (addDatastore_spec fuel configPath dsType w Hnew Hfuel Hlen)
      as (err & w' & ds & k & Hrun & Hdss & _ & Hty & Hport & Hbelow & Hfree).
    exists err, w', ds, k. auto 10.
  - intros rtType Hkind Hfuel Hlen.
    destruct (addRuntime_spec fuel configPath rtType w Hkind Hfuel Hlen)
      as (err & w' & rt & kn & kp & Hrun & Hrts & _ & Hty & _ & _ & _
          & Hport & Hfree & Hbelow).
    exists err, w', rt, kp. auto 10.
Qed.

(** C9. Adding a runtime of a kind of the enumeration, in a world whose
    runtime list is shorter than the fuel and than 2^50, returns and appends
    one runtime whose name is no name of an existing runtime: it is
    kind-app when no existing runtime has that name, and otherwise
    kind-app-k for the least counter k from 2 on such that kind-app-k is
    not an existing name (every kind-app-j with 2 ≤ j < k is one). *)
Theorem add_runtime_name (fuel : nat) (configPath : string) (rtType : RuntimeType)
    (w : World) :
  rtType ∈ AvailableRuntimes →
  (length (proj_Runtimes (w_project w)) < fuel)%nat →
  (Z.of_nat (length (proj_Runtimes (w_project w))) < 2 ^ 50)%Z →
  ∃ err w' rt,
    addRuntime sys ext rnd fuel configPath rtType w = Some (err, w')
    ∧ proj_Runtimes (w_project w') = proj_Runtimes (w_project w) ++ [rt]
    ∧ (rt_Name rt ∉ map rt_Name (proj_Runtimes (w_project w)))
    ∧ (rtType +:+ "-app" ∉ map rt_Name (proj_Runtimes (w_project w)) →
       rt_Name rt = rtType +:+ "-app")
    ∧ (rtType +:+ "-app" ∈ map rt_Name (proj_Runtimes (w_project w)) →
       ∃ k : Z, (2 ≤ k)%Z
         ∧ rt_Name rt = (rtType +:+ "-app") +:+ "-" +:+ goint.fmt_d k
         ∧ ∀ j : Z, (2 ≤ j < k)%Z →
             (rtType +:+ "-app") +:+ "-" +:+ goint.fmt_d j
               ∈ map rt_Name (proj_Runtimes (w_project w))).
Proof.
  intros Hkind Hfuel Hlen.
  destruct (addRuntime_spec fuel configPath rtType w Hkind Hfuel Hlen)
    as (err & w' & rt & kn & kp & Hrun & Hrts & _ & _ & Hname & Hfree & Hbelow & _).
  exists err, w', rt. split; [done|]. split; [done|]. split; [done|].
  destruct kn as [|m].
  - simpl in Hname. split; [done|]. intros Hin. rewrite Hname in Hfree. done.
  - split.
    + intros Hnot. exfalso. apply Hnot. apply (Hbelow 0%nat). lia.
    + intros _. exists (1 + Z.of_nat (S m))%Z. split; [lia|]. split; [exact Hname|].
      intros j Hj. specialize (Hbelow (Z.to_nat (j - 1)) ltac:(lia)).
      destruct (Z.to_nat (j - 1)) as [|j'] eqn:Ej; [lia|].
      cbv beta iota delta [candidate] in Hbelow.
      replace (1 + Z.of_nat (S j'))%Z with j in Hbelow by lia.
      exact Hbelow.
Qed.

End Commands.

(** *** The add path on a concrete configuration *)

(** Adding the cache with modules next to a cache on 6379 takes 6380. *)
Example add_redis_stack_next_to_redis :
  match addDatastore examples.sys0 examples.ext0 examples.rndFixed 8 "stackgen.yaml"
          DatastoreRedisStack examples.world0 with
  | Some (None, w') =>
      map ds_Port (proj_Datastores (w_project w')) = [5432; 6379; 6380]%Z
  | _ => False
  end.
Proof. vm_compute. reflexivity. Qed.

(** Adding a third Go runtime takes the name go-app-3 and the port 10080. *)
Example add_third_go_runtime :
  match addRuntime examples.sys0 examples.ext0 examples.rndFixed 8 "stackgen.yaml"
          RuntimeGo examples.world0 with
  | Some (None, w') =>
      map (λ rt, (rt_Name rt, rt_Port rt)) (proj_Runtimes (w_project w'))
        = [("go-app", 8080%Z); ("go-app-2", 9080%Z); ("go-app-3", 10080%Z)]
  | _ => False
  end.
Proof. vm_compute. reflexivity. Qed.

(** Without fuel the loops of the model do not finish. *)
Example add_runtime_out_of_fuel :
  addRuntime examples.sys0 examples.ext0 examples.rndFixed 2 "stackgen.yaml"
    RuntimeGo examples.world0 = None.
Proof. vm_compute. reflexivity. Qed.

Lemma add_path_port_resolution_witness :
  (∃ err w' ds (k : nat),
     addDatastore examples.sys0 examples.ext0 examples.rndFixed 8 "stackgen.yaml"
       DatastoreRedisStack examples.world0 = Some (err, w')
     ∧ proj_Datastores (w_project w')
         = proj_Datastores (w_project examples.world0) ++ [ds]
     ∧ ds_Type ds = DatastoreRedisStack
     ∧ ds_Port ds = (di_DefaultPort (GetDatastoreInfo DatastoreRedisStack) + Z.of_nat k)%Z
     ∧ (∀ j : nat, (j < k)%nat →
          (di_DefaultPort (GetDatastoreInfo DatastoreRedisStack) + Z.of_nat j)%Z
            ∈ map ds_Port (proj_Datastores (w_project examples.world0)))
     ∧ (ds_Port ds ∉ map ds_Port (proj_Datastores (w_project examples.world0))))
  ∧ (∃ err w' rt (k : nat),
     addRuntime examples.sys0 examples.ext0 examples.rndFixed 8 "stackgen.yaml"
       RuntimeJava examples.world0 = Some (err, w')
     ∧ proj_Runtimes (w_project w')
         = proj_Runtimes (w_project examples.world0) ++ [rt]
     ∧ rt_Type rt = RuntimeJava
     ∧ rt_Port rt = (ri_DefaultPort (GetRuntimeInfo RuntimeJava) + 1000 * Z.of_nat k)%Z
     ∧ (∀ j : nat, (j < k)%nat →
          (ri_DefaultPort (GetRuntimeInfo RuntimeJava) + 1000 * Z.of_nat j)%Z
            ∈ map rt_Port (proj_Runtimes (w_project examples.world0)))
     ∧ (rt_Port rt ∉ map rt_Port (proj_Runtimes (w_project examples.world0)))).
Proof.
  split.
  - apply (add_path_port_resolution examples.sys0 examples.ext0 examples.rndFixed
             8 "stackgen.yaml" examples.world0).
    + reflexivity.
    + simpl. lia.
    + simpl. lia.
  - apply (add_path_port_resolution examples.sys0 examples.ext0 examples.rndFixed
             8 "stackgen.yaml" examples.world0).
    + apply list_elem_of_In. simpl. tauto.
    + simpl. lia.
    + simpl. lia.
Defined.

Lemma duplicate_datastore_rejected_witness :
  ∃ w',
    addDatastore examples.sys0 examples.ext0 examples.rndFixed 8 "stackgen.yaml"
      DatastoreRedis examples.world0
      = Some (Some (DatastoreRedis +:+ " is already in the configuration"), w')
    ∧ w' = examples.world0
    ∧ proj_Datastores (w_project w') = proj_Datastores (w_project examples.world0)
    ∧ proj_Runtimes (w_project w') = proj_Runtimes (w_project examples.world0)
    ∧ w_events w' = w_events examples.world0
    ∧ w_reads w' = w_reads examples.world0.
Proof.
  apply (duplicate_datastore_rejected examples.sys0 examples.ext0 examples.rndFixed
           8 "stackgen.yaml" DatastoreRedis examples.world0).
  exists (examples.datastore DatastoreRedis 6379). split.
  - apply list_elem_of_In. simpl. tauto.
  - reflexivity.
Defined.

Lemma add_runtime_name_witness :
  ∃ err w' rt,
    addRuntime examples.sys0 examples.ext0 examples.rndFixed 8 "stackgen.yaml"
      RuntimeGo examples.world0 = Some (err, w')
    ∧ proj_Runtimes (w_project w') = proj_Runtimes (w_project examples.world0) ++ [rt]
    ∧ (rt_Name rt ∉ map rt_Name (proj_Runtimes (w_project examples.world0)))
    ∧ (RuntimeGo +:+ "-app" ∉ map rt_Name (proj_Runtimes (w_project examples.world0)) →
       rt_Name rt = RuntimeGo +:+ "-app")
    ∧ (RuntimeGo +:+ "-app" ∈ map rt_Name (proj_Runtimes (w_project examples.world0)) →
       ∃ k : Z, (2 ≤ k)%Z
         ∧ rt_Name rt = (RuntimeGo +:+ "-app") +:+ "-" +:+ goint.fmt_d k
         ∧ ∀ j : Z, (2 ≤ j < k)%Z →
             (RuntimeGo +:+ "-app") +:+ "-" +:+ goint.fmt_d j
               ∈ map rt_Name (proj_Runtimes (w_project examples.world0))).
Proof.
  apply (add_runtime_name examples.sys0 examples.ext0 examples.rndFixed
           8 "stackgen.yaml" RuntimeGo examples.world0).
  - apply list_elem_of_In. simpl. tauto.
  - simpl. lia.
  - simpl. lia.
Defined.

End CmdFacts.

(* ===================================================================== *)
(** ** Secrets: the shape of generated passwords *)
(* ===================================================================== *)

Module SecretFacts.
Import models gost generator GeneratorFacts.

(** The two digits [hex.EncodeToString] writes for one byte. *)
Definition hexHigh (v : Byte.byte) : ascii :=
  str_index hextable (N.to_nat (N.shiftr (Byte.to_N v) 4)).
Definition hexLow (v : Byte.byte) : ascii :=
  str_index hextable (N.to_nat (N.land (Byte.to_N v) 15)).

(** The value of a hexadecimal digit, and the byte two digits spell. *)
Definition hexValue (c : ascii) : option N :=
  (λ p, N.of_nat p.1) <$>
    list_find (λ d, d = c) (String.list_ascii_of_string hextable).

Definition unhex (hi lo : ascii) : option Byte.byte :=
  h ← hexValue hi; l ← hexValue lo; Byte.of_N (16 * h + l).

(** The inverse of [hex_EncodeToString]. *)
Fixpoint hex_decode (s : string) : option (list Byte.byte) :=
  match s with
  | EmptyString => Some []
  | String hi (String lo s') =>
      b ← unhex hi lo; bs ← hex_decode s'; Some (b :: bs)
  | String _ EmptyString => None
  end.

Lemma unhex_hex (v : Byte.byte) : unhex (hexHigh v) (hexLow v) = Some v.
Proof. destruct v; vm_compute; reflexivity. Qed.

Lemma hex_digit_bool (v : Byte.byte) :
  existsb (Ascii.eqb (hexHigh v)) (String.list_ascii_of_string hextable)
  && existsb (Ascii.eqb (hexLow v)) (String.list_ascii_of_string hextable) = true.
Proof. destruct v; vm_compute; reflexivity. Qed.

Lemma existsb_eqb_elem (c : ascii) (l : list ascii) :
  existsb (Ascii.eqb c) l = true → c ∈ l.
Proof.
  intros H. apply existsb_exists in H as (d & Hd & Heq).
  apply Ascii.eqb_eq in Heq as ->. by apply list_elem_of_In.
Qed.

Lemma hex_decode_encode (bs : list Byte.byte) :
  hex_decode (hex_EncodeToString bs) = Some bs.
Proof.
  induction bs as [|v bs IH]; [done|].
  simpl. fold (hexHigh v). fold (hexLow v). rewrite unhex_hex. simpl.
  rewrite IH. done.
Qed.

Lemma hex_encode_length (bs : list Byte.byte) :
  String.length (hex_EncodeToString bs) = (2 * length bs)%nat.
Proof. induction bs as [|v bs IH]; simpl; [done|]. rewrite IH. lia. Qed.

Lemma hex_encode_digits (bs : list Byte.byte) (c : ascii) :
  c ∈ String.list_ascii_of_string (hex_EncodeToString bs) →
  c ∈ String.list_ascii_of_string hextable.
Proof.
  set (tbl := String.list_ascii_of_string hextable).
  induction bs as [|v bs IH]; simpl; intros H.
  - by apply elem_of_nil in H.
  - fold (hexHigh v) in H. fold (hexLow v) in H.
    pose proof (hex_digit_bool v) as Hd. apply andb_true_iff in Hd as [Hh Hl].
    apply elem_of_cons in H as [->|H]; [by apply existsb_eqb_elem|].
    apply elem_of_cons in H as [->|H]; [by apply existsb_eqb_elem|].
    by apply IH.
Qed.

(** X1. Whatever bytes the read of the random source delivers,
    [generatePassword n] returns a string of 2 * (n / 2) characters, every
    one a lowercase hexadecimal digit, and counts one read; for the length
    16 the code passes, that is 16 characters. *)
Theorem generatePassword_shape (rnd : RandSource) (n : nat) (st : State) :
  ∃ pw,
    generatePassword rnd n st = Some (pw, mkState (st_g st) (S (st_reads st)))
    ∧ String.length pw = (2 * (n / 2))%nat
    ∧ (n = 16%nat → String.length pw = 16%nat)
    ∧ ∀ c, c ∈ String.list_ascii_of_string pw →
           c ∈ String.list_ascii_of_string "0123456789abcdef".
Proof.
  eexists. split; [apply generatePassword_eq|].
  split; [|split].
  - rewrite hex_encode_length, readInto_length, length_replicate. done.
  - intros ->. rewrite hex_encode_length, readInto_length, length_replicate. done.
  - intros c. apply hex_encode_digits.
Qed.

(** X2. The password is a lossless image of the bytes read: two calls of
    [generatePassword] (on any sources, states and lengths) that return the
    same password had the same buffer content after their read. *)
Theorem generatePassword_lossless
    (rnd1 rnd2 : RandSource) (n1 n2 : nat) (st1 st2 st1' st2' : State) (pw : string) :
  generatePassword rnd1 n1 st1 = Some (pw, st1') →
  generatePassword rnd2 n2 st2 = Some (pw, st2') →
  readInto (rnd1 (st_reads st1)) (replicate (n1 / 2) zero_byte)
  = readInto (rnd2 (st_reads st2)) (replicate (n2 / 2) zero_byte).
Proof.
  rewrite !generatePassword_eq. intros H1 H2.
  injection H1 as H1 _. injection H2 as H2 _.
  pose proof (eq_trans H1 (eq_sym H2)) as E.
  apply (f_equal hex_decode) in E. rewrite !hex_decode_encode in E.
  injection E as E. exact E.
Qed.

Lemma generatePassword_lossless_witness :
  readInto (examples.rndFixed 0%nat) (replicate (16 / 2) zero_byte)
  = readInto (examples.rndFixed 3%nat) (replicate (16 / 2) zero_byte).
Proof.
  apply (generatePassword_lossless examples.rndFixed examples.rndFixed 16 16
           (mkState (New (examples.project [] [])) 0)
           (mkState (New (examples.project [] [])) 3)
           (mkState (New (examples.project [] [])) 1)
           (mkState (New (examples.project [] [])) 4)
           "004612fe8007a53c").
  - reflexivity.
  - reflexivity.
Defined.

Lemma string_get_elem (s : string) (k : nat) (c : ascii) :
  String.get k s = Some c → c ∈ String.list_ascii_of_string s.
Proof.
  revert k. induction s as [|a s IH]; intros k H; simpl in *; [done|].
  destruct k as [|k].
  - injection H as ->. left.
  - right. by eapply IH.
Qed.

Lemma pick_in_chars (b : Byte.byte) : pick b ∈ String.list_ascii_of_string chars.
Proof. eapply string_get_elem, pick_get. Qed.

(** X3. For a length of at least four, whatever the random source answers,
    every character of the strong password is one of the 67 characters of
    the alphabet [chars] (letters, digits and the symbols !@#$%): the four
    seeded characters belong to it as well. A length below four panics on
    the seeding, before the random source is read. *)
Theorem strong_password_alphabet (rnd : RandSource) (n : nat) (st : State) :
  ((4 ≤ n)%nat →
     ∃ pw st',
       generateStrongPassword rnd n st = Some (pw, st')
       ∧ ∀ c, c ∈ String.list_ascii_of_string pw →
              c ∈ String.list_ascii_of_string chars)
  ∧ ((n < 4)%nat → generateStrongPassword rnd n st = None).
Proof.
  split.
  - intros Hn. do 2 eexists. split; [by apply generateStrongPassword_eq|].
    intros c Hc. unfold seedPrefix, string_of_bytes in Hc.
    cbn [String.list_ascii_of_string] in Hc.
    rewrite String.list_ascii_of_string_of_list_ascii in Hc.
    apply elem_of_cons in Hc as [->|Hc]; [by apply (string_get_elem chars 26)|].
    apply elem_of_cons in Hc as [->|Hc]; [by apply (string_get_elem chars 0)|].
    apply elem_of_cons in Hc as [->|Hc]; [by apply (string_get_elem chars 53)|].
    apply elem_of_cons in Hc as [->|Hc]; [by apply (string_get_elem chars 62)|].
    apply list_elem_of_fmap in Hc as (b & -> & _). apply pick_in_chars.
  - intros Hn. unfold generateStrongPassword.
    destruct (Nat.ltb_spec n 4); [done|lia].
Qed.

End SecretFacts.

(* ===================================================================== *)
(** ** Service synthesis: what every kind shares, and the edges *)
(* ===================================================================== *)

Module ServiceFacts.
Import models gost generator GeneratorFacts.

(** Evaluate the comparisons of kinds once the kind is a constant. *)
Ltac eval_eqb :=
  repeat match goal with
         | |- context [String.eqb ?a ?b] =>
             let v := eval vm_compute in (String.eqb a b) in
             change (String.eqb a b) with v
         end;
  cbv iota.

Ltac known_datastore H :=
  unfold AvailableDatastores in H;
  repeat (apply elem_of_cons in H as [H|H]);
  [.. | by apply elem_of_nil in H];
  unfold generateDatastoreService, bind at 1, getG, bind at 1;
  rewrite generatePassword_eq, ?H; eval_eqb;
  unfold bind, modifyG, ret;
  rewrite ?generatePassword_eq, ?generateStrongPassword_eq by lia.

(** X4. For every datastore of a kind of the enumeration, on a receiver
    whose volume map [Generate] has made when the kind is the graph
    database, the synthesised service returns, without error, with: the
    first port mapping external:internal where internal is the catalog's
    default port of the kind; the volume name-data as its first mount; the
    container name project-name; the project network as its only network;
    the restart policy unless-stopped; no build section; a health probe with
    a command, interval 10s, timeout 5s and 5 retries; and at least one
    secret environment variable. On a receiver whose volume map is still
    nil, as [New] returns it, the graph-database case panics on its write
    of the logs volume and returns nothing. *)
Theorem datastore_service_shape
    (rnd : RandSource) (ds : Datastore) (network : string) (st : State) :
  ds_Type ds ∈ AvailableDatastores →
  (ds_Type ds = DatastoreNeo4j →
   cf_Volumes (g_compose (st_g st)) = NilMap →
   generateDatastoreService rnd ds network st = None)
  ∧ ((ds_Type ds = DatastoreNeo4j → volumesMade (st_g st)) →
     ∃ service envs st',
       generateDatastoreService rnd ds network st = Some ((service, envs, None), st')
       ∧ head (svc_Ports service)
           = Some (goint.fmt_d (ds_Port ds) +:+ ":"
                     +:+ goint.fmt_d (di_DefaultPort (GetDatastoreInfo (ds_Type ds))))
       ∧ (∃ target, head (svc_Volumes service)
                      = Some ((ds_Name ds +:+ "-data") +:+ ":" +:+ target))
       ∧ svc_ContainerName service
           = proj_Name (g_project (st_g st)) +:+ "-" +:+ ds_Name ds
       ∧ svc_Networks service = [network]
       ∧ svc_Restart service = "unless-stopped"
       ∧ svc_Build service = None
       ∧ (∃ hc, svc_HealthCheck service = Some hc
            ∧ ch_Test hc ≠ [] ∧ ch_Interval hc = "10s" ∧ ch_Timeout hc = "5s"
            ∧ ch_Retries hc = 5%Z)
       ∧ Exists (λ e, env_Secret e = true) envs).
Proof.
  intros Hkind. split.
  - intros Hneo Hnil.
    unfold generateDatastoreService, bind at 1, getG, bind at 1.
    rewrite generatePassword_eq, Hneo. eval_eqb.
    unfold bind. rewrite putComposeVolume_nil by exact Hnil. reflexivity.
  - intros Hmade. known_datastore Hkind;
      rewrite ?putComposeVolume_made by (apply Hmade; exact Hkind);
      do 3 eexists; (split; [reflexivity|]); cbn [svc_Ports svc_Volumes
        svc_ContainerName svc_Networks svc_Restart svc_Build svc_HealthCheck head];
      rewrite ?Hkind;
      (split; [do 2 f_equal; vm_compute; reflexivity|]);
      (split; [eexists; reflexivity|]);
      do 4 (split; [reflexivity|]);
      (split; [eexists; split; [reflexivity|]; repeat split; discriminate|]);
      repeat first [ apply Exists_cons_hd; reflexivity | apply Exists_cons_tl ].
Qed.

Lemma datastore_service_shape_witness :
  generateDatastoreService examples.rndFixed
    (examples.datastore DatastoreNeo4j 17474) "demo-network"
    (examples.st0 (examples.project [] []))
  = None
  ∧ ∃ service envs st',
    generateDatastoreService examples.rndFixed
      (examples.datastore DatastoreNeo4j 17474) "demo-network"
      (examples.stMade (examples.project [] []))
    = Some ((service, envs, None), st')
    ∧ head (svc_Ports service) = Some ("17474" +:+ ":" +:+ "7474")
    ∧ (∃ target, head (svc_Volumes service)
                   = Some (("neo4j" +:+ "-data") +:+ ":" +:+ target))
    ∧ svc_ContainerName service = "demo" +:+ "-" +:+ "neo4j"
    ∧ svc_Networks service = ["demo-network"]
    ∧ svc_Restart service = "unless-stopped"
    ∧ svc_Build service = None
    ∧ (∃ hc, svc_HealthCheck service = Some hc
         ∧ ch_Test hc ≠ [] ∧ ch_Interval hc = "10s" ∧ ch_Timeout hc = "5s"
         ∧ ch_Retries hc = 5%Z)
    ∧ Exists (λ e, env_Secret e = true) envs.
Proof.
  split.
  - apply (datastore_service_shape examples.rndFixed
             (examples.datastore DatastoreNeo4j 17474) "demo-network"
             (examples.st0 (examples.project [] []))).
    + apply list_elem_of_In. simpl. tauto.
    + reflexivity.
    + reflexivity.
  - apply (datastore_service_shape examples.rndFixed
             (examples.datastore DatastoreNeo4j 17474) "demo-network"
             (examples.stMade (examples.project [] []))).
    + apply list_elem_of_In. simpl. tauto.
    + intros _. eexists. reflexivity.
Defined.

(** *** Substrings *)

Lemma HasPrefix_app (s t : string) : strings_HasPrefix (s +:+ t) s = true.
Proof.
  induction s as [|a s IH]; [by destruct t|].
  change (String a s +:+ t) with (String a (s +:+ t)). simpl.
  by rewrite Ascii.eqb_refl, IH.
Qed.

Lemma Contains_unfold (s sub : string) :
  strings_Contains s sub
  = strings_HasPrefix s sub
    || match s with
       | EmptyString => false
       | String _ s' => strings_Contains s' sub
       end.
Proof. by destruct s. Qed.

Lemma Contains_here (s t : string) : strings_Contains (s +:+ t) s = true.
Proof. by rewrite Contains_unfold, HasPrefix_app. Qed.

Lemma Contains_self (s : string) : strings_Contains s s = true.
Proof.
  rewrite Contains_unfold.
  assert (H : strings_HasPrefix s s = true).
  { induction s as [|a s IH]; [done|]. simpl. by rewrite Ascii.eqb_refl, IH. }
  by rewrite H.
Qed.

Lemma Contains_app_r (a t s : string) :
  strings_Contains t s = true → strings_Contains (a +:+ t) s = true.
Proof.
  intros H. induction a as [|c a IH]; [done|].
  change (String c a +:+ t) with (String c (a +:+ t)).
  rewrite Contains_unfold, IH. apply orb_true_r.
Qed.

Ltac solve_contains :=
  repeat first [ apply Contains_here | apply Contains_self | apply Contains_app_r ].

Lemma seedPrefix_length (rb : list Byte.byte) :
  String.length (seedPrefix (string_of_bytes (map pick rb))) = (4 + length rb)%nat.
Proof.
  unfold seedPrefix, string_of_bytes. simpl.
  by rewrite string_length_of_list, length_map.
Qed.

(** The password variable and the connection-string variable of each kind
    that has a connection string with a password. *)
Definition credentialPairs : list (DatastoreType * string * string) :=
  [ (DatastorePostgres, "POSTGRES_PASSWORD", "DATABASE_URL");
    (DatastoreMySQL, "MYSQL_PASSWORD", "MYSQL_URL");
    (DatastoreMSSQL, "MSSQL_SA_PASSWORD", "MSSQL_URL");
    (DatastoreRedis, "REDIS_PASSWORD", "REDIS_URL");
    (DatastoreRedisStack, "REDIS_STACK_PASSWORD", "REDIS_STACK_URL") ].

(** X5. For the relational and cache kinds the environment variables of a
    datastore hold a 16-character password under the kind's password key and,
    under the kind's connection-string key, a value that embeds that very
    password and the instance name as host; both variables are flagged
    secret. *)
Theorem connection_string_embeds_password
    (rnd : RandSource) (ds : Datastore) (network : string) (st : State)
    (passwordKey urlKey : string) :
  (ds_Type ds, passwordKey, urlKey) ∈ credentialPairs →
  ∃ service envs st' pw url,
    generateDatastoreService rnd ds network st = Some ((service, envs, None), st')
    ∧ Exists (λ e, env_Key e = passwordKey ∧ env_Value e = pw ∧ env_Secret e = true) envs
    ∧ Exists (λ e, env_Key e = urlKey ∧ env_Value e = url ∧ env_Secret e = true) envs
    ∧ String.length pw = 16%nat
    ∧ strings_Contains url pw = true
    ∧ strings_Contains url (ds_Name ds) = true.
Proof.
  intros Hpair. unfold credentialPairs in Hpair.
  repeat (apply elem_of_cons in Hpair as [Hpair|Hpair]);
    [.. | by apply elem_of_nil in Hpair];
    injection Hpair as Hkind -> ->;
    unfold generateDatastoreService, bind at 1, getG, bind at 1;
    rewrite generatePassword_eq, Hkind; eval_eqb;
    unfold bind, modifyG, ret;
    rewrite ?generatePassword_eq, ?generateStrongPassword_eq by lia;
    do 5 eexists; (split; [reflexivity|]).
  all: split; [repeat first [ apply Exists_cons_hd; repeat split; reflexivity
                            | apply Exists_cons_tl ]|].
  all: split; [repeat first [ apply Exists_cons_hd; repeat split; reflexivity
                            | apply Exists_cons_tl ]|].
  all: cbn [env_Value].
  all: split; [first [ rewrite SecretFacts.hex_encode_length, readInto_length,
                         length_replicate; reflexivity
                     | rewrite seedPrefix_length, readInto_length, length_replicate;
                       reflexivity ]|].
  all: split; solve_contains.
Qed.

Lemma connection_string_embeds_password_witness :
  ∃ service envs st' pw url,
    generateDatastoreService examples.rndFixed
      (examples.datastore DatastoreMSSQL 1433) "demo-network"
      (examples.st0 (examples.project [] []))
    = Some ((service, envs, None), st')
    ∧ Exists (λ e, env_Key e = "MSSQL_SA_PASSWORD" ∧ env_Value e = pw
                   ∧ env_Secret e = true) envs
    ∧ Exists (λ e, env_Key e = "MSSQL_URL" ∧ env_Value e = url
                   ∧ env_Secret e = true) envs
    ∧ String.length pw = 16%nat
    ∧ strings_Contains url pw = true
    ∧ strings_Contains url "mssql" = true.
Proof.
  apply (connection_string_embeds_password examples.rndFixed
           (examples.datastore DatastoreMSSQL 1433) "demo-network"
           (examples.st0 (examples.project [] [])) "MSSQL_SA_PASSWORD" "MSSQL_URL").
  apply list_elem_of_In. simpl. tauto.
Defined.

(** X6. A datastore whose kind is none of the enumeration is no error: the
    synthesis returns the empty (zero) service, no environment variable and
    a nil error, leaves the receiver alone and still spends one read of the
    random source on a password it does not use. *)
Theorem unknown_datastore_kind
    (rnd : RandSource) (ds : Datastore) (network : string) (st : State) :
  ds_Type ds ∉ AvailableDatastores →
  generateDatastoreService rnd ds network st
  = Some ((zeroComposeService, [], None), mkState (st_g st) (S (st_reads st))).
Proof.
  intros Hnot.
  unfold generateDatastoreService, bind at 1, getG, bind at 1.
  rewrite generatePassword_eq.
  eqb_cases ds;
    try (exfalso; apply Hnot;
         match goal with
         | E : String.eqb _ _ = true |- _ => apply String.eqb_eq in E; rewrite E
         end;
         apply list_elem_of_In; simpl; tauto).
  reflexivity.
Qed.

Lemma unknown_datastore_kind_witness :
  generateDatastoreService examples.rndFixed
    (examples.datastore "mongodb" 27017) "demo-network"
    (examples.st0 (examples.project [] []))
  = Some ((zeroComposeService, [], None),
          mkState (st_g (examples.st0 (examples.project [] []))) 1).
Proof.
  apply (unknown_datastore_kind examples.rndFixed
           (examples.datastore "mongodb" 27017) "demo-network"
           (examples.st0 (examples.project [] []))).
  intros H. apply list_elem_of_In in H. simpl in H.
  repeat (destruct H as [H|H]; [discriminate H|]). exact H.
Defined.

(** *** Runtime services *)

Ltac runtime_cases rt :=
  destruct (String.eqb (rt_Type rt) RuntimeGo) eqn:Ego;
  [|destruct (String.eqb (rt_Type rt) RuntimeNode) eqn:Enode;
    [|destruct (String.eqb (rt_Type rt) RuntimePython) eqn:Epy;
      [|destruct (String.eqb (rt_Type rt) RuntimeJava) eqn:Ejava;
        [|destruct (String.eqb (rt_Type rt) RuntimeRust) eqn:Erust;
          [|destruct (String.eqb (rt_Type rt) RuntimeCSharp) eqn:Ecs]]]]].

(** The kinds whose runtime binds the bare variable [PORT]. *)
Definition bindsPORT (rt : Runtime) : bool :=
  bool_decide (rt_Type rt ∈ [RuntimeGo; RuntimeNode; RuntimePython;
                              RuntimeJava; RuntimeRust]).

Lemma runtime_kind_cases (rt : Runtime) :
  (rt_Type rt ∈ AvailableRuntimes ↔
     String.eqb (rt_Type rt) RuntimeGo || String.eqb (rt_Type rt) RuntimeNode
     || String.eqb (rt_Type rt) RuntimePython || String.eqb (rt_Type rt) RuntimeJava
     || String.eqb (rt_Type rt) RuntimeRust || String.eqb (rt_Type rt) RuntimeCSharp
     = true).
Proof.
  unfold AvailableRuntimes. rewrite !elem_of_cons, elem_of_nil.
  rewrite !orb_true_iff, !String.eqb_eq. tauto.
Qed.

(** What the synthesis of a runtime returns, field by field. *)
Lemma generateRuntimeService_facts (ext : Externals) (rt : Runtime) (network : string)
    (st st' : State) (service : ComposeService) (envs : list EnvVar)
    (dockerfile : string) (err : option string) :
  generateRuntimeService ext rt network st = Some ((service, envs, dockerfile, err), st') →
  st' = st ∧ err = None
  ∧ service =
      {| svc_Image := "";
         svc_Build := Some (mkComposeBuild (rt_BuildContext rt) (rt_Dockerfile rt));
         svc_ContainerName := proj_Name (g_project (st_g st)) +:+ "-" +:+ rt_Name rt;
         svc_Ports := [goint.fmt_d (rt_Port rt) +:+ ":" +:+ goint.fmt_d (rt_InternalPort rt)];
         svc_Volumes := ["./" +:+ rt_BuildContext rt +:+ ":/app"];
         svc_Environment := ∅;
         svc_EnvFile := [".env"];
         svc_DependsOn := rt_DependsOn rt;
         svc_Networks := [network];
         svc_HealthCheck := None;
         svc_Restart := "unless-stopped";
         svc_Command := "";
         svc_User := "" |}
  ∧ Forall (λ e, env_Secret e = false) envs
  ∧ filter (λ e, env_Key e = "PORT") envs
    = (if bindsPORT rt
       then [mkEnvVar "PORT" (goint.fmt_d (rt_InternalPort rt)) "Application port" false]
       else [])
  ∧ (if bool_decide (rt_Type rt ∈ AvailableRuntimes)
     then length envs = 2%nat
     else envs = [] ∧ dockerfile = "").
Proof.
  unfold generateRuntimeService, bind, getG, ret, bindsPORT.
  pose proof (runtime_kind_cases rt) as Hk.
  runtime_cases rt; intros H; injection H as <- <- <- <- <-;
    repeat match goal with
           | E : String.eqb _ _ = true |- _ => apply String.eqb_eq in E; rewrite E in *
           end;
    (split; [reflexivity|]); (split; [reflexivity|]); (split; [reflexivity|]);
    (split; [repeat constructor|]);
    (split; [try (vm_compute; reflexivity)|]).
  all: try (rewrite bool_decide_eq_true_2 by (apply list_elem_of_In; simpl; tauto);
            reflexivity).
  - rewrite bool_decide_eq_false_2; [reflexivity|].
    intros Hin. rewrite !elem_of_cons, elem_of_nil in Hin.
    rewrite <- !String.eqb_eq in Hin. rewrite Ego, Enode, Epy, Ejava, Erust in Hin.
    intuition discriminate.
  - rewrite bool_decide_eq_false_2; [done|].
    intros Hin. apply Hk in Hin. discriminate.
Qed.

(** X8. The synthesis of a runtime service always returns, without error,
    leaves the state alone (it reads no randomness) and yields a build-based
    service: no image, the build context and Dockerfile of the instance, the
    single mapping external:internal, the source mounted on /app, the shared
    .env file, the instance's dependency list, no environment map and no
    health probe. None of its variables is secret; a kind of the
    enumeration gets exactly two variables, a kind outside it none and no
    build recipe. *)
Theorem runtime_service_shape (ext : Externals) (rt : Runtime) (network : string)
    (st : State) :
  ∃ service envs dockerfile,
    generateRuntimeService ext rt network st
      = Some ((service, envs, dockerfile, None), st)
    ∧ svc_Image service = ""
    ∧ svc_Build service = Some (mkComposeBuild (rt_BuildContext rt) (rt_Dockerfile rt))
    ∧ svc_Ports service
        = [goint.fmt_d (rt_Port rt) +:+ ":" +:+ goint.fmt_d (rt_InternalPort rt)]
    ∧ svc_Volumes service = ["./" +:+ rt_BuildContext rt +:+ ":/app"]
    ∧ svc_EnvFile service = [".env"]
    ∧ svc_DependsOn service = rt_DependsOn rt
    ∧ svc_Environment service = ∅
    ∧ svc_HealthCheck service = None
    ∧ Forall (λ e, env_Secret e = false) envs
    ∧ (rt_Type rt ∈ AvailableRuntimes → length envs = 2%nat)
    ∧ (rt_Type rt ∉ AvailableRuntimes → envs = [] ∧ dockerfile = "").
Proof.
  destruct (generateRuntimeService_sim ext rt network st st eq_refl) as (svc & envs & df & Hrun & _).
  destruct (generateRuntimeService_facts _ _ _ _ _ _ _ _ _ Hrun)
    as (_ & _ & -> & Hsec & _ & Hkind).
  do 3 eexists. split; [exact Hrun|]. simpl.
  repeat (split; [reflexivity|]). split; [exact Hsec|].
  case_bool_decide; split; intros; done.
Qed.

End ServiceFacts.

(* ===================================================================== *)
(** ** Generate: the loops and the assembled bundle *)
(* ===================================================================== *)

Module GenerateFacts.
Import models gost generator GeneratorFacts.

(** The state after the three updates that follow a datastore's synthesis. *)
Definition afterDatastore (ds : Datastore) (service : ComposeService)
    (envs : list EnvVar) (st : State) : State :=
  mkState
    (insertVolume (ds_Name ds +:+ "-data")
       (appendEnvVars envs (putComposeService (ds_Name ds) service (st_g st))))
    (st_reads st).

(** The state after the updates that follow a runtime's synthesis. *)
Definition afterRuntime (rt : Runtime) (service : ComposeService)
    (envs : list EnvVar) (dockerfile : string) (st : State) : State :=
  let g := appendEnvVars envs (putComposeService (rt_Name rt) service (st_g st)) in
  mkState (if String.eqb dockerfile "" then g else putDockerfile (rt_Name rt) dockerfile g)
          (st_reads st).

Lemma processDatastores_cons (rnd : RandSource) (network : string) (ds : Datastore)
    (dss : list Datastore) (st st' : State) (service : ComposeService)
    (envs : list EnvVar) :
  generateDatastoreService rnd ds network st = Some ((service, envs, None), st') →
  volumesMade (st_g st') →
  processDatastores rnd network (ds :: dss) st
  = processDatastores rnd network dss (afterDatastore ds service envs st').
Proof.
  intros H Hmade. simpl processDatastores. rewrite (bind_Some _ _ _ _ _ H).
  assert (HmadeA : volumesMade
                     (appendEnvVars envs (putComposeService (ds_Name ds) service (st_g st')))).
  { destruct Hmade as [m Hm]. exists m. simpl. exact Hm. }
  unfold bind at 1, modifyG at 1. unfold bind at 1, modifyG at 1.
  unfold bind at 1.
  rewrite (putComposeVolume_made _ (mkState _ _) HmadeA). reflexivity.
Qed.

Lemma afterDatastore_made (ds : Datastore) (service : ComposeService)
    (envs : list EnvVar) (st : State) :
  volumesMade (st_g (afterDatastore ds service envs st)).
Proof. apply insertVolume_made. Qed.

Lemma afterRuntime_made (rt : Runtime) (service : ComposeService)
    (envs : list EnvVar) (dockerfile : string) (st : State) :
  volumesMade (st_g st) →
  volumesMade (st_g (afterRuntime rt service envs dockerfile st)).
Proof.
  intros [m Hm]. exists m. unfold afterRuntime. simpl.
  destruct (String.eqb dockerfile ""); exact Hm.
Qed.

Lemma generateRuntimeService_total (ext : Externals) (rt : Runtime) (network : string)
    (st : State) :
  ∃ service envs dockerfile,
    generateRuntimeService ext rt network st
    = Some ((service, envs, dockerfile, None), st).
Proof.
  destruct (generateRuntimeService_sim ext rt network st st eq_refl)
    as (svc & envs & df & H & _). eauto.
Qed.

Lemma processRuntimes_cons (ext : Externals) (network : string) (rt : Runtime)
    (rts : list Runtime) (st : State) (service : ComposeService)
    (envs : list EnvVar) (dockerfile : string) :
  generateRuntimeService ext rt network st
    = Some ((service, envs, dockerfile, None), st) →
  processRuntimes ext network (rt :: rts) st
  = processRuntimes ext network rts (afterRuntime rt service envs dockerfile st).
Proof.
  intros H. simpl processRuntimes. rewrite (bind_Some _ _ _ _ _ H).
  unfold afterRuntime, bind, modifyG, ret. simpl.
  destruct (String.eqb dockerfile ""); reflexivity.
Qed.

(** A loop invariant for the datastore loop, on a receiver whose volume map
    is made: [I done st] speaks of the datastores processed so far. *)
Lemma processDatastores_inv (rnd : RandSource) (network : string)
    (all : list Datastore) (I : list Datastore → State → Prop) :
  (∀ done ds rest st service envs st',
     all = done ++ ds :: rest → I done st →
     generateDatastoreService rnd ds network st = Some ((service, envs, None), st') →
     I (done ++ [ds]) (afterDatastore ds service envs st')) →
  ∀ dss done st,
    all = done ++ dss → I done st → volumesMade (st_g st) →
    ∃ st', processDatastores rnd network dss st = Some (None, st') ∧ I all st'.
Proof.
  intros Hstep. induction dss as [|ds dss IH]; intros done st Hall Hinv Hmade.
  - rewrite app_nil_r in Hall. subst all. eexists. split; [reflexivity|done].
  - destruct (generateDatastoreService_total rnd ds network st Hmade)
      as (svc & envs & st' & Hrun & _ & Hmade').
    rewrite (processDatastores_cons _ _ _ _ _ _ _ _ Hrun Hmade').
    apply (IH (done ++ [ds])).
    + by rewrite <- app_assoc.
    + eapply Hstep; eauto.
    + apply afterDatastore_made.
Qed.

Lemma processRuntimes_inv (ext : Externals) (network : string)
    (all : list Runtime) (I : list Runtime → State → Prop) :
  (∀ done rt rest st service envs dockerfile,
     all = done ++ rt :: rest → I done st →
     generateRuntimeService ext rt network st
       = Some ((service, envs, dockerfile, None), st) →
     I (done ++ [rt]) (afterRuntime rt service envs dockerfile st)) →
  ∀ rts done st,
    all = done ++ rts → I done st →
    ∃ st', processRuntimes ext network rts st = Some (None, st') ∧ I all st'.
Proof.
  intros Hstep. induction rts as [|rt rts IH]; intros done st Hall Hinv.
  - rewrite app_nil_r in Hall. subst all. eexists. split; [reflexivity|done].
  - destruct (generateRuntimeService_total ext rt network st)
      as (svc & envs & df & Hrun).
    rewrite (processRuntimes_cons _ _ _ _ _ _ _ _ Hrun).
    apply (IH (done ++ [rt])).
    + by rewrite <- app_assoc.
    + eapply Hstep; eauto.
Qed.

(** The state [Generate] starts its loops in. *)
Definition startState (p : Project) (k : nat) : State :=
  mkState
    (setComposeVolumes (MadeMap ∅)
       (setComposeNetworks
          (MadeMap {[ proj_Name p +:+ "-network" :=
                        CVStringMap {[ "driver" := "bridge" ]} ]})
          (New p)))
    k.

(** What [buildOutput] returns in a state. *)
Definition bundleOf (ext : Externals) (st : State) : result GeneratedOutput :=
  match yaml_Marshal ext (g_compose (st_g st)) with
  | Ok y =>
      Ok {| ComposeYAML := addComposeHeader y;
            EnvFile := renderEnvFile (g_envVars (st_g st));
            EnvExampleFile := renderEnvExampleFile (g_envVars (st_g st));
            out_GitIgnore := GitIgnore ext;
            Dockerfiles := g_dockerfiles (st_g st) |}
  | Err e => Err ("failed to marshal compose file: " +:+ e)
  end.

(** A generation call is the two loops followed by the assembly. *)
Lemma generate_steps (ext : Externals) (rnd : RandSource) (p : Project) (k : nat)
    (st1 st2 : State) :
  processDatastores rnd (proj_Name p +:+ "-network") (proj_Datastores p)
    (startState p k) = Some (None, st1) →
  processRuntimes ext (proj_Name p +:+ "-network") (proj_Runtimes p) st1
    = Some (None, st2) →
  generate ext rnd p k = Some (bundleOf ext st2, st2).
Proof.
  intros H1 H2. unfold generate. rewrite Generate_unfold. cbv zeta.
  simpl st_g. simpl g_project. simpl st_reads. fold (startState p k).
  rewrite (bind_Some _ _ _ _ _ H1), (bind_Some _ _ _ _ _ H2).
  unfold buildOutput, bind, getG, bundleOf.
  destruct (yaml_Marshal ext (g_compose (st_g st2))); reflexivity.
Qed.

(** Both loops as one invariant argument over a generation call. *)
Lemma generate_inv (ext : Externals) (rnd : RandSource) (p : Project) (k : nat)
    (I : list Datastore → State → Prop) (J : list Runtime → State → Prop) :
  I [] (startState p k) →
  (∀ done ds rest st service envs st',
     proj_Datastores p = done ++ ds :: rest → I done st →
     generateDatastoreService rnd ds (proj_Name p +:+ "-network") st
       = Some ((service, envs, None), st') →
     I (done ++ [ds]) (afterDatastore ds service envs st')) →
  (∀ st, I (proj_Datastores p) st → J [] st) →
  (∀ done rt rest st service envs dockerfile,
     proj_Runtimes p = done ++ rt :: rest → J done st →
     generateRuntimeService ext rt (proj_Name p +:+ "-network") st
       = Some ((service, envs, dockerfile, None), st) →
     J (done ++ [rt]) (afterRuntime rt service envs dockerfile st)) →
  ∃ st, generate ext rnd p k = Some (bundleOf ext st, st)
        ∧ J (proj_Runtimes p) st.
Proof.
  intros HI0 HIstep HIJ HJstep.
  destruct (processDatastores_inv rnd _ (proj_Datastores p) I HIstep
              (proj_Datastores p) [] (startState p k) eq_refl HI0)
    as (st1 & H1 & HI1); [eexists; reflexivity|].
  destruct (processRuntimes_inv ext _ (proj_Runtimes p) J HJstep
              (proj_Runtimes p) [] st1 eq_refl (HIJ _ HI1))
    as (st2 & H2 & HJ2).
  exists st2. split; [by eapply generate_steps|done].
Qed.

(** What the synthesis of a datastore does to the state. *)
Definition readsOf (ds : Datastore) : nat :=
  if String.eqb (ds_Type ds) DatastoreMySQL || String.eqb (ds_Type ds) DatastoreMSSQL
  then 2 else 1.

Lemma generateDatastoreService_effect (rnd : RandSource) (ds : Datastore)
    (network : string) (st st' : State) (service : ComposeService)
    (envs : list EnvVar) :
  generateDatastoreService rnd ds network st = Some ((service, envs, None), st') →
  st_reads st' = (st_reads st + readsOf ds)%nat
  ∧ st_g st' = (if String.eqb (ds_Type ds) DatastoreNeo4j
                then insertVolume (ds_Name ds +:+ "-logs") (st_g st)
                else st_g st).
Proof.
  unfold generateDatastoreService, bind at 1, getG, bind at 1, readsOf.
  rewrite generatePassword_eq.
  eqb_cases ds; unfold bind, modifyG, ret;
    rewrite ?generatePassword_eq, ?generateStrongPassword_eq by lia;
    try match goal with
        | |- context [putComposeVolume ?n ?s] =>
            destruct (putComposeVolume n s) as [[u s']|] eqn:Hput;
            [apply putComposeVolume_Some in Hput; subst s'|discriminate]
        end;
    intros H; injection H as _ _ <-; simpl;
    repeat match goal with
           | E : String.eqb _ _ = true |- _ => apply String.eqb_eq in E; rewrite E
           end;
    rewrite ?Emy, ?Ems, ?Eneo; simpl; (split; [lia|reflexivity]).
Qed.

(** X7. A generation call reads the random source once for every
    datastore and once more for each MySQL or SQL Server datastore (the root
    and the strong password), in the order of the datastore list; runtimes
    read nothing. *)
Theorem generation_reads (ext : Externals) (rnd : RandSource) (p : Project) (k : nat) :
  ∃ r st,
    generate ext rnd p k = Some (r, st)
    ∧ st_reads st = (k + sum_list (readsOf <$> proj_Datastores p))%nat
    ∧ (∀ ds, ds ∈ proj_Datastores p →
         readsOf ds = (if bool_decide (ds_Type ds = DatastoreMySQL
                                       ∨ ds_Type ds = DatastoreMSSQL)
                       then 2 else 1)%nat).
Proof.
  destruct (generate_inv ext rnd p k
              (λ done st, st_reads st = (k + sum_list (readsOf <$> done))%nat)
              (λ _ st, st_reads st
                       = (k + sum_list (readsOf <$> proj_Datastores p))%nat))
    as (st & Hgen & Hreads).
  - simpl. lia.
  - intros done ds rest st svc envs st' _ Hinv Hrun.
    apply generateDatastoreService_effect in Hrun as [Hr _].
    unfold afterDatastore. simpl. rewrite Hr, Hinv.
    rewrite fmap_app, sum_list_with_app. simpl. lia.
  - auto.
  - intros done rt rest st svc envs df _ Hinv _. unfold afterRuntime. simpl. done.
  - do 2 eexists. split; [exact Hgen|]. split; [exact Hreads|].
    intros ds _. unfold readsOf.
    destruct (String.eqb_spec (ds_Type ds) DatastoreMySQL) as [Hmy|Hmy];
      destruct (String.eqb_spec (ds_Type ds) DatastoreMSSQL) as [Hms|Hms];
      cbn [orb]; case_bool_decide; intuition congruence.
Qed.

(** X11. A generation call fails only when the YAML encoder refuses the
    compose structure, with the message "failed to marshal compose file: "
    followed by the encoder's; otherwise it returns the bundle: the header
    and the encoded compose structure, the two environment files rendered
    from the collected variables, the ignore list and the collected build
    recipes. Nothing in the project makes it fail. *)
Theorem generation_result (ext : Externals) (rnd : RandSource) (p : Project) (k : nat) :
  ∃ r st,
    generate ext rnd p k = Some (r, st)
    ∧ g_project (st_g st) = p
    ∧ match yaml_Marshal ext (g_compose (st_g st)) with
      | Ok y =>
          r = Ok {| ComposeYAML := addComposeHeader y;
                    EnvFile := renderEnvFile (g_envVars (st_g st));
                    EnvExampleFile := renderEnvExampleFile (g_envVars (st_g st));
                    out_GitIgnore := GitIgnore ext;
                    Dockerfiles := g_dockerfiles (st_g st) |}
      | Err e => r = Err ("failed to marshal compose file: " +:+ e)
      end.
Proof.
  destruct (generate_inv ext rnd p k
              (λ _ st, g_project (st_g st) = p) (λ _ st, g_project (st_g st) = p))
    as (st & Hgen & Hp).
  - reflexivity.
  - intros done ds rest st svc envs st' _ Hinv Hrun.
    apply generateDatastoreService_effect in Hrun as [_ Hg].
    unfold afterDatastore. simpl. rewrite Hg.
    destruct (String.eqb (ds_Type ds) DatastoreNeo4j); exact Hinv.
  - auto.
  - intros done rt rest st svc envs df _ Hinv _. unfold afterRuntime. simpl.
    destruct (String.eqb df ""); exact Hinv.
  - do 2 eexists. split; [exact Hgen|]. split; [exact Hp|].
    unfold bundleOf. destruct (yaml_Marshal ext (g_compose (st_g st))); reflexivity.
Qed.

(** *** The keys of the compose structure *)

Definition composeKeysInv (dss : list Datastore) (rts : list Runtime) (p : Project)
    (st : State) : Prop :=
  (∀ n, is_Some (cf_Services (g_compose (st_g st)) !! n)
        ↔ n ∈ map ds_Name dss ++ map rt_Name rts)
  ∧ (∀ n, is_Some (entries (cf_Volumes (g_compose (st_g st))) !! n)
          ↔ n ∈ map (λ ds, ds_Name ds +:+ "-data") dss
                ++ map (λ ds, ds_Name ds +:+ "-logs")
                     (filter (λ ds, ds_Type ds = DatastoreNeo4j) dss))
  ∧ cf_Networks (g_compose (st_g st))
    = MadeMap {[ proj_Name p +:+ "-network" := CVStringMap {[ "driver" := "bridge" ]} ]}
  ∧ volumesMade (st_g st).

Lemma composeKeysInv_datastore (done : list Datastore) (ds : Datastore) (p : Project)
    (rnd : RandSource) (network : string) (st st' : State)
    (service : ComposeService) (envs : list EnvVar) :
  composeKeysInv done [] p st →
  generateDatastoreService rnd ds network st = Some ((service, envs, None), st') →
  composeKeysInv (done ++ [ds]) [] p (afterDatastore ds service envs st').
Proof.
  intros (Hs & Hv & Hn & _) Hrun.
  apply generateDatastoreService_effect in Hrun as [_ Hg].
  unfold composeKeysInv, afterDatastore. simpl. rewrite Hg.
  rewrite !map_app, filter_app, map_app. simpl.
  split; [|split; [|split; [|apply insertVolume_made]]].
  - intros n. rewrite lookup_insert_is_Some'.
    destruct (String.eqb (ds_Type ds) DatastoreNeo4j); simpl;
      rewrite Hs; rewrite !elem_of_app, !elem_of_cons, !elem_of_nil; simpl;
      rewrite ?elem_of_app, ?elem_of_nil; intuition congruence.
  - intros n. rewrite lookup_insert_is_Some'.
    destruct (String.eqb_spec (ds_Type ds) DatastoreNeo4j) as [Hneo|Hneo]; simpl.
    + rewrite lookup_insert_is_Some', Hv.
      rewrite filter_cons_True by done. simpl.
      rewrite !elem_of_app, !elem_of_cons, !elem_of_nil. intuition congruence.
    + rewrite Hv. rewrite filter_cons_False by done. simpl.
      rewrite !elem_of_app, ?elem_of_cons, ?elem_of_nil. intuition congruence.
  - destruct (String.eqb (ds_Type ds) DatastoreNeo4j); exact Hn.
Qed.

Lemma composeKeysInv_runtime (dss : list Datastore) (done : list Runtime) (rt : Runtime)
    (p : Project) (st : State) (service : ComposeService) (envs : list EnvVar)
    (dockerfile : string) :
  composeKeysInv dss done p st →
  composeKeysInv dss (done ++ [rt]) p (afterRuntime rt service envs dockerfile st).
Proof.
  intros (Hs & Hv & Hn & Hm).
  pose proof (afterRuntime_made rt service envs dockerfile st Hm) as Hm'.
  revert Hm'. unfold composeKeysInv, afterRuntime. intros Hm'.
  assert (Hc : ∀ g : Generator, g_compose (if String.eqb dockerfile "" then g
                                            else putDockerfile (rt_Name rt) dockerfile g)
                                = g_compose g)
    by (intros g; destruct (String.eqb dockerfile ""); reflexivity).
  simpl. rewrite Hc. simpl. split; [|split; [exact Hv|split; [exact Hn|exact Hm']]].
  intros n. rewrite lookup_insert_is_Some', Hs, map_app. simpl.
  rewrite !elem_of_app, !elem_of_cons, !elem_of_nil. intuition congruence.
Qed.

(** X9. After a generation call the compose structure holds exactly one
    service key per instance name (datastores and runtimes), exactly the
    volume keys name-data for every datastore and name-logs for every graph
    database, in a volume map that is made, and the single bridge network
    project-network. *)
Theorem compose_keys (ext : Externals) (rnd : RandSource) (p : Project) (k : nat) :
  ∃ r st,
    generate ext rnd p k = Some (r, st)
    ∧ (∀ n, is_Some (cf_Services (g_compose (st_g st)) !! n)
            ↔ n ∈ map ds_Name (proj_Datastores p) ++ map rt_Name (proj_Runtimes p))
    ∧ (∀ n, is_Some (entries (cf_Volumes (g_compose (st_g st))) !! n)
            ↔ n ∈ map (λ ds, ds_Name ds +:+ "-data") (proj_Datastores p)
                  ++ map (λ ds, ds_Name ds +:+ "-logs")
                       (filter (λ ds, ds_Type ds = DatastoreNeo4j) (proj_Datastores p)))
    ∧ cf_Networks (g_compose (st_g st))
      = MadeMap {[ proj_Name p +:+ "-network" := CVStringMap {[ "driver" := "bridge" ]} ]}
    ∧ ∃ m, cf_Volumes (g_compose (st_g st)) = MadeMap m.
Proof.
  destruct (generate_inv ext rnd p k
              (λ done st, composeKeysInv done [] p st)
              (λ done st, composeKeysInv (proj_Datastores p) done p st))
    as (st & Hgen & Hinv).
  - unfold composeKeysInv, startState. simpl.
    split; [|split; [|split; [done|eexists; reflexivity]]].
    + intros n. rewrite lookup_empty, elem_of_nil. split; [by intros [? ?]|done].
    + intros n. rewrite lookup_empty, elem_of_nil. split; [by intros [? ?]|done].
  - intros done ds rest st svc envs st' _ Hinv Hrun.
    by eapply composeKeysInv_datastore.
  - auto.
  - intros done rt rest st svc envs df _ Hinv _. by apply composeKeysInv_runtime.
  - do 2 eexists. split; [exact Hgen|]. exact Hinv.
Qed.

(** *** The services, instance by instance *)

(** The service stored under a datastore's name is the one synthesised
    for it (in some state of the same project). *)
Definition datastoreStored (rnd : RandSource) (p : Project) (st : State)
    (ds : Datastore) : Prop :=
  ∃ service envs sa sb,
    g_project (st_g sa) = p
    ∧ generateDatastoreService rnd ds (proj_Name p +:+ "-network") sa
      = Some ((service, envs, None), sb)
    ∧ cf_Services (g_compose (st_g st)) !! ds_Name ds = Some service.

Definition runtimeStored (ext : Externals) (p : Project) (st : State)
    (rt : Runtime) : Prop :=
  ∃ service envs dockerfile sa,
    g_project (st_g sa) = p
    ∧ generateRuntimeService ext rt (proj_Name p +:+ "-network") sa
      = Some ((service, envs, dockerfile, None), sa)
    ∧ cf_Services (g_compose (st_g st)) !! rt_Name rt = Some service.

Lemma afterRuntime_compose (rt : Runtime) (service : ComposeService)
    (envs : list EnvVar) (dockerfile : string) (st : State) :
  g_compose (st_g (afterRuntime rt service envs dockerfile st))
  = g_compose (putComposeService (rt_Name rt) service (st_g st))
  ∧ g_project (st_g (afterRuntime rt service envs dockerfile st)) = g_project (st_g st).
Proof. unfold afterRuntime. simpl. destruct (String.eqb dockerfile ""); done. Qed.

Lemma afterDatastore_services (rnd : RandSource) (ds : Datastore) (network : string)
    (st st' : State) (service : ComposeService) (envs : list EnvVar) :
  generateDatastoreService rnd ds network st = Some ((service, envs, None), st') →
  cf_Services (g_compose (st_g (afterDatastore ds service envs st')))
  = <[ ds_Name ds := service ]> (cf_Services (g_compose (st_g st)))
  ∧ g_project (st_g (afterDatastore ds service envs st')) = g_project (st_g st).
Proof.
  intros Hrun. apply generateDatastoreService_effect in Hrun as [_ Hg].
  unfold afterDatastore. simpl. rewrite Hg.
  destruct (String.eqb (ds_Type ds) DatastoreNeo4j); done.
Qed.

Lemma services_by_name_aux (ext : Externals) (rnd : RandSource) (p : Project) (k : nat) :
  NoDup (map ds_Name (proj_Datastores p) ++ map rt_Name (proj_Runtimes p)) →
  ∃ r st,
    generate ext rnd p k = Some (r, st)
    ∧ (∀ ds, ds ∈ proj_Datastores p → datastoreStored rnd p st ds)
    ∧ (∀ rt, rt ∈ proj_Runtimes p → runtimeStored ext p st rt).
Proof.
  intros Hnd.
  destruct (generate_inv ext rnd p k
              (λ done st, g_project (st_g st) = p
                          ∧ ∀ ds, ds ∈ done → datastoreStored rnd p st ds)
              (λ done st, g_project (st_g st) = p
                          ∧ (∀ ds, ds ∈ proj_Datastores p → datastoreStored rnd p st ds)
                          ∧ ∀ rt, rt ∈ done → runtimeStored ext p st rt))
    as (st & Hgen & _ & Hds & Hrts).
  - split; [reflexivity|]. intros ds Hin. by apply elem_of_nil in Hin.
  - intros done ds rest st svc envs st' Hall [Hp Hinv] Hrun.
    destruct (afterDatastore_services _ _ _ _ _ _ _ Hrun) as [Hsvc Hproj].
    split; [by rewrite Hproj|].
    intros d Hd. apply elem_of_app in Hd as [Hd|Hd].
    + destruct (Hinv d Hd) as (s & e & sa & sb & Hpa & Hra & Hlook).
      exists s, e, sa, sb. split; [done|]. split; [done|].
      rewrite Hsvc, lookup_insert_ne; [done|].
      intros Heq. rewrite Hall in Hnd. apply NoDup_app in Hnd as (Hnd & _ & _).
      rewrite map_app in Hnd. apply NoDup_app in Hnd as (_ & Hdisj & _).
      apply (Hdisj (ds_Name d)).
      * by apply list_elem_of_fmap_2.
      * simpl. rewrite <- Heq. left.
    + apply list_elem_of_singleton in Hd as ->.
      exists svc, envs, st, st'. split; [done|]. split; [done|].
      by rewrite Hsvc, lookup_insert_eq.
  - intros st [Hp Hinv]. split; [done|]. split; [done|].
    intros rt Hin. by apply elem_of_nil in Hin.
  - intros done rt rest st svc envs df Hall (Hp & Hds & Hinv) Hrun.
    destruct (afterRuntime_compose rt svc envs df st) as [Hc Hproj].
    split; [by rewrite Hproj|].
    assert (Hfresh : ∀ n, n ∈ map ds_Name (proj_Datastores p) ++ map rt_Name done →
                          rt_Name rt ≠ n).
    { intros n Hn Heq. rewrite Hall, map_app, app_assoc in Hnd.
      apply NoDup_app in Hnd as (_ & Hdisj & _).
      apply (Hdisj n Hn). simpl. rewrite Heq. left. }
    split.
    + intros d Hd. destruct (Hds d Hd) as (s & e & sa & sb & Hpa & Hra & Hlook).
      exists s, e, sa, sb. split; [done|]. split; [done|].
      rewrite Hc. simpl. rewrite lookup_insert_ne; [done|].
      apply Hfresh. apply elem_of_app. left. by apply list_elem_of_fmap_2.
    + intros r Hr. apply elem_of_app in Hr as [Hr|Hr].
      * destruct (Hinv r Hr) as (s & e & d & sa & Hpa & Hra & Hlook).
        exists s, e, d, sa. split; [done|]. split; [done|].
        rewrite Hc. simpl. rewrite lookup_insert_ne; [done|].
        apply Hfresh. apply elem_of_app. right. by apply list_elem_of_fmap_2.
      * apply list_elem_of_singleton in Hr as ->.
        exists svc, envs, df, st. split; [done|]. split; [done|].
        rewrite Hc. simpl. by rewrite lookup_insert_eq.
  - eauto.
Qed.

(** X10. When the instance names of a project (datastores and runtimes
    together) are pairwise distinct, a generation call stores under every
    datastore's name the service synthesised for that datastore, and under
    every runtime's name the service synthesised for that runtime. *)
Theorem services_by_name (ext : Externals) (rnd : RandSource) (p : Project) (k : nat) :
  NoDup (map ds_Name (proj_Datastores p) ++ map rt_Name (proj_Runtimes p)) →
  ∃ r st,
    generate ext rnd p k = Some (r, st)
    ∧ (∀ ds, ds ∈ proj_Datastores p →
         ∃ service envs sa sb,
           g_project (st_g sa) = p
           ∧ generateDatastoreService rnd ds (proj_Name p +:+ "-network") sa
             = Some ((service, envs, None), sb)
           ∧ cf_Services (g_compose (st_g st)) !! ds_Name ds = Some service)
    ∧ (∀ rt, rt ∈ proj_Runtimes p →
         ∃ service envs dockerfile sa,
           g_project (st_g sa) = p
           ∧ generateRuntimeService ext rt (proj_Name p +:+ "-network") sa
             = Some ((service, envs, dockerfile, None), sa)
           ∧ cf_Services (g_compose (st_g st)) !! rt_Name rt = Some service).
Proof. apply services_by_name_aux. Qed.

Lemma services_by_name_witness :
  ∃ r st,
    generate examples.ext0 examples.rndFixed
      (examples.project [examples.datastore DatastorePostgres 5432]
                        [examples.runtime RuntimeGo "go-app" 8080]) 0
    = Some (r, st)
    ∧ (∀ ds, ds ∈ [examples.datastore DatastorePostgres 5432] →
         ∃ service envs sa sb,
           g_project (st_g sa)
           = examples.project [examples.datastore DatastorePostgres 5432]
                              [examples.runtime RuntimeGo "go-app" 8080]
           ∧ generateDatastoreService examples.rndFixed ds ("demo" +:+ "-network") sa
             = Some ((service, envs, None), sb)
           ∧ cf_Services (g_compose (st_g st)) !! ds_Name ds = Some service)
    ∧ (∀ rt, rt ∈ [examples.runtime RuntimeGo "go-app" 8080] →
         ∃ service envs dockerfile sa,
           g_project (st_g sa)
           = examples.project [examples.datastore DatastorePostgres 5432]
                              [examples.runtime RuntimeGo "go-app" 8080]
           ∧ generateRuntimeService examples.ext0 rt ("demo" +:+ "-network") sa
             = Some ((service, envs, dockerfile, None), sa)
           ∧ cf_Services (g_compose (st_g st)) !! rt_Name rt = Some service).
Proof.
  apply (services_by_name examples.ext0 examples.rndFixed
           (examples.project [examples.datastore DatastorePostgres 5432]
                             [examples.runtime RuntimeGo "go-app" 8080]) 0).
  simpl. apply NoDup_cons_2; [|apply NoDup_singleton].
  intros H. apply list_elem_of_singleton in H. discriminate H.
Defined.

(** *** Build recipes and the PORT variable *)

Lemma generateRuntimeService_indep (ext : Externals) (rt : Runtime)
    (n1 n2 : string) (s1 s2 s1' s2' : State) (svc1 svc2 : ComposeService)
    (envs1 envs2 : list EnvVar) (df1 df2 : string) (e1 e2 : option string) :
  generateRuntimeService ext rt n1 s1 = Some ((svc1, envs1, df1, e1), s1') →
  generateRuntimeService ext rt n2 s2 = Some ((svc2, envs2, df2, e2), s2') →
  envs1 = envs2 ∧ df1 = df2.
Proof.
  unfold generateRuntimeService, bind, getG, ret.
  ServiceFacts.runtime_cases rt; intros H1 H2;
    injection H1 as _ <- <- _ _; injection H2 as _ <- <- _ _; done.
Qed.

Lemma datastore_envs_no_PORT (rnd : RandSource) (ds : Datastore) (network : string)
    (st st' : State) (service : ComposeService) (envs : list EnvVar)
    (err : option string) :
  generateDatastoreService rnd ds network st = Some ((service, envs, err), st') →
  filter (λ e, env_Key e = "PORT") envs = [].
Proof.
  unfold generateDatastoreService, bind at 1, getG, bind at 1.
  rewrite generatePassword_eq.
  eqb_cases ds; unfold bind, modifyG, ret;
    rewrite ?generatePassword_eq, ?generateStrongPassword_eq by lia;
    try match goal with
        | |- context [putComposeVolume ?n ?s] =>
            destruct (putComposeVolume n s) as [[u s']|]; [|discriminate]
        end;
    intros H; injection H as _ <- _ _; reflexivity.
Qed.

(** X15. The variables a generation call collects hold one [PORT] entry
    for every runtime of the kinds go, node, python, java and rust, in the
    order of the runtime list and each with that runtime's internal port;
    datastores and other runtimes contribute none. Entries of several
    runtimes are neither merged nor renamed, so a project with two such
    runtimes has two [PORT] lines in its environment file. *)
Theorem port_variable_per_runtime
    (ext : Externals) (rnd : RandSource) (p : Project) (k : nat) :
  ∃ r st,
    generate ext rnd p k = Some (r, st)
    ∧ (∀ out, r = Ok out → EnvFile out = renderEnvFile (g_envVars (st_g st)))
    ∧ filter (λ e, env_Key e = "PORT") (g_envVars (st_g st))
      = map (λ rt, mkEnvVar "PORT" (goint.fmt_d (rt_InternalPort rt))
                     "Application port" false)
            (filter (λ rt, rt_Type rt ∈ [RuntimeGo; RuntimeNode; RuntimePython;
                                         RuntimeJava; RuntimeRust])
                    (proj_Runtimes p)).
Proof.
  set (portVar := λ rt, mkEnvVar "PORT" (goint.fmt_d (rt_InternalPort rt))
                          "Application port" false).
  set (binds := λ rt : Runtime, rt_Type rt ∈ [RuntimeGo; RuntimeNode; RuntimePython;
                                            RuntimeJava; RuntimeRust]).
  destruct (generate_inv ext rnd p k
              (λ _ st, filter (λ e, env_Key e = "PORT") (g_envVars (st_g st)) = [])
              (λ done st, filter (λ e, env_Key e = "PORT") (g_envVars (st_g st))
                          = map portVar (filter binds done)))
    as (st & Hgen & Hinv).
  - reflexivity.
  - intros done ds rest st svc envs st' _ Hinv Hrun.
    pose proof (datastore_envs_no_PORT _ _ _ _ _ _ _ _ Hrun) as Hno.
    apply generateDatastoreService_effect in Hrun as [_ Hg].
    unfold afterDatastore. simpl. rewrite Hg, filter_app, Hno, app_nil_r.
    destruct (String.eqb (ds_Type ds) DatastoreNeo4j); exact Hinv.
  - auto.
  - intros done rt rest st svc envs df _ Hinv Hrun.
    destruct (ServiceFacts.generateRuntimeService_facts _ _ _ _ _ _ _ _ _ Hrun)
      as (_ & _ & _ & _ & Hport & _).
    unfold afterRuntime. simpl.
    assert (He : ∀ g : Generator,
               g_envVars (if String.eqb df "" then g
                          else putDockerfile (rt_Name rt) df g) = g_envVars g)
      by (intros g; destruct (String.eqb df ""); reflexivity).
    rewrite He. simpl. rewrite !filter_app, Hinv, Hport, map_app.
    f_equal. unfold ServiceFacts.bindsPORT. fold (binds rt).
    case_bool_decide.
    + by rewrite filter_cons_True.
    + by rewrite filter_cons_False.
  - exists (bundleOf ext st), st. split; [exact Hgen|]. split; [|exact Hinv].
    unfold bundleOf. intros out.
    destruct (yaml_Marshal ext (g_compose (st_g st))); intros H; [|discriminate].
    injection H as <-. reflexivity.
Qed.

(** X14. Every build recipe in the bundle of a generation call is stored
    under the name of a runtime instance of a kind of the enumeration, is
    not empty and is the recipe the synthesis returns for that instance;
    and when the runtime names are pairwise distinct, every runtime whose
    recipe is not empty has it stored under its name. *)
Theorem dockerfiles_of_runtimes
    (ext : Externals) (rnd : RandSource) (p : Project) (k : nat) :
  ∃ r st,
    generate ext rnd p k = Some (r, st)
    ∧ (∀ out, r = Ok out → Dockerfiles out = g_dockerfiles (st_g st))
    ∧ (∀ name df, g_dockerfiles (st_g st) !! name = Some df →
         df ≠ "" ∧
         ∃ rt service envs sa,
           rt ∈ proj_Runtimes p ∧ rt_Name rt = name
           ∧ rt_Type rt ∈ AvailableRuntimes
           ∧ generateRuntimeService ext rt (proj_Name p +:+ "-network") sa
             = Some ((service, envs, df, None), sa))
    ∧ (NoDup (map rt_Name (proj_Runtimes p)) →
       ∀ rt service envs df sa,
         rt ∈ proj_Runtimes p →
         generateRuntimeService ext rt (proj_Name p +:+ "-network") sa
           = Some ((service, envs, df, None), sa) →
         df ≠ "" →
         g_dockerfiles (st_g st) !! rt_Name rt = Some df).
Proof.
  set (net := proj_Name p +:+ "-network").
  set (back := λ (done : list Runtime) (st : State),
         ∀ name df, g_dockerfiles (st_g st) !! name = Some df →
           df ≠ "" ∧
           ∃ rt service envs sa,
             rt ∈ done ∧ rt_Name rt = name ∧ rt_Type rt ∈ AvailableRuntimes
             ∧ generateRuntimeService ext rt net sa = Some ((service, envs, df, None), sa)).
  set (forth := λ (done : list Runtime) (st : State),
         NoDup (map rt_Name (proj_Runtimes p)) →
         ∀ rt service envs df sa,
           rt ∈ done →
           generateRuntimeService ext rt net sa = Some ((service, envs, df, None), sa) →
           df ≠ "" → g_dockerfiles (st_g st) !! rt_Name rt = Some df).
  destruct (generate_inv ext rnd p k
              (λ _ st, g_dockerfiles (st_g st) = ∅)
              (λ done st, back done st ∧ forth done st))
    as (st & Hgen & Hback & Hforth).
  - reflexivity.
  - intros done ds rest st svc envs st' _ Hinv Hrun.
    apply generateDatastoreService_effect in Hrun as [_ Hg].
    unfold afterDatastore. simpl. rewrite Hg.
    destruct (String.eqb (ds_Type ds) DatastoreNeo4j); exact Hinv.
  - intros st Hempty. split.
    + intros name df H. rewrite Hempty, lookup_empty in H. discriminate.
    + intros _ rt svc envs df sa Hin. by apply elem_of_nil in Hin.
  - intros done rt rest st svc envs df Hall [Hb Hf] Hrun.
    destruct (ServiceFacts.generateRuntimeService_facts _ _ _ _ _ _ _ _ _ Hrun)
      as (_ & _ & _ & _ & _ & Hkind).
    assert (Hd : g_dockerfiles (st_g (afterRuntime rt svc envs df st))
                 = if String.eqb df "" then g_dockerfiles (st_g st)
                   else <[ rt_Name rt := df ]> (g_dockerfiles (st_g st))).
    { unfold afterRuntime. simpl. destruct (String.eqb df ""); reflexivity. }
    split.
    + intros name d Hlook. rewrite Hd in Hlook.
      assert (Hold : g_dockerfiles (st_g st) !! name = Some d →
                d ≠ "" ∧ ∃ rt0 service envs0 sa,
                  rt0 ∈ done ++ [rt] ∧ rt_Name rt0 = name
                  ∧ rt_Type rt0 ∈ AvailableRuntimes
                  ∧ generateRuntimeService ext rt0 net sa
                    = Some ((service, envs0, d, None), sa)).
      { intros H. destruct (Hb name d H) as (Hne & r0 & s0 & e0 & sa & Hin & ?).
        split; [done|]. exists r0, s0, e0, sa. split; [|done].
        apply elem_of_app. by left. }
      destruct (String.eqb_spec df "") as [Hempty|Hne]; [by apply Hold|].
      destruct (decide (rt_Name rt = name)) as [Heq|Hneq].
      * rewrite <- Heq, lookup_insert_eq in Hlook. injection Hlook as <-.
        split; [done|]. exists rt, svc, envs, st.
        split; [apply elem_of_app; right; left|]. split; [done|]. split; [|done].
        case_bool_decide; [done|]. by destruct Hkind.
      * rewrite lookup_insert_ne in Hlook by done. by apply Hold.
    + intros Hnd r s e d sa Hin Hr Hne. rewrite Hd.
      apply elem_of_app in Hin as [Hin|Hin].
      * assert (Hneq : rt_Name rt ≠ rt_Name r).
        { intros Heq. rewrite Hall, map_app in Hnd.
          apply NoDup_app in Hnd as (_ & Hdisj & _).
          apply (Hdisj (rt_Name r)); [by apply list_elem_of_fmap_2|].
          simpl. rewrite Heq. left. }
        destruct (String.eqb df ""); [by eapply Hf|].
        rewrite lookup_insert_ne by done. by eapply Hf.
      * apply list_elem_of_singleton in Hin as ->.
        destruct (generateRuntimeService_indep _ _ _ _ _ _ _ _ _ _ _ _ _ _ _ _ Hr Hrun)
          as [_ ->].
        destruct (String.eqb_spec df "") as [Hempty|_]; [done|].
        by rewrite lookup_insert_eq.
  - exists (bundleOf ext st), st. split; [exact Hgen|]. split; [|split; done].
    unfold bundleOf. intros out.
    destruct (yaml_Marshal ext (g_compose (st_g st))); intros H; [|discriminate].
    injection H as <-. reflexivity.
Qed.

End GenerateFacts.

(* ===================================================================== *)
(** ** The environment files *)
(* ===================================================================== *)

Module EnvFileFacts.
Import models gost generator GeneratorFacts ServiceFacts.

Lemma string_app_assoc (a b c : string) : (a +:+ b) +:+ c = a +:+ (b +:+ c).
Proof.
  induction a as [|x a IH]; [done|].
  change (String x a +:+ b) with (String x (a +:+ b)).
  change (String x (a +:+ b) +:+ c) with (String x ((a +:+ b) +:+ c)).
  change (String x a +:+ (b +:+ c)) with (String x (a +:+ (b +:+ c))).
  by rewrite IH.
Qed.

Lemma string_app_nil_r (a : string) : a +:+ "" = a.
Proof.
  induction a as [|x a IH]; [done|].
  change (String x a +:+ "") with (String x (a +:+ "")). by rewrite IH.
Qed.

(** The text one variable adds to the environment file. *)
Definition envLine (e : EnvVar) : string :=
  env_Key e +:+ "=" +:+ env_Value e +:+ nl.

Definition envComment (e : EnvVar) : string :=
  "# " +:+ env_Description e +:+ nl.

Lemma writeEnvLine_eq (acc : string) (e : EnvVar) :
  writeEnvLine acc e
  = acc +:+ (if String.eqb (env_Description e) "" then envLine e
             else envComment e +:+ envLine e).
Proof.
  unfold writeEnvLine, envLine, envComment.
  destruct (String.eqb (env_Description e) ""); [done|].
  by rewrite !string_app_assoc.
Qed.

(** The lines one variable adds: its comment line when it has a
    description, then its assignment line. *)
Definition envBlock (e : EnvVar) : string :=
  (if String.eqb (env_Description e) "" then ""
   else "# " +:+ env_Description e +:+ nl)
  +:+ env_Key e +:+ "=" +:+ env_Value e +:+ nl.

(** The lines of a list of variables, one block after the other. *)
Definition envBlocks (envs : list EnvVar) : string :=
  foldr (λ e rest, envBlock e +:+ rest) "" envs.

Lemma writeEnvLine_block (acc : string) (e : EnvVar) :
  writeEnvLine acc e = acc +:+ envBlock e.
Proof.
  rewrite writeEnvLine_eq. unfold envBlock, envLine, envComment.
  destruct (String.eqb (env_Description e) ""); [done|].
  by rewrite !string_app_assoc.
Qed.

Lemma foldl_writeEnvLine_blocks (envs : list EnvVar) (acc : string) :
  foldl writeEnvLine acc envs = acc +:+ envBlocks envs.
Proof.
  revert acc. induction envs as [|e envs IH]; intros acc; simpl.
  - by rewrite string_app_nil_r.
  - by rewrite IH, writeEnvLine_block, string_app_assoc.
Qed.

Lemma foldl_writeEnvLine_ends (envs : list EnvVar) (acc : string) :
  (∃ pre, acc = pre +:+ nl) →
  ∃ pre, foldl writeEnvLine acc envs = pre +:+ nl.
Proof.
  revert acc. induction envs as [|e envs IH]; intros acc Hacc; [exact Hacc|].
  simpl. apply IH. rewrite writeEnvLine_block. unfold envBlock.
  rewrite <- !string_app_assoc. eexists. reflexivity.
Qed.

(** X12. The secret environment file is its two-line header and an empty
    line followed, for the variables in the order of the list, by one block
    per variable and nothing else: the comment line with the description
    when the description is not empty, then the line KEY=VALUE. So the
    variable at any position of the list has its block in the file, right
    after the file of the variables before it, which ends in a line break,
    and right before the blocks of the variables after it: no variable is
    dropped, repeated or moved. *)
Theorem env_file_lists_every_variable (envs : list EnvVar) :
  renderEnvFile envs
  = ("# Generated by stackgen - For local development only" +:+ nl +:+
     "# WARNING: Do not commit this file to version control" +:+ nl +:+ nl)
    +:+ foldr (λ e rest,
                 ((if String.eqb (env_Description e) "" then ""
                   else "# " +:+ env_Description e +:+ nl)
                  +:+ env_Key e +:+ "=" +:+ env_Value e +:+ nl) +:+ rest)
              "" envs
  ∧ ∀ (i : nat) (e : EnvVar),
      envs !! i = Some e →
      renderEnvFile envs
      = renderEnvFile (take i envs)
        +:+ ((if String.eqb (env_Description e) "" then ""
              else "# " +:+ env_Description e +:+ nl)
             +:+ env_Key e +:+ "=" +:+ env_Value e +:+ nl)
        +:+ envBlocks (drop (S i) envs)
      ∧ ∃ pre, renderEnvFile (take i envs) = pre +:+ nl.
Proof.
  split.
  - unfold renderEnvFile. apply foldl_writeEnvLine_blocks.
  - intros i e Hi. split.
    + rewrite <- (take_drop_middle envs i e Hi) at 1.
      unfold renderEnvFile. rewrite foldl_app. simpl.
      rewrite foldl_writeEnvLine_blocks, writeEnvLine_block.
      fold (envBlock e). by rewrite string_app_assoc.
    + unfold renderEnvFile. apply foldl_writeEnvLine_ends.
      exists ("# Generated by stackgen - For local development only" +:+ nl +:+
              "# WARNING: Do not commit this file to version control" +:+ nl).
      reflexivity.
Qed.

(** A file of two variables, the second without a description and with a
    key that ends as the key [PORT] does. *)
Example env_file_of_two_variables :
  renderEnvFile [mkEnvVar "POSTGRES_USER" "postgres" "PostgreSQL username" false;
                 mkEnvVar "MY_PORT" "8080" "" false]
  = "# Generated by stackgen - For local development only" +:+ nl +:+
    "# WARNING: Do not commit this file to version control" +:+ nl +:+ nl +:+
    "# PostgreSQL username" +:+ nl +:+
    "POSTGRES_USER=postgres" +:+ nl +:+
    "MY_PORT=8080" +:+ nl.
Proof. reflexivity. Qed.

(** A variable with the value of a secret erased. *)
Definition redact (e : EnvVar) : EnvVar :=
  if env_Secret e then mkEnvVar (env_Key e) "" (env_Description e) true else e.

Lemma redact_sameButSecret (envs : list EnvVar) :
  Forall2 sameButSecret envs (map redact envs).
Proof.
  induction envs as [|e envs IH]; constructor; [|exact IH].
  unfold redact, sameButSecret. destruct (env_Secret e) eqn:E; simpl; auto.
  repeat split; auto. discriminate.
Qed.

(** X13. The redacted example file does not depend on any secret value: it
    is the example file of the same variables with the value of every
    secret-flagged variable erased, and two variable lists that agree on
    keys, descriptions, secrecy flags and non-secret values render the same
    example file. *)
Theorem example_file_hides_secrets (envs : list EnvVar) :
  renderEnvExampleFile envs = renderEnvExampleFile (map redact envs)
  ∧ ∀ envs', Forall2 sameButSecret envs envs' →
             renderEnvExampleFile envs = renderEnvExampleFile envs'.
Proof.
  split.
  - apply renderEnvExampleFile_sim, redact_sameButSecret.
  - intros envs'. apply renderEnvExampleFile_sim.
Qed.

End EnvFileFacts.

(* ===================================================================== *)
(** ** The catalog and the presets *)
(* ===================================================================== *)

Module PresetFacts.
Import models profiles CatalogFacts ProfilesFacts.

Ltac solve_NoDup :=
  repeat (apply NoDup_cons_2;
          [rewrite ?elem_of_cons, elem_of_nil; intuition discriminate|]);
  apply NoDup_nil_2.

(** Kinds outside the enumerations have no catalog entry and no tag. *)
Lemma GetDatastoreInfo_unknown (t : DatastoreType) :
  t ∉ AvailableDatastores → GetDatastoreInfo t = zeroDatastoreInfo.
Proof.
  intros Ht. unfold GetDatastoreInfo.
  destruct (datastoreInfoTable !! t) as [d|] eqn:E; [|done]. exfalso.
  apply elem_of_list_to_map_2 in E.
  repeat (apply elem_of_cons in E as [E|E];
          [injection E as -> _; apply Ht; apply list_elem_of_In; simpl; tauto|]).
  by apply elem_of_nil in E.
Qed.

Lemma getDefaultTag_unknown (t : DatastoreType) :
  t ∉ AvailableDatastores → getDefaultTag t = "" ∧ cmd.getDefaultTag t = "".
Proof.
  intros Ht. unfold getDefaultTag, cmd.getDefaultTag. split.
  - destruct (defaultTagTable !! t) as [d|] eqn:E; [|done]. exfalso.
    apply elem_of_list_to_map_2 in E.
    repeat (apply elem_of_cons in E as [E|E];
            [injection E as -> _; apply Ht; apply list_elem_of_In; simpl; tauto|]).
    by apply elem_of_nil in E.
  - destruct (cmd.defaultTagTable !! t) as [d|] eqn:E; [|done]. exfalso.
    apply elem_of_list_to_map_2 in E.
    repeat (apply elem_of_cons in E as [E|E];
            [injection E as -> _; apply Ht; apply list_elem_of_In; simpl; tauto|]).
    by apply elem_of_nil in E.
Qed.

Lemma GetRuntimeInfo_unknown (t : RuntimeType) :
  t ∉ AvailableRuntimes → GetRuntimeInfo t = zeroRuntimeInfo.
Proof.
  intros Ht. unfold GetRuntimeInfo.
  destruct (runtimeInfoTable !! t) as [d|] eqn:E; [|done]. exfalso.
  apply elem_of_list_to_map_2 in E.
  repeat (apply elem_of_cons in E as [E|E];
          [injection E as -> _; apply Ht; apply list_elem_of_In; simpl; tauto|]).
  by apply elem_of_nil in E.
Qed.

(** X16. The catalog is total on the two enumerations and nowhere else:
    the enumerations list each kind once; every datastore kind of the
    enumeration has an entry under its own name with a display name, a
    positive default port, an edition label and a default image tag (the
    same in both packages that keep the tag table); every runtime kind has
    an entry with a display name, a positive default port and at least one
    framework; any other kind yields the zero entry. *)
Theorem catalog_total :
  NoDup AvailableDatastores ∧ NoDup AvailableRuntimes
  ∧ (∀ t, t ∈ AvailableDatastores →
       di_Type (GetDatastoreInfo t) = t
       ∧ di_DisplayName (GetDatastoreInfo t) ≠ ""
       ∧ (0 < di_DefaultPort (GetDatastoreInfo t))%Z
       ∧ di_Edition (GetDatastoreInfo t) ≠ ""
       ∧ getDefaultTag t ≠ ""
       ∧ cmd.getDefaultTag t = getDefaultTag t)
  ∧ (∀ t, t ∈ AvailableRuntimes →
       ri_Type (GetRuntimeInfo t) = t
       ∧ ri_DisplayName (GetRuntimeInfo t) ≠ ""
       ∧ (0 < ri_DefaultPort (GetRuntimeInfo t))%Z
       ∧ ri_Frameworks (GetRuntimeInfo t) ≠ [])
  ∧ (∀ t, t ∉ AvailableDatastores →
       GetDatastoreInfo t = zeroDatastoreInfo ∧ getDefaultTag t = "")
  ∧ (∀ t, t ∉ AvailableRuntimes → GetRuntimeInfo t = zeroRuntimeInfo).
Proof.
  split; [unfold AvailableDatastores; solve_NoDup|].
  split; [unfold AvailableRuntimes; solve_NoDup|].
  split; [|split; [|split]].
  - intros t Ht. unfold AvailableDatastores in Ht.
    repeat (apply elem_of_cons in Ht as [->|Ht];
            [vm_compute; repeat split; (discriminate || reflexivity)|]).
    by apply elem_of_nil in Ht.
  - intros t Ht. unfold AvailableRuntimes in Ht.
    repeat (apply elem_of_cons in Ht as [->|Ht];
            [vm_compute; repeat split; (discriminate || reflexivity)|]).
    by apply elem_of_nil in Ht.
  - intros t Ht. split; [by apply GetDatastoreInfo_unknown|].
    by apply getDefaultTag_unknown.
  - intros t Ht. by apply GetRuntimeInfo_unknown.
Qed.

(** *** Looking a preset up *)

Lemma findProfile_spec (name : string) (ps : list Profile) :
  match findProfile name ps with
  | Some p => prof_Name p = name ∧ p ∈ ps
  | None => name ∉ map prof_Name ps
  end.
Proof.
  induction ps as [|q ps IH]; simpl.
  - apply not_elem_of_nil.
  - destruct (String.eqb_spec (prof_Name q) name) as [Heq|Hne].
    + split; [done|left].
    + destruct (findProfile name ps) as [p|].
      * destruct IH. split; [done|by right].
      * rewrite not_elem_of_cons. split; [congruence|done].
Qed.

Lemma findProfile_first (ps : list Profile) (p : Profile) :
  NoDup (map prof_Name ps) → p ∈ ps → findProfile (prof_Name p) ps = Some p.
Proof.
  induction ps as [|q ps IH]; intros Hnd Hin; [by apply elem_of_nil in Hin|].
  simpl in *. apply NoDup_cons in Hnd as [Hq Hnd].
  destruct (String.eqb_spec (prof_Name q) (prof_Name p)) as [Heq|Hne].
  - apply elem_of_cons in Hin as [->|Hin]; [done|].
    exfalso. apply Hq. rewrite Heq. by apply list_elem_of_fmap_2.
  - apply elem_of_cons in Hin as [->|Hin]; [done|]. by apply IH.
Qed.

(** X17. [GetProfile] answers a preset exactly for the names of the preset
    list: a preset it returns carries the requested name and is one of the
    list; it returns nothing exactly when no preset has that name; the
    preset names are pairwise distinct, so every preset of the list is
    found under its own name. *)
Theorem get_profile_lookup :
  (∀ name p, GetProfile name = Some p → prof_Name p = name ∧ p ∈ AvailableProfiles)
  ∧ (∀ name, GetProfile name = None ↔ name ∉ map prof_Name AvailableProfiles)
  ∧ NoDup (map prof_Name AvailableProfiles)
  ∧ (∀ p, p ∈ AvailableProfiles → GetProfile (prof_Name p) = Some p).
Proof.
  assert (Hnd : NoDup (map prof_Name AvailableProfiles)).
  { unfold AvailableProfiles. simpl. solve_NoDup. }
  split; [|split; [|split; [exact Hnd|]]].
  - intros name p H. unfold GetProfile in H.
    pose proof (findProfile_spec name AvailableProfiles) as Hs. by rewrite H in Hs.
  - intros name. unfold GetProfile.
    pose proof (findProfile_spec name AvailableProfiles) as Hs.
    destruct (findProfile name AvailableProfiles) as [p|].
    + destruct Hs as [<- Hin]. split; [done|]. intros Hnot. exfalso.
      apply Hnot. by apply list_elem_of_fmap_2.
    + done.
  - intros p Hin. by apply findProfile_first.
Qed.

(** *** Materialised presets *)

Lemma BuildProject_lists (profile : Profile) (projectName outputDir : string) :
  proj_Datastores (BuildProjectFromProfile profile projectName outputDir)
  = map (λ dsType,
           {| ds_Type := dsType; ds_Name := dsType; ds_Image := "";
              ds_Tag := getDefaultTag dsType;
              ds_Port := goint.add (di_DefaultPort (GetDatastoreInfo dsType)) 0;
              ds_InternalPort := di_DefaultPort (GetDatastoreInfo dsType);
              ds_Volumes := []; ds_Environment := ∅;
              ds_HealthCheck := None; ds_Networks := [] |})
        (prof_Datastores profile)
  ∧ proj_Runtimes (BuildProjectFromProfile profile projectName outputDir)
    = materialise (prof_Datastores profile) 0 (prof_Runtimes profile)
  ∧ proj_Name (BuildProjectFromProfile profile projectName outputDir) = projectName
  ∧ proj_OutputDir (BuildProjectFromProfile profile projectName outputDir) = outputDir
  ∧ proj_Profile (BuildProjectFromProfile profile projectName outputDir)
    = prof_Name profile.
Proof.
  unfold BuildProjectFromProfile.
  rewrite (foldl_snoc_map (λ dsType : DatastoreType, dsType : string)).
  rewrite (foldl_snoc_map
             (λ dsType,
                {| ds_Type := dsType; ds_Name := dsType; ds_Image := "";
                   ds_Tag := getDefaultTag dsType;
                   ds_Port := goint.add (di_DefaultPort (GetDatastoreInfo dsType)) 0;
                   ds_InternalPort := di_DefaultPort (GetDatastoreInfo dsType);
                   ds_Volumes := []; ds_Environment := ∅;
                   ds_HealthCheck := None; ds_Networks := [] |})).
  simpl app. rewrite map_id.
  pose proof (addProfileRuntime_foldl (prof_Datastores profile)
                (prof_Runtimes profile) [] 0) as Hfold.
  destruct (foldl _ _ (prof_Runtimes profile)) as [rts off]. simpl in Hfold. subst rts.
  done.
Qed.

(** X18. Every preset materialises to a well-formed project, whatever the
    project name and output target: the instance names (datastores and
    runtimes together) are pairwise distinct, so are the external ports;
    every datastore is of a kind of the enumeration, named after its kind,
    with a non-empty image tag; every runtime is of a kind of the
    enumeration with a framework from that kind's list and depends on
    exactly the datastore names; the project records the preset's name. *)
Theorem presets_materialise_well_formed
    (name : string) (profile : Profile) (projectName outputDir : string) :
  GetProfile name = Some profile →
  let project := BuildProjectFromProfile profile projectName outputDir in
  NoDup (map ds_Name (proj_Datastores project) ++ map rt_Name (proj_Runtimes project))
  ∧ NoDup (map ds_Port (proj_Datastores project) ++ map rt_Port (proj_Runtimes project))
  ∧ Forall (λ ds, ds_Type ds ∈ AvailableDatastores ∧ ds_Name ds = ds_Type ds
                  ∧ ds_Tag ds ≠ "") (proj_Datastores project)
  ∧ Forall (λ rt, rt_Type rt ∈ AvailableRuntimes
                  ∧ rt_Framework rt ∈ ri_Frameworks (GetRuntimeInfo (rt_Type rt))
                  ∧ rt_DependsOn rt = map ds_Name (proj_Datastores project))
           (proj_Runtimes project)
  ∧ proj_Name project = projectName
  ∧ proj_Profile project = name.
Proof.
  intros Hget. unfold GetProfile in Hget.
  pose proof (findProfile_spec name AvailableProfiles) as Hs. rewrite Hget in Hs.
  destruct Hs as [<- Hin]. cbv zeta.
  destruct (BuildProject_lists profile projectName outputDir)
    as (-> & -> & -> & _ & ->).
  unfold AvailableProfiles in Hin.
  repeat (apply elem_of_cons in Hin as [->|Hin];
          [vm_compute;
           (split; [solve_NoDup|]); (split; [solve_NoDup|]);
           (split; [repeat constructor;
                    first [discriminate | apply list_elem_of_In; simpl; tauto]|]);
           (split; [repeat constructor; apply list_elem_of_In; simpl; tauto|]);
           split; reflexivity|]).
  by apply elem_of_nil in Hin.
Qed.

Lemma presets_materialise_well_formed_witness :
  let project := BuildProjectFromProfile
                   {| prof_Name := "api";
                      prof_Description := "REST API backend (Go + Postgres)";
                      prof_Datastores := [DatastorePostgres];
                      prof_Runtimes := [mkRuntimeConfig RuntimeGo "stdlib"] |}
                   "demo" "out" in
  NoDup (map ds_Name (proj_Datastores project) ++ map rt_Name (proj_Runtimes project))
  ∧ NoDup (map ds_Port (proj_Datastores project) ++ map rt_Port (proj_Runtimes project))
  ∧ Forall (λ ds, ds_Type ds ∈ AvailableDatastores ∧ ds_Name ds = ds_Type ds
                  ∧ ds_Tag ds ≠ "") (proj_Datastores project)
  ∧ Forall (λ rt, rt_Type rt ∈ AvailableRuntimes
                  ∧ rt_Framework rt ∈ ri_Frameworks (GetRuntimeInfo (rt_Type rt))
                  ∧ rt_DependsOn rt = map ds_Name (proj_Datastores project))
           (proj_Runtimes project)
  ∧ proj_Name project = "demo"
  ∧ proj_Profile project = "api".
Proof.
  apply (presets_materialise_well_formed "api"). reflexivity.
Defined.

End PresetFacts.

(* ===================================================================== *)
(** ** More on the add path *)
(* ===================================================================== *)

Module AddFacts.
Import models gost cmd CatalogFacts CmdFacts PresetFacts.

(** The record [addDatastore] appends, and the project after the append. *)
Definition newDatastore (dsType : DatastoreType) (port : Z) : Datastore :=
  {| ds_Type := dsType; ds_Name := dsType; ds_Image := "";
     ds_Tag := cmd.getDefaultTag dsType; ds_Port := port;
     ds_InternalPort := di_DefaultPort (GetDatastoreInfo dsType);
     ds_Volumes := []; ds_Environment := ∅; ds_HealthCheck := None;
     ds_Networks := [] |}.

Definition withDatastore (p : Project) (ds : Datastore) : Project :=
  mkProject (proj_Name p) (proj_OutputDir p) (proj_Datastores p ++ [ds])
    (proj_Runtimes p) (proj_Networks p) (proj_Profile p).

(** The record [addRuntime] appends, and the project after the append. *)
Definition newRuntime (rtType : RuntimeType) (name framework : string) (port : Z)
    (dependsOn : list string) : Runtime :=
  {| rt_Type := rtType; rt_Name := name; rt_Framework := framework;
     rt_Port := port; rt_InternalPort := ri_DefaultPort (GetRuntimeInfo rtType);
     rt_BuildContext := name; rt_Dockerfile := "Dockerfile"; rt_Volumes := [];
     rt_Environment := ∅; rt_Command := ""; rt_DependsOn := dependsOn;
     rt_Networks := [] |}.

Definition withRuntime (p : Project) (rt : Runtime) : Project :=
  mkProject (proj_Name p) (proj_OutputDir p) (proj_Datastores p)
    (proj_Runtimes p ++ [rt]) (proj_Networks p) (proj_Profile p).

(** The directory [saveAndRegenerate] writes the bundle to. *)
Definition targetDir (sys : System) (p : Project) : string :=
  filepath_Abs sys (if String.eqb (proj_OutputDir p) "" then "." else proj_OutputDir p).

Section Commands.
Context (sys : System) (ext : generator.Externals) (rnd : generator.RandSource).

Lemma saveAndRegenerate_cases (configPath : string) (w : World) :
  saveAndRegenerate sys ext rnd configPath w
  = match yaml_MarshalProject sys (w_project w) with
    | generator.Err e => Some (Some ("failed to marshal config: " +:+ e), w)
    | generator.Ok data =>
        match os_WriteFile sys configPath data with
        | Some e =>
            Some (Some ("failed to save config: " +:+ e),
                  mkWorld (w_project w) (w_reads w)
                    (w_events w ++ [EvWriteFile configPath data]))
        | None =>
            match generator.generate ext rnd (w_project w) (w_reads w) with
            | None => None
            | Some (generator.Err e, st) =>
                Some (Some ("failed to generate configuration: " +:+ e),
                      mkWorld (w_project w) (generator.st_reads st)
                        (w_events w ++ [EvWriteFile configPath data;
                                        EvGenerate (w_project w)]))
            | Some (generator.Ok out, st) =>
                Some (WriteToDir sys out (targetDir sys (w_project w)),
                      mkWorld (w_project w) (generator.st_reads st)
                        (w_events w ++ [EvWriteFile configPath data;
                                        EvGenerate (w_project w);
                                        EvWriteToDir (targetDir sys (w_project w)) out]))
            end
        end
    end.
Proof.
  unfold saveAndRegenerate, targetDir, bind, getProject, emit, ret.
  destruct (yaml_MarshalProject sys (w_project w)) as [data|e]; [|done].
  destruct (os_WriteFile sys configPath data) as [e|]; [done|].
  simpl. destruct (generator.generate ext rnd (w_project w) (w_reads w))
    as [[[out|e] st]|]; simpl; rewrite <- ?app_assoc; reflexivity.
Qed.

(** [addDatastore] once the kind is new and the probe has answered. *)
Lemma addDatastore_run (fuel : nat) (configPath : string) (dsType : DatastoreType)
    (w : World) (port : Z) :
  datastoreTypeExists dsType (proj_Datastores (w_project w)) = false →
  probePort fuel
    (foldl (λ m ds, <[ ds_Port ds := true ]> m) ∅ (proj_Datastores (w_project w)))
    1 (di_DefaultPort (GetDatastoreInfo dsType)) = Some port →
  addDatastore sys ext rnd fuel configPath dsType w
  = match saveAndRegenerate sys ext rnd configPath
            (mkWorld (withDatastore (w_project w) (newDatastore dsType port))
               (w_reads w) (w_events w)) with
    | Some (Some e, w2) => Some (Some e, w2)
    | Some (None, w2) =>
        Some (None,
              mkWorld (w_project w2) (w_reads w2)
                (w_events w2 ++
                 [EvPrint ("Added " +:+ di_DisplayName (GetDatastoreInfo dsType)
                             +:+ " (port " +:+ goint.fmt_d port +:+ ")")]))
    | None => None
    end.
Proof.
  intros Hnew Hprobe.
  unfold addDatastore, bind at 1, getProject. rewrite Hnew, Hprobe.
  unfold bind at 1, setProject. unfold bind at 1.
  unfold withDatastore, newDatastore.
  destruct (saveAndRegenerate _ _ _ _ _) as [[[e|] w2]|]; reflexivity.
Qed.

(** [addRuntime] once the name and the port are found. *)
Lemma addRuntime_run (fuel : nat) (configPath : string) (rtType : RuntimeType)
    (w : World) (f0 f1 : string) (fs : list string) (name : string) (port : Z) :
  ri_Frameworks (GetRuntimeInfo rtType) = f0 :: f1 :: fs →
  uniqueName fuel (proj_Runtimes (w_project w)) (rtType +:+ "-app") (rtType +:+ "-app") 1
    = Some name →
  probePort fuel
    (foldl (λ m rt, <[ rt_Port rt := true ]> m) ∅ (proj_Runtimes (w_project w)))
    1000 (ri_DefaultPort (GetRuntimeInfo rtType)) = Some port →
  let framework := (prompt_Run sys "Select framework" (f0 :: f1 :: fs)).1.2 in
  addRuntime sys ext rnd fuel configPath rtType w
  = match saveAndRegenerate sys ext rnd configPath
            (mkWorld
               (withRuntime (w_project w)
                  (newRuntime rtType name framework port
                     (map ds_Name (proj_Datastores (w_project w)))))
               (w_reads w) (w_events w)) with
    | Some (Some e, w2) => Some (Some e, w2)
    | Some (None, w2) =>
        Some (None,
              mkWorld (w_project w2) (w_reads w2)
                (w_events w2 ++
                 [EvPrint ("Added " +:+ ri_DisplayName (GetRuntimeInfo rtType)
                             +:+ " [" +:+ framework +:+ "] (port "
                             +:+ goint.fmt_d port +:+ ")")]))
    | None => None
    end.
Proof.
  intros Hfw Hname Hprobe framework.
  unfold addRuntime, bind at 1, getProject. rewrite Hfw, Hname, Hprobe.
  unfold bind at 1, setProject. unfold bind at 1.
  rewrite (foldl_snoc_map ds_Name). simpl app.
  unfold withRuntime, newRuntime. subst framework. simpl length. simpl Nat.ltb.
  cbv iota.
  destruct (saveAndRegenerate _ _ _ _ _) as [[[e|] w2]|]; reflexivity.
Qed.

(** The add of a new kind of datastore returns with the project extended by
    the new record, on the first free port. *)
Lemma addDatastore_adds (fuel : nat) (configPath : string) (dsType : DatastoreType)
    (w : World) :
  datastoreTypeExists dsType (proj_Datastores (w_project w)) = false →
  (length (proj_Datastores (w_project w)) < fuel)%nat →
  (Z.of_nat (length (proj_Datastores (w_project w))) < 2 ^ 50)%Z →
  ∃ err w' (k : nat),
    addDatastore sys ext rnd fuel configPath dsType w = Some (err, w')
    ∧ w_project w'
      = withDatastore (w_project w)
          (newDatastore dsType (di_DefaultPort (GetDatastoreInfo dsType) + Z.of_nat k))
    ∧ ((di_DefaultPort (GetDatastoreInfo dsType) + Z.of_nat k)%Z
         ∉ map ds_Port (proj_Datastores (w_project w)))
    ∧ (k ≤ length (proj_Datastores (w_project w)))%nat
    ∧ ∀ j : nat, (j < k)%nat →
        (di_DefaultPort (GetDatastoreInfo dsType) + Z.of_nat j)%Z
          ∈ map ds_Port (proj_Datastores (w_project w)).
Proof.
  intros Hnew Hfuel Hlen.
  pose proof (datastore_default_port_range dsType) as Hrange.
  destruct (probePort_finds ds_Port (proj_Datastores (w_project w)) fuel 1
              (di_DefaultPort (GetDatastoreInfo dsType)))
    as (k & Hprobe & Hfree & Hbelow); [lia|lia|done|lia|done|].
  replace (1 * Z.of_nat k)%Z with (Z.of_nat k) in * by lia.
  rewrite (addDatastore_run _ _ _ _ _ Hnew Hprobe).
  match goal with
  | |- context [saveAndRegenerate sys ext rnd configPath ?w1] =>
      destruct (saveAndRegenerate_total sys ext rnd configPath w1)
        as (err & w2 & Hsave & Hproj); rewrite Hsave
  end.
  simpl in Hproj.
  assert (Hk : (k ≤ length (proj_Datastores (w_project w)))%nat).
  { rewrite <- (length_map ds_Port).
    apply (pigeonhole (λ j, (di_DefaultPort (GetDatastoreInfo dsType) + Z.of_nat j)%Z));
      [intros i j _ _ Heq; lia|].
    intros j Hj. specialize (Hbelow j Hj).
    by replace (1 * Z.of_nat j)%Z with (Z.of_nat j) in Hbelow by lia. }
  assert (Hused : ∀ j : nat, (j < k)%nat →
            (di_DefaultPort (GetDatastoreInfo dsType) + Z.of_nat j)%Z
              ∈ map ds_Port (proj_Datastores (w_project w))).
  { intros j Hj. specialize (Hbelow j Hj).
    by replace (1 * Z.of_nat j)%Z with (Z.of_nat j) in Hbelow by lia. }
  destruct err as [e|]; do 2 eexists; exists k; (split; [reflexivity|]);
    simpl; rewrite Hproj; done.
Qed.

(** The add of a runtime of a catalogued kind returns with the project
    extended by the new record, under the first free name and port. *)
Lemma addRuntime_adds (fuel : nat) (configPath : string) (rtType : RuntimeType)
    (w : World) :
  rtType ∈ AvailableRuntimes →
  (length (proj_Runtimes (w_project w)) < fuel)%nat →
  (Z.of_nat (length (proj_Runtimes (w_project w))) < 2 ^ 50)%Z →
  ∃ err w' (kn kp : nat),
    let name := candidate (rtType +:+ "-app") (rtType +:+ "-app") 1 kn in
    let port := (ri_DefaultPort (GetRuntimeInfo rtType) + 1000 * Z.of_nat kp)%Z in
    let framework :=
      (prompt_Run sys "Select framework" (ri_Frameworks (GetRuntimeInfo rtType))).1.2 in
    addRuntime sys ext rnd fuel configPath rtType w = Some (err, w')
    ∧ w_project w'
      = withRuntime (w_project w)
          (newRuntime rtType name framework port
             (map ds_Name (proj_Datastores (w_project w))))
    ∧ (name ∉ map rt_Name (proj_Runtimes (w_project w)))
    ∧ (port ∉ map rt_Port (proj_Runtimes (w_project w))).
Proof.
  intros Hkind Hfuel Hlen.
  destruct (runtime_frameworks rtType Hkind) as (f0 & f1 & fs & Hfw).
  destruct (uniqueName_finds (proj_Runtimes (w_project w)) fuel (rtType +:+ "-app")
              Hlen Hfuel) as (kn & Hname & Hnfree & Hnbelow).
  pose proof (runtime_default_port_range rtType) as Hrange.
  destruct (probePort_finds rt_Port (proj_Runtimes (w_project w)) fuel 1000
              (ri_DefaultPort (GetRuntimeInfo rtType)))
    as (kp & Hprobe & Hpfree & Hpbelow); [lia|lia|done|lia|done|].
  rewrite (addRuntime_run _ _ _ _ _ _ _ _ _ Hfw Hname Hprobe).
  match goal with
  | |- context [saveAndRegenerate sys ext rnd configPath ?w1] =>
      destruct (saveAndRegenerate_total sys ext rnd configPath w1)
        as (err & w2 & Hsave & Hproj); rewrite Hsave
  end.
  simpl in Hproj. rewrite Hfw.
  destruct err as [e|]; do 2 eexists; exists kn, kp; cbv zeta;
    (split; [reflexivity|]); simpl w_project; rewrite Hproj; done.
Qed.

(** X19. [addDatastore] keeps a configuration well formed: it returns, and
    in the project it leaves the kinds of the datastores are still pairwise
    distinct, so are their external ports, every datastore is still named
    after its kind (hence the names stay distinct too), and the runtimes
    are untouched. This holds whether the kind was new or rejected as a
    duplicate, and whether or not saving and regenerating succeeded. *)
Theorem add_datastore_keeps_distinct (fuel : nat) (configPath : string)
    (dsType : DatastoreType) (w : World) :
  (length (proj_Datastores (w_project w)) < fuel)%nat →
  (Z.of_nat (length (proj_Datastores (w_project w))) < 2 ^ 50)%Z →
  ∃ err w',
    addDatastore sys ext rnd fuel configPath dsType w = Some (err, w')
    ∧ (NoDup (map ds_Type (proj_Datastores (w_project w))) →
       NoDup (map ds_Type (proj_Datastores (w_project w'))))
    ∧ (NoDup (map ds_Port (proj_Datastores (w_project w))) →
       NoDup (map ds_Port (proj_Datastores (w_project w'))))
    ∧ (Forall (λ ds, ds_Name ds = ds_Type ds) (proj_Datastores (w_project w)) →
       Forall (λ ds, ds_Name ds = ds_Type ds) (proj_Datastores (w_project w'))
       ∧ map ds_Name (proj_Datastores (w_project w'))
         = map ds_Type (proj_Datastores (w_project w')))
    ∧ proj_Runtimes (w_project w') = proj_Runtimes (w_project w).
Proof.
  intros Hfuel Hlen.
  assert (Hnames : ∀ dss, Forall (λ ds, ds_Name ds = ds_Type ds) dss →
                          map ds_Name dss = map ds_Type dss).
  { induction 1 as [|d l Hd _ IH]; simpl; [done|]. by rewrite Hd, IH. }
  destruct (datastoreTypeExists dsType (proj_Datastores (w_project w))) eqn:Hex.
  - exists (Some (dsType +:+ " is already in the configuration")), w.
    split; [unfold addDatastore, bind, getProject; by rewrite Hex|].
    repeat split; auto.
  - destruct (addDatastore_adds fuel configPath dsType w Hex Hfuel Hlen)
      as (err & w' & k & Hrun & Hproj & Hfree & _).
    exists err, w'. split; [done|]. rewrite Hproj. simpl.
    rewrite !map_app. simpl.
    assert (Hkind : dsType ∉ map ds_Type (proj_Datastores (w_project w))).
    { intros Hin. apply list_elem_of_fmap in Hin as (d & Hd & Hin).
      assert (datastoreTypeExists dsType (proj_Datastores (w_project w)) = true)
        as Htrue by (apply datastoreTypeExists_spec; eauto).
      congruence. }
    split; [|split; [|split; [|done]]].
    + intros Hnd. apply NoDup_app. split; [done|]. split; [|apply NoDup_singleton].
      intros x Hx Hx'. apply list_elem_of_singleton in Hx'. by subst.
    + intros Hnd. apply NoDup_app. split; [done|]. split; [|apply NoDup_singleton].
      intros x Hx Hx'. apply list_elem_of_singleton in Hx'. by subst.
    + intros Hall.
      assert (Forall (λ ds, ds_Name ds = ds_Type ds)
                (proj_Datastores (w_project w)
                 ++ [newDatastore dsType
                       (di_DefaultPort (GetDatastoreInfo dsType) + Z.of_nat k)]))
        as Hall'.
      { apply Forall_app. split; [done|]. by repeat constructor. }
      split; [done|]. apply Hnames in Hall'. by rewrite !map_app in Hall'.
Qed.

(** X20. [addRuntime] keeps a configuration well formed: for a kind of the
    enumeration it returns, and in the project it leaves the names of the
    runtimes are still pairwise distinct, so are their external ports,
    every runtime still builds from the directory of its own name, the new
    runtime has the kind's default as internal port and a non-empty name,
    and the datastores are untouched. *)
Theorem add_runtime_keeps_distinct (fuel : nat) (configPath : string)
    (rtType : RuntimeType) (w : World) :
  rtType ∈ AvailableRuntimes →
  (length (proj_Runtimes (w_project w)) < fuel)%nat →
  (Z.of_nat (length (proj_Runtimes (w_project w))) < 2 ^ 50)%Z →
  ∃ err w' rt,
    addRuntime sys ext rnd fuel configPath rtType w = Some (err, w')
    ∧ proj_Runtimes (w_project w') = proj_Runtimes (w_project w) ++ [rt]
    ∧ (NoDup (map rt_Name (proj_Runtimes (w_project w))) →
       NoDup (map rt_Name (proj_Runtimes (w_project w'))))
    ∧ (NoDup (map rt_Port (proj_Runtimes (w_project w))) →
       NoDup (map rt_Port (proj_Runtimes (w_project w'))))
    ∧ (Forall (λ rt, rt_BuildContext rt = rt_Name rt) (proj_Runtimes (w_project w)) →
       Forall (λ rt, rt_BuildContext rt = rt_Name rt) (proj_Runtimes (w_project w')))
    ∧ rt_InternalPort rt = ri_DefaultPort (GetRuntimeInfo rtType)
    ∧ rt_Dockerfile rt = "Dockerfile"
    ∧ proj_Datastores (w_project w') = proj_Datastores (w_project w).
Proof.
  intros Hkind Hfuel Hlen.
  destruct (addRuntime_adds fuel configPath rtType w Hkind Hfuel Hlen)
    as (err & w' & kn & kp & Hrun & Hproj & Hnfree & Hpfree).
  exists err, w'. eexists. split; [exact Hrun|]. rewrite Hproj. simpl.
  split; [reflexivity|]. rewrite !map_app. simpl.
  split; [|split; [|split; [|done]]].
  - intros Hnd. apply NoDup_app. split; [done|]. split; [|apply NoDup_singleton].
    intros x Hx Hx'. apply list_elem_of_singleton in Hx'. by subst.
  - intros Hnd. apply NoDup_app. split; [done|]. split; [|apply NoDup_singleton].
    intros x Hx Hx'. apply list_elem_of_singleton in Hx'. by subst.
  - intros Hall. apply Forall_app. split; [done|]. by repeat constructor.
Qed.

(** X21. The dependency list of an added runtime is a snapshot: it holds
    the names of the datastores configured when the runtime is added, and a
    datastore added afterwards does not enter it, nor the list of any
    earlier runtime. *)
Theorem depends_on_is_a_snapshot (fuel : nat) (configPath : string)
    (rtType : RuntimeType) (dsType : DatastoreType) (w : World) :
  rtType ∈ AvailableRuntimes →
  (length (proj_Runtimes (w_project w)) < fuel)%nat →
  (Z.of_nat (length (proj_Runtimes (w_project w))) < 2 ^ 50)%Z →
  (length (proj_Datastores (w_project w)) < fuel)%nat →
  (Z.of_nat (length (proj_Datastores (w_project w))) < 2 ^ 50)%Z →
  dsType ∉ map ds_Type (proj_Datastores (w_project w)) →
  dsType ∉ map ds_Name (proj_Datastores (w_project w)) →
  ∃ err1 w1 err2 w2 rt ds,
    addRuntime sys ext rnd fuel configPath rtType w = Some (err1, w1)
    ∧ addDatastore sys ext rnd fuel configPath dsType w1 = Some (err2, w2)
    ∧ proj_Runtimes (w_project w2) = proj_Runtimes (w_project w) ++ [rt]
    ∧ proj_Datastores (w_project w2) = proj_Datastores (w_project w) ++ [ds]
    ∧ rt_DependsOn rt = map ds_Name (proj_Datastores (w_project w))
    ∧ ds_Name ds = dsType
    ∧ ds_Name ds ∉ rt_DependsOn rt.
Proof.
  intros Hkind Hfuel Hlen Hfuel' Hlen' Hnokind Hnoname.
  destruct (addRuntime_adds fuel configPath rtType w Hkind Hfuel Hlen)
    as (err1 & w1 & kn & kp & Hrun1 & Hproj1 & _ & _).
  assert (Hdss : proj_Datastores (w_project w1) = proj_Datastores (w_project w))
    by (by rewrite Hproj1).
  assert (Hex : datastoreTypeExists dsType (proj_Datastores (w_project w1)) = false).
  { rewrite Hdss.
    destruct (datastoreTypeExists dsType (proj_Datastores (w_project w))) eqn:E; [|done].
    apply datastoreTypeExists_spec in E as (d & Hd & Ht). exfalso. apply Hnokind.
    rewrite <- Ht. by apply list_elem_of_fmap_2. }
  destruct (addDatastore_adds fuel configPath dsType w1 Hex) as
    (err2 & w2 & k & Hrun2 & Hproj2 & _ & _); [by rewrite Hdss|by rewrite Hdss|].
  exists err1, w1, err2, w2. do 2 eexists.
  split; [exact Hrun1|]. split; [exact Hrun2|].
  rewrite Hproj2. simpl. rewrite Hproj1. simpl.
  split; [reflexivity|]. split; [reflexivity|]. simpl. done.
Qed.

(** X22. When the configuration file cannot be written, [addDatastore] of a
    new kind returns the error of the save and nothing is generated: no
    read of the random source, no bundle written; at most the attempted
    write of the configuration has happened. The project in memory has the
    new datastore all the same. *)
Theorem add_datastore_save_failure (fuel : nat) (configPath : string)
    (dsType : DatastoreType) (w : World) (e : string) :
  (∀ data, os_WriteFile sys configPath data = Some e) →
  dsType ∉ map ds_Type (proj_Datastores (w_project w)) →
  (length (proj_Datastores (w_project w)) < fuel)%nat →
  (Z.of_nat (length (proj_Datastores (w_project w))) < 2 ^ 50)%Z →
  ∃ msg w' ds,
    addDatastore sys ext rnd fuel configPath dsType w = Some (Some msg, w')
    ∧ proj_Datastores (w_project w') = proj_Datastores (w_project w) ++ [ds]
    ∧ ds_Type ds = dsType
    ∧ w_reads w' = w_reads w
    ∧ match yaml_MarshalProject sys (w_project w') with
      | generator.Err m =>
          msg = "failed to marshal config: " +:+ m ∧ w_events w' = w_events w
      | generator.Ok data =>
          msg = "failed to save config: " +:+ e
          ∧ w_events w' = w_events w ++ [EvWriteFile configPath data]
      end.
Proof.
  intros Hwrite Hnokind Hfuel Hlen.
  assert (Hex : datastoreTypeExists dsType (proj_Datastores (w_project w)) = false).
  { destruct (datastoreTypeExists dsType (proj_Datastores (w_project w))) eqn:E; [|done].
    apply datastoreTypeExists_spec in E as (d & Hd & Ht). exfalso. apply Hnokind.
    rewrite <- Ht. by apply list_elem_of_fmap_2. }
  pose proof (datastore_default_port_range dsType) as Hrange.
  destruct (probePort_finds ds_Port (proj_Datastores (w_project w)) fuel 1
              (di_DefaultPort (GetDatastoreInfo dsType)))
    as (k & Hprobe & _ & _); [lia|lia|done|lia|done|].
  rewrite (addDatastore_run _ _ _ _ _ Hex Hprobe), saveAndRegenerate_cases.
  simpl w_project.
  destruct (yaml_MarshalProject sys _) as [data|m] eqn:Hm.
  - rewrite Hwrite. do 3 eexists. split; [reflexivity|]. simpl. rewrite Hm.
    split; [reflexivity|]. done.
  - do 3 eexists. split; [reflexivity|]. simpl. rewrite Hm.
    split; [reflexivity|]. done.
Qed.

(** X23. When [addDatastore] returns without an error, it has, in this
    order, written the configuration file with the encoding of the project
    extended by the new datastore, generated the bundle from that same
    project, handed the bundle to the writer for the project's output
    directory (the working directory when none is set), and reported the
    add; the random source was read for the generation only. The new
    datastore is named after its kind and has the kind's default port as
    internal port. *)
Theorem add_datastore_success_effects (fuel : nat) (configPath : string)
    (dsType : DatastoreType) (w w' : World) :
  addDatastore sys ext rnd fuel configPath dsType w = Some (None, w') →
  ∃ port data out st,
    w_project w' = withDatastore (w_project w) (newDatastore dsType port)
    ∧ yaml_MarshalProject sys (w_project w') = generator.Ok data
    ∧ os_WriteFile sys configPath data = None
    ∧ generator.generate ext rnd (w_project w') (w_reads w) = Some (generator.Ok out, st)
    ∧ WriteToDir sys out (targetDir sys (w_project w')) = None
    ∧ w_reads w' = generator.st_reads st
    ∧ w_events w'
      = w_events w ++
        [ EvWriteFile configPath data;
          EvGenerate (w_project w');
          EvWriteToDir (targetDir sys (w_project w')) out;
          EvPrint ("Added " +:+ di_DisplayName (GetDatastoreInfo dsType)
                     +:+ " (port " +:+ goint.fmt_d port +:+ ")") ].
Proof.
  intros Hrun.
  destruct (datastoreTypeExists dsType (proj_Datastores (w_project w))) eqn:Hex.
  { unfold addDatastore, bind, getProject in Hrun. rewrite Hex in Hrun. discriminate. }
  destruct (probePort fuel
              (foldl (λ m ds, <[ ds_Port ds := true ]> m) ∅
                 (proj_Datastores (w_project w)))
              1 (di_DefaultPort (GetDatastoreInfo dsType))) as [port|] eqn:Hprobe.
  2:{ unfold addDatastore, bind, getProject in Hrun. rewrite Hex, Hprobe in Hrun.
      discriminate. }
  rewrite (addDatastore_run _ _ _ _ _ Hex Hprobe), saveAndRegenerate_cases in Hrun.
  simpl w_project in Hrun. simpl w_reads in Hrun. simpl w_events in Hrun.
  destruct (yaml_MarshalProject sys _) as [data|m] eqn:Hm; [|discriminate].
  destruct (os_WriteFile sys configPath data) as [e|] eqn:Hw; [discriminate|].
  destruct (generator.generate ext rnd _ (w_reads w)) as [[[out|e] st]|] eqn:Hgen;
    [|discriminate|discriminate].
  destruct (WriteToDir sys out _) as [e|] eqn:Hwd; [discriminate|].
  injection Hrun as <-. simpl.
  exists port, data, out, st. rewrite Hm, Hw, Hgen, Hwd, <- app_assoc. done.
Qed.

(** X24. The add path does not check the kind against the enumerations.
    For a runtime kind outside the enumeration [addRuntime] panics on the
    empty framework list, before any effect. A datastore kind outside the
    enumeration is accepted: the project gets a datastore of that kind with
    an empty image tag, the internal port 0 and the first free external
    port from 0 on: a port no datastore of the project has, while every
    port from 0 up to it is the port of one. *)
Theorem add_unknown_kind (fuel : nat) (configPath : string) (kind : string) (w : World) :
  (kind ∉ AvailableRuntimes →
   addRuntime sys ext rnd fuel configPath kind w = None)
  ∧ (kind ∉ AvailableDatastores →
     kind ∉ map ds_Type (proj_Datastores (w_project w)) →
     (length (proj_Datastores (w_project w)) < fuel)%nat →
     (Z.of_nat (length (proj_Datastores (w_project w))) < 2 ^ 50)%Z →
     ∃ err w' ds,
       addDatastore sys ext rnd fuel configPath kind w = Some (err, w')
       ∧ proj_Datastores (w_project w') = proj_Datastores (w_project w) ++ [ds]
       ∧ ds_Type ds = kind ∧ ds_Name ds = kind ∧ ds_Tag ds = ""
       ∧ ds_InternalPort ds = 0%Z
       ∧ (0 ≤ ds_Port ds ≤ Z.of_nat (length (proj_Datastores (w_project w))))%Z
       ∧ (ds_Port ds ∉ map ds_Port (proj_Datastores (w_project w)))
       ∧ ∀ port : Z, (0 ≤ port < ds_Port ds)%Z →
           port ∈ map ds_Port (proj_Datastores (w_project w))).
Proof.
  split.
  - intros Hkind. unfold addRuntime, bind, getProject.
    by rewrite (GetRuntimeInfo_unknown kind Hkind).
  - intros Hkind Hnokind Hfuel Hlen.
    assert (Hex : datastoreTypeExists kind (proj_Datastores (w_project w)) = false).
    { destruct (datastoreTypeExists kind (proj_Datastores (w_project w))) eqn:E; [|done].
      apply datastoreTypeExists_spec in E as (d & Hd & Ht). exfalso. apply Hnokind.
      rewrite <- Ht. by apply list_elem_of_fmap_2. }
    destruct (addDatastore_adds fuel configPath kind w Hex Hfuel Hlen)
      as (err & w' & k & Hrun & Hproj & Hfree & Hk & Hused).
    exists err, w'. eexists. split; [exact Hrun|]. rewrite Hproj. simpl.
    split; [reflexivity|]. simpl.
    rewrite (GetDatastoreInfo_unknown kind Hkind) in *. simpl in *.
    destruct (getDefaultTag_unknown kind Hkind) as [_ ->].
    repeat split; try done; try lia.
    intros port Hport. specialize (Hused (Z.to_nat port)).
    rewrite Z2Nat.id in Hused by lia. apply Hused. lia.
Qed.

End Commands.

(** *** The add path on concrete configurations *)

Lemma add_datastore_keeps_distinct_witness :
  ∃ err w',
    addDatastore examples.sys0 examples.ext0 examples.rndFixed 8 "stackgen.yaml"
      DatastoreRedisStack examples.world0 = Some (err, w')
    ∧ (NoDup (map ds_Type (proj_Datastores (w_project examples.world0))) →
       NoDup (map ds_Type (proj_Datastores (w_project w'))))
    ∧ (NoDup (map ds_Port (proj_Datastores (w_project examples.world0))) →
       NoDup (map ds_Port (proj_Datastores (w_project w'))))
    ∧ (Forall (λ ds, ds_Name ds = ds_Type ds)
         (proj_Datastores (w_project examples.world0)) →
       Forall (λ ds, ds_Name ds = ds_Type ds) (proj_Datastores (w_project w'))
       ∧ map ds_Name (proj_Datastores (w_project w'))
         = map ds_Type (proj_Datastores (w_project w')))
    ∧ proj_Runtimes (w_project w') = proj_Runtimes (w_project examples.world0).
Proof.
  apply (add_datastore_keeps_distinct examples.sys0 examples.ext0 examples.rndFixed
           8 "stackgen.yaml" DatastoreRedisStack examples.world0).
  - simpl. lia.
  - simpl. lia.
Defined.

Lemma add_runtime_keeps_distinct_witness :
  ∃ err w' rt,
    addRuntime examples.sys0 examples.ext0 examples.rndFixed 8 "stackgen.yaml"
      RuntimeGo examples.world0 = Some (err, w')
    ∧ proj_Runtimes (w_project w') = proj_Runtimes (w_project examples.world0) ++ [rt]
    ∧ (NoDup (map rt_Name (proj_Runtimes (w_project examples.world0))) →
       NoDup (map rt_Name (proj_Runtimes (w_project w'))))
    ∧ (NoDup (map rt_Port (proj_Runtimes (w_project examples.world0))) →
       NoDup (map rt_Port (proj_Runtimes (w_project w'))))
    ∧ (Forall (λ rt, rt_BuildContext rt = rt_Name rt)
         (proj_Runtimes (w_project examples.world0)) →
       Forall (λ rt, rt_BuildContext rt = rt_Name rt) (proj_Runtimes (w_project w')))
    ∧ rt_InternalPort rt = ri_DefaultPort (GetRuntimeInfo RuntimeGo)
    ∧ rt_Dockerfile rt = "Dockerfile"
    ∧ proj_Datastores (w_project w') = proj_Datastores (w_project examples.world0).
Proof.
  apply (add_runtime_keeps_distinct examples.sys0 examples.ext0 examples.rndFixed
           8 "stackgen.yaml" RuntimeGo examples.world0).
  - apply list_elem_of_In. simpl. tauto.
  - simpl. lia.
  - simpl. lia.
Defined.

Lemma depends_on_is_a_snapshot_witness :
  ∃ err1 w1 err2 w2 rt ds,
    addRuntime examples.sys0 examples.ext0 examples.rndFixed 8 "stackgen.yaml"
      RuntimeNode examples.world0 = Some (err1, w1)
    ∧ addDatastore examples.sys0 examples.ext0 examples.rndFixed 8 "stackgen.yaml"
        DatastoreNeo4j w1 = Some (err2, w2)
    ∧ proj_Runtimes (w_project w2) = proj_Runtimes (w_project examples.world0) ++ [rt]
    ∧ proj_Datastores (w_project w2)
      = proj_Datastores (w_project examples.world0) ++ [ds]
    ∧ rt_DependsOn rt = map ds_Name (proj_Datastores (w_project examples.world0))
    ∧ ds_Name ds = DatastoreNeo4j
    ∧ ds_Name ds ∉ rt_DependsOn rt.
Proof.
  apply (depends_on_is_a_snapshot examples.sys0 examples.ext0 examples.rndFixed
           8 "stackgen.yaml" RuntimeNode DatastoreNeo4j examples.world0).
  - apply list_elem_of_In. simpl. tauto.
  - simpl. lia.
  - simpl. lia.
  - simpl. lia.
  - simpl. lia.
  - simpl. rewrite !elem_of_cons, elem_of_nil. intuition discriminate.
  - simpl. rewrite !elem_of_cons, elem_of_nil. intuition discriminate.
Defined.

Lemma add_datastore_save_failure_witness :
  ∃ msg w' ds,
    addDatastore examples.sysReadOnly examples.ext0 examples.rndFixed 8 "stackgen.yaml"
      DatastoreMySQL examples.world0 = Some (Some msg, w')
    ∧ proj_Datastores (w_project w')
      = proj_Datastores (w_project examples.world0) ++ [ds]
    ∧ ds_Type ds = DatastoreMySQL
    ∧ w_reads w' = w_reads examples.world0
    ∧ match yaml_MarshalProject examples.sysReadOnly (w_project w') with
      | generator.Err m =>
          msg = "failed to marshal config: " +:+ m
          ∧ w_events w' = w_events examples.world0
      | generator.Ok data =>
          msg = "failed to save config: " +:+ "read-only file system"
          ∧ w_events w' = w_events examples.world0 ++ [EvWriteFile "stackgen.yaml" data]
      end.
Proof.
  apply (add_datastore_save_failure examples.sysReadOnly examples.ext0 examples.rndFixed
           8 "stackgen.yaml" DatastoreMySQL examples.world0 "read-only file system").
  - intros data. reflexivity.
  - simpl. rewrite !elem_of_cons, elem_of_nil. intuition discriminate.
  - simpl. lia.
  - simpl. lia.
Defined.

Lemma add_datastore_success_effects_witness :
  ∃ port data out st,
    let w' := examples.worldAfter
                (addDatastore examples.sys0 examples.ext0 examples.rndFixed 8
                   "stackgen.yaml" DatastoreMySQL examples.world0) in
    w_project w'
      = withDatastore (w_project examples.world0) (newDatastore DatastoreMySQL port)
    ∧ yaml_MarshalProject examples.sys0 (w_project w') = generator.Ok data
    ∧ os_WriteFile examples.sys0 "stackgen.yaml" data = None
    ∧ generator.generate examples.ext0 examples.rndFixed (w_project w')
        (w_reads examples.world0) = Some (generator.Ok out, st)
    ∧ WriteToDir examples.sys0 out (targetDir examples.sys0 (w_project w')) = None
    ∧ w_reads w' = generator.st_reads st
    ∧ w_events w'
      = w_events examples.world0 ++
        [ EvWriteFile "stackgen.yaml" data;
          EvGenerate (w_project w');
          EvWriteToDir (targetDir examples.sys0 (w_project w')) out;
          EvPrint ("Added " +:+ di_DisplayName (GetDatastoreInfo DatastoreMySQL)
                     +:+ " (port " +:+ goint.fmt_d port +:+ ")") ].
Proof.
  apply (add_datastore_success_effects examples.sys0 examples.ext0 examples.rndFixed
           8 "stackgen.yaml" DatastoreMySQL examples.world0).
  vm_compute. reflexivity.
Defined.

(** A kind outside the enumerations: the runtime add panics, the datastore
    add goes through on port 0. *)
Example add_unknown_kind_mongodb :
  addRuntime examples.sys0 examples.ext0 examples.rndFixed 8 "stackgen.yaml"
    "mongodb" examples.world0 = None
  ∧ match addDatastore examples.sys0 examples.ext0 examples.rndFixed 8 "stackgen.yaml"
            "mongodb" examples.world0 with
    | Some (None, w') =>
        map (λ ds, (ds_Type ds, ds_Tag ds, ds_Port ds)) (proj_Datastores (w_project w'))
        = [("postgres", "1", 5432%Z); ("redis", "1", 6379%Z); ("mongodb", "", 0%Z)]
    | _ => False
    end.
Proof. vm_compute. split; reflexivity. Qed.

End AddFacts.

(* ===================================================================== *)
(** ** The commands around the generator *)
(* ===================================================================== *)

Module CommandFacts.
Import models gost cmd CatalogFacts CmdFacts PresetFacts AddFacts.

(** The configuration file a command works on. *)
Definition configPathOf (sh : Shell) : string :=
  if String.eqb (cfgFile sh) "" then "stackgen.yaml" else cfgFile sh.


(** The directory [runGenerate] writes to, and the file it looks for before
    it asks. *)
Definition generateDir (sh : Shell) (sys : System) (project : Project) : string :=
  let outputDir :=
    if String.eqb (composeOut sh) "" then proj_OutputDir project
    else filepath_Dir sh (composeOut sh) in
  filepath_Abs sys (if String.eqb outputDir "" then "." else outputDir).

Definition generateTarget (sh : Shell) (sys : System) (project : Project) : string :=
  filepath_Join sh (generateDir sh sys project)
    (if String.eqb (composeOut sh) "" then "docker-compose.yml"
     else filepath_Base sh (composeOut sh)).

Definition isPrint (ev : Event) : Prop :=
  match ev with
  | EvPrint _ => True
  | _ => False
  end.

Section Commands.
Context (sh : Shell) (sys : System) (ext : generator.Externals)
        (rnd : generator.RandSource).

Lemma runAdd_loaded (fuel : nat) (args : list string) (w : World) (project : Project) :
  loadForAdd sh (configPathOf sh) = generator.Ok project →
  runAdd sh sys ext rnd fuel args w
  = match args with
    | args0 :: args1 :: _ =>
        let category := strings_ToLower sh args0 in
        let typeName := strings_ToLower sh args1 in
        if String.eqb category "datastore" || String.eqb category "ds"
           || String.eqb category "d" then
          addDatastore sys ext rnd fuel (configPathOf sh) typeName
            (mkWorld project (w_reads w) (w_events w))
        else if String.eqb category "runtime" || String.eqb category "rt"
                || String.eqb category "r" then
          addRuntime sys ext rnd fuel (configPathOf sh) typeName
            (mkWorld project (w_reads w) (w_events w))
        else
          Some (Some ("unknown category: " +:+ category
                        +:+ ". Use: datastore or runtime"),
                mkWorld project (w_reads w) (w_events w))
    | _ => interactiveAdd sys ext rnd fuel (configPathOf sh)
             (mkWorld project (w_reads w) (w_events w))
    end.
Proof.
  intros Hload. unfold runAdd. fold (configPathOf sh). rewrite Hload.
  unfold bind at 1, setProject.
  destruct args as [|a0 [|a1 rest]]; try reflexivity.
  cbv zeta.
  destruct (String.eqb (strings_ToLower sh a0) "datastore"
            || String.eqb (strings_ToLower sh a0) "ds"
            || String.eqb (strings_ToLower sh a0) "d"); [reflexivity|].
  destruct (String.eqb (strings_ToLower sh a0) "runtime"
            || String.eqb (strings_ToLower sh a0) "rt"
            || String.eqb (strings_ToLower sh a0) "r"); reflexivity.
Qed.

Lemma category_datastore (category : string) :
  category ∈ ["datastore"; "ds"; "d"] →
  String.eqb category "datastore" || String.eqb category "ds" || String.eqb category "d"
  = true.
Proof.
  rewrite !elem_of_cons, elem_of_nil. intros [->|[->|[->|[]]]]; reflexivity.
Qed.

Lemma category_unknown (category : string) :
  category ∉ ["datastore"; "ds"; "d"; "runtime"; "rt"; "r"] →
  String.eqb category "datastore" || String.eqb category "ds" || String.eqb category "d"
  = false
  ∧ String.eqb category "runtime" || String.eqb category "rt" || String.eqb category "r"
    = false.
Proof.
  rewrite !elem_of_cons, elem_of_nil. intros Hnot.
  rewrite !orb_false_iff.
  repeat split; apply String.eqb_neq; intros ->; apply Hnot; tauto.
Qed.

(** X25. [runAdd] rejects before any effect. Without a configuration file
    and without a compose file, with a configuration file that cannot be
    read or decoded, with a category that is none of the six spellings
    after lowering, and with a datastore kind (after lowering) that the
    configuration already has, it returns the error and has written
    nothing, printed nothing, generated nothing and read no randomness. *)
Theorem run_add_rejections (fuel : nat) (args : list string) (w : World) :
  let configPath := configPathOf sh in
  (os_Stat sh configPath = StatNotExist →
   os_Stat sh "docker-compose.yml" = StatNotExist →
   runAdd sh sys ext rnd fuel args w
   = Some (Some "no configuration found. Run 'stackgen init' first", w))
  ∧ (∀ e, os_Stat sh configPath ≠ StatNotExist →
          os_ReadFile sh configPath = generator.Err e →
          runAdd sh sys ext rnd fuel args w
          = Some (Some ("failed to read config file: " +:+ e), w))
  ∧ (∀ data e, os_Stat sh configPath ≠ StatNotExist →
               os_ReadFile sh configPath = generator.Ok data →
               yaml_UnmarshalProject sh data = generator.Err e →
               runAdd sh sys ext rnd fuel args w
               = Some (Some ("failed to parse config file: " +:+ e), w))
  ∧ (∀ project args0 args1 rest,
       args = args0 :: args1 :: rest →
       loadForAdd sh configPath = generator.Ok project →
       let category := strings_ToLower sh args0 in
       let typeName := strings_ToLower sh args1 in
       (category ∉ ["datastore"; "ds"; "d"; "runtime"; "rt"; "r"] →
        runAdd sh sys ext rnd fuel args w
        = Some (Some ("unknown category: " +:+ category
                        +:+ ". Use: datastore or runtime"),
                mkWorld project (w_reads w) (w_events w)))
       ∧ (category ∈ ["datastore"; "ds"; "d"] →
          typeName ∈ map ds_Type (proj_Datastores project) →
          runAdd sh sys ext rnd fuel args w
          = Some (Some (typeName +:+ " is already in the configuration"),
                  mkWorld project (w_reads w) (w_events w)))).
Proof.
  cbv zeta. split; [|split; [|split]].
  - intros H1 H2. unfold runAdd, loadForAdd. fold (configPathOf sh).
    by rewrite H1, H2.
  - intros e H1 H2. unfold runAdd, loadForAdd. fold (configPathOf sh).
    rewrite H2. by destruct (os_Stat sh (configPathOf sh)).
  - intros data e H1 H2 H3. unfold runAdd, loadForAdd. fold (configPathOf sh).
    rewrite H2, H3. by destruct (os_Stat sh (configPathOf sh)).
  - intros project a0 a1 rest -> Hload. split.
    + intros Hcat. rewrite (runAdd_loaded _ _ _ _ Hload). cbv zeta.
      destruct (category_unknown _ Hcat) as [-> ->]. reflexivity.
    + intros Hcat Hdup. rewrite (runAdd_loaded _ _ _ _ Hload). cbv zeta.
      rewrite (category_datastore _ Hcat).
      assert (datastoreTypeExists (strings_ToLower sh a1) (proj_Datastores project)
              = true) as Hex.
      { apply datastoreTypeExists_spec.
        apply list_elem_of_fmap in Hdup as (d & Hd & Hin). eauto. }
      unfold addDatastore, bind, getProject. cbn [w_project fst snd]. cbv beta iota.
      cbn [w_project]. by rewrite Hex.
Qed.


(** *** [runGenerate] *)

(** The messages of [GeneratedOutput.Print]. *)
Definition printEvents (out : generator.GeneratedOutput) : list Event :=
  [ EvPrint "=== docker-compose.yml ==="; EvPrint (generator.ComposeYAML out);
    EvPrint "=== .env ==="; EvPrint (generator.EnvFile out);
    EvPrint "=== .env.example ==="; EvPrint (generator.EnvExampleFile out) ]
  ++ flat_map (λ nc, [EvPrint ("=== " +:+ nc.1 +:+ "/Dockerfile ==="); EvPrint nc.2])
       (range_Dockerfiles sh (generator.Dockerfiles out)).

Lemma printDockerfiles_run (l : list (string * string)) (w : World) :
  printDockerfiles l w
  = Some (tt, mkWorld (w_project w) (w_reads w)
                (w_events w ++
                 flat_map (λ nc, [EvPrint ("=== " +:+ nc.1 +:+ "/Dockerfile ===");
                                  EvPrint nc.2]) l)).
Proof.
  revert w. induction l as [|[name content] l IH]; intros w; simpl.
  - rewrite app_nil_r. by destruct w.
  - unfold bind, emit. rewrite IH. simpl. by rewrite <- !app_assoc.
Qed.

Lemma Print_run (out : generator.GeneratedOutput) (w : World) :
  GeneratedOutput_Print sh out w
  = Some (tt, mkWorld (w_project w) (w_reads w) (w_events w ++ printEvents out)).
Proof.
  unfold GeneratedOutput_Print, bind, emit. rewrite printDockerfiles_run. simpl.
  unfold printEvents. by rewrite <- !app_assoc.
Qed.

Lemma printEvents_prints (out : generator.GeneratedOutput) :
  Forall isPrint (printEvents out).
Proof.
  unfold printEvents. apply Forall_app. split; [by repeat constructor|].
  induction (range_Dockerfiles sh (generator.Dockerfiles out)) as [|nc l IH]; simpl.
  - constructor.
  - by repeat constructor.
Qed.

(** X27. What [runGenerate] does with a bundle, once the configuration is
    loaded and generated: under --dry-run it only prints and returns no
    error; otherwise the bundle goes to the directory of --compose-out when
    that flag is set (the output directory of the project is then ignored),
    else to the project's output directory, else to the working directory.
    Without --force it asks first only when the compose file name exists in
    that directory; a declined question ends the command without an error
    and without a write, although the generation has run. The file name of
    --compose-out is used for the question only. *)
Theorem generate_write_decision (w : World) (data : string) (project : Project)
    (out : generator.GeneratedOutput) (st : generator.State) :
  os_Stat sh (configPathOf sh) ≠ StatNotExist →
  os_ReadFile sh (configPathOf sh) = generator.Ok data →
  yaml_UnmarshalProject sh data = generator.Ok project →
  generator.generate ext rnd project (w_reads w) = Some (generator.Ok out, st) →
  let dir := generateDir sh sys project in
  let question := "File " +:+ generateTarget sh sys project +:+ " exists. Overwrite" in
  ∃ err w' evs,
    runGenerate sh sys ext rnd w = Some (err, w')
    ∧ w_project w' = project
    ∧ w_reads w' = generator.st_reads st
    ∧ w_events w'
      = w_events w
        ++ [EvPrint ("Generating from " +:+ configPathOf sh +:+ "...");
            EvGenerate project]
        ++ evs
    ∧ (dryRun sh = true → err = None ∧ Forall isPrint evs)
    ∧ (dryRun sh = false → forceWrite sh = false →
       os_Stat sh (generateTarget sh sys project) = StatOk →
       confirm_Run sh question ≠ None →
       err = None ∧ evs = [EvPrint "Cancelled."])
    ∧ (dryRun sh = false →
       forceWrite sh = true
       ∨ os_Stat sh (generateTarget sh sys project) ≠ StatOk
       ∨ confirm_Run sh question = None →
       match WriteToDir sys out dir with
       | Some e =>
           err = Some ("failed to write files: " +:+ e)
           ∧ evs = [EvWriteToDir dir out]
       | None =>
           err = None
           ∧ evs = [EvWriteToDir dir out;
                    EvPrint "Configuration regenerated successfully!"]
       end).
Proof.
  intros Hstat Hread Hparse Hgen. cbv zeta.
  unfold runGenerate. fold (configPathOf sh).
  assert (Hbody : ∀ (X : Type) (a b : X),
            match os_Stat sh (configPathOf sh) with
            | StatNotExist => a
            | _ => b
            end = b).
  { intros X a b. by destruct (os_Stat sh (configPathOf sh)). }
  rewrite Hbody, Hread, Hparse.
  unfold bind at 1, setProject. unfold bind at 1, emit at 1.
  unfold bind at 1, New_Generate. unfold bind at 1, emit at 1.
  simpl w_reads. rewrite Hgen.
  fold (generateDir sh sys project). fold (generateTarget sh sys project).
  destruct (dryRun sh) eqn:Hdry.
  - unfold bind at 1, emit at 1. unfold bind at 1. rewrite Print_run. simpl.
    do 2 eexists. exists (EvPrint "Dry run - previewing generated files:" :: printEvents out).
    split; [reflexivity|]. simpl. split; [done|]. split; [done|].
    split; [by rewrite <- !app_assoc|].
    split; [|split; intros; discriminate].
    intros _. split; [done|]. constructor; [done|apply printEvents_prints].
  - destruct (forceWrite sh) eqn:Hforce.
    + unfold bind at 1, emit at 1. simpl.
      destruct (WriteToDir sys out (generateDir sh sys project)) as [e|] eqn:Hw.
      * do 2 eexists. exists [EvWriteToDir (generateDir sh sys project) out].
        split; [reflexivity|]. simpl. split; [done|]. split; [done|].
        split; [by rewrite <- !app_assoc|].
        split; [intros; discriminate|]. split; [intros; discriminate|].
        intros _ _. done.
      * unfold bind, emit, ret. simpl.
        do 2 eexists.
        exists [EvWriteToDir (generateDir sh sys project) out;
                EvPrint "Configuration regenerated successfully!"].
        split; [reflexivity|]. simpl. split; [done|]. split; [done|].
        split; [by rewrite <- !app_assoc|].
        split; [intros; discriminate|]. split; [intros; discriminate|].
        intros _ _. done.
    + destruct (os_Stat sh (generateTarget sh sys project)) eqn:Htarget;
        [destruct (confirm_Run sh _) as [c|] eqn:Hconfirm|..].
      * (* declined *)
        unfold bind, emit, ret. simpl.
        do 2 eexists. exists [EvPrint "Cancelled."].
        split; [reflexivity|]. simpl. split; [done|]. split; [done|].
        split; [by rewrite <- !app_assoc|].
        split; [intros; discriminate|]. split; [done|].
        intros _ [?|[?|?]]; congruence.
      * (* confirmed *)
        unfold bind at 1, emit at 1. simpl.
        destruct (WriteToDir sys out (generateDir sh sys project)) as [e|] eqn:Hw.
        -- do 2 eexists. exists [EvWriteToDir (generateDir sh sys project) out].
           split; [reflexivity|]. simpl. split; [done|]. split; [done|].
           split; [by rewrite <- !app_assoc|].
           split; [intros; discriminate|]. split; [intros; congruence|]. done.
        -- unfold bind, emit, ret. simpl. do 2 eexists.
           exists [EvWriteToDir (generateDir sh sys project) out;
                   EvPrint "Configuration regenerated successfully!"].
           split; [reflexivity|]. simpl. split; [done|]. split; [done|].
           split; [by rewrite <- !app_assoc|].
           split; [intros; discriminate|]. split; [intros; congruence|]. done.
      * unfold bind at 1, emit at 1. simpl.
        destruct (WriteToDir sys out (generateDir sh sys project)) as [e|] eqn:Hw.
        -- do 2 eexists. exists [EvWriteToDir (generateDir sh sys project) out].
           split; [reflexivity|]. simpl. split; [done|]. split; [done|].
           split; [by rewrite <- !app_assoc|].
           split; [intros; discriminate|]. split; [intros; congruence|]. done.
        -- unfold bind, emit, ret. simpl. do 2 eexists.
           exists [EvWriteToDir (generateDir sh sys project) out;
                   EvPrint "Configuration regenerated successfully!"].
           split; [reflexivity|]. simpl. split; [done|]. split; [done|].
           split; [by rewrite <- !app_assoc|].
           split; [intros; discriminate|]. split; [intros; congruence|]. done.
      * unfold bind at 1, emit at 1. simpl.
        destruct (WriteToDir sys out (generateDir sh sys project)) as [e|] eqn:Hw.
        -- do 2 eexists. exists [EvWriteToDir (generateDir sh sys project) out].
           split; [reflexivity|]. simpl. split; [done|]. split; [done|].
           split; [by rewrite <- !app_assoc|].
           split; [intros; discriminate|]. split; [intros; congruence|]. done.
        -- unfold bind, emit, ret. simpl. do 2 eexists.
           exists [EvWriteToDir (generateDir sh sys project) out;
                   EvPrint "Configuration regenerated successfully!"].
           split; [reflexivity|]. simpl. split; [done|]. split; [done|].
           split; [by rewrite <- !app_assoc|].
           split; [intros; discriminate|]. split; [intros; congruence|]. done.
Qed.

End Commands.

(** *** The commands on concrete directories *)

(** Upper-case arguments are lowered; the duplicate is rejected. *)
Example run_add_duplicate_upper_case :
  runAdd (examples.shell ["stackgen.yaml"] (w_project examples.world0) false false "")
    examples.sys0 examples.ext0 examples.rndFixed 8 ["DS"; "Redis"]
    (mkWorld (examples.project [] []) 0 [])
  = Some (Some "redis is already in the configuration", examples.world0).
Proof. vm_compute. reflexivity. Qed.

Example run_add_unknown_category :
  runAdd (examples.shell ["stackgen.yaml"] (w_project examples.world0) false false "")
    examples.sys0 examples.ext0 examples.rndFixed 8 ["database"; "redis"]
    (mkWorld (examples.project [] []) 0 [])
  = Some (Some "unknown category: database. Use: datastore or runtime", examples.world0).
Proof. vm_compute. reflexivity. Qed.


Lemma generate_write_decision_witness :
  let sh := examples.shell ["stackgen.yaml"; "/work/./docker-compose.yml"]
              (w_project examples.world0) false false "" in
  let project := w_project examples.world0 in
  let out := examples.generated project in
  let st := examples.generatedState project in
  let dir := generateDir sh examples.sys0 project in
  let question :=
    "File " +:+ generateTarget sh examples.sys0 project +:+ " exists. Overwrite" in
  ∃ err w' evs,
    runGenerate sh examples.sys0 examples.ext0 examples.rndFixed
      (mkWorld (examples.project [] []) 0 []) = Some (err, w')
    ∧ w_project w' = project
    ∧ w_reads w' = generator.st_reads st
    ∧ w_events w'
      = [] ++ [EvPrint ("Generating from " +:+ configPathOf sh +:+ "...");
               EvGenerate project]
        ++ evs
    ∧ (dryRun sh = true → err = None ∧ Forall isPrint evs)
    ∧ (dryRun sh = false → forceWrite sh = false →
       os_Stat sh (generateTarget sh examples.sys0 project) = StatOk →
       confirm_Run sh question ≠ None →
       err = None ∧ evs = [EvPrint "Cancelled."])
    ∧ (dryRun sh = false →
       forceWrite sh = true
       ∨ os_Stat sh (generateTarget sh examples.sys0 project) ≠ StatOk
       ∨ confirm_Run sh question = None →
       match WriteToDir examples.sys0 out dir with
       | Some e =>
           err = Some ("failed to write files: " +:+ e)
           ∧ evs = [EvWriteToDir dir out]
       | None =>
           err = None
           ∧ evs = [EvWriteToDir dir out;
                    EvPrint "Configuration regenerated successfully!"]
       end).
Proof.
  apply (generate_write_decision
           (examples.shell ["stackgen.yaml"; "/work/./docker-compose.yml"]
              (w_project examples.world0) false false "")
           examples.sys0 examples.ext0 examples.rndFixed
           (mkWorld (examples.project [] []) 0 [])
           "contents of stackgen.yaml" (w_project examples.world0)
           (examples.generated (w_project examples.world0))
           (examples.generatedState (w_project examples.world0))).
  - discriminate.
  - reflexivity.
  - reflexivity.
  - vm_compute. reflexivity.
Defined.

(** The declined question: the command ends without an error and without a
    write, after two reads of the random source. *)
Example generate_declined :
  match runGenerate
          (examples.shell ["stackgen.yaml"; "/work/./docker-compose.yml"]
             (w_project examples.world0) false false "")
          examples.sys0 examples.ext0 examples.rndFixed
          (mkWorld (examples.project [] []) 0 []) with
  | Some (None, w') =>
      w_reads w' = 2%nat
      ∧ w_events w' = [EvPrint "Generating from stackgen.yaml...";
                       EvGenerate (w_project examples.world0);
                       EvPrint "Cancelled."]
  | _ => False
  end.
Proof. vm_compute. split; reflexivity. Qed.

End CommandFacts.

(* ===================================================================== *)
(** ** The interactive selection of init *)
(* ===================================================================== *)

Module InitFacts.
Import models gost cmd CatalogFacts ProfilesFacts CmdFacts PresetFacts AddFacts
       CommandFacts.

(** The kinds of the item tables, [Done] last. *)
Definition dsTypes : list string := map (λ item, item.1.1.2) datastoreItems.
Definition rtTypes : list string := map (λ item, item.1.2) runtimeItems.

(** The kind an answer points at. *)
Definition kindOf (types : list string) (a : Answer) : string :=
  default "" (types !! an_idx a).

(** How often a kind occurs in a list, and how often it was picked. *)
Definition occurrences (t : string) (l : list string) : nat :=
  length (filter (λ x, x = t) l).

Definition toggles (types : list string) (t : string) (picks : list Answer) : nat :=
  occurrences t (map (kindOf types) picks).

(** An answer that picks a kind, without an error. *)
Definition picksKind (types : list string) (a : Answer) : Prop :=
  an_err a = None ∧ ∃ t, types !! an_idx a = Some t ∧ t ≠ "".

Lemma occurrences_app (t : string) (l k : list string) :
  occurrences t (l ++ k) = (occurrences t l + occurrences t k)%nat.
Proof. unfold occurrences. by rewrite filter_app, length_app. Qed.

Lemma occurrences_singleton (t x : string) :
  occurrences t [x] = if decide (x = t) then 1%nat else 0%nat.
Proof.
  unfold occurrences. rewrite filter_cons, filter_nil. by destruct (decide (x = t)).
Qed.

Lemma occurrences_filter (t : string) (p : string → bool) (l : list string) :
  occurrences t (List.filter p l) = if p t then occurrences t l else 0%nat.
Proof.
  unfold occurrences. induction l as [|x l IH]; simpl.
  - by destruct (p t).
  - destruct (p x) eqn:Hx.
    + rewrite !filter_cons. destruct (decide (x = t)) as [->|Hne].
      * rewrite Hx in *. simpl. by rewrite IH.
      * by rewrite IH.
    + rewrite filter_cons. destruct (decide (x = t)) as [->|Hne].
      * rewrite Hx in *. done.
      * by rewrite IH.
Qed.

(** The state of the loop after the picks so far: a kind is on exactly when
    it was picked an odd number of times, and it was appended once for every
    time it was switched on. *)
Definition toggleInv (count : string → nat) (selected : list string)
    (selectedMap : gmap string bool) : Prop :=
  ∀ t, default false (selectedMap !! t) = Nat.odd (count t)
       ∧ (2 * occurrences t selected
          = count t + (if Nat.odd (count t) then 1 else 0))%nat.

Lemma odd_S (n : nat) : Nat.odd (S n) = negb (Nat.odd n).
Proof. by rewrite Nat.odd_succ, <- Nat.negb_odd. Qed.

Lemma toggleLoop_counts (types : list string) (picks : list Answer) (done : Answer)
    (rest : list Answer) (count : string → nat) (selected : list string)
    (selectedMap : gmap string bool) :
  Forall (picksKind types) picks →
  an_err done = None → types !! an_idx done = Some "" →
  toggleInv count selected selectedMap →
  ∃ result,
    toggleLoop types (picks ++ done :: rest) selected selectedMap
      = Some (generator.Ok result, rest)
    ∧ (∀ t, let n := (count t + toggles types t picks)%nat in
            (2 * occurrences t result = if Nat.odd n then n + 1 else 0)%nat)
    ∧ (∀ t, t ∈ result → t ∈ selected ∨ t ∈ map (kindOf types) picks).
Proof.
  intros Hpicks Herr Hdone. revert count selected selectedMap.
  induction Hpicks as [|a picks [Ha (t0 & Hidx & Hne)] _ IH];
    intros count selected selectedMap Hinv.
  - simpl. rewrite Herr, Hdone. simpl. eexists. split; [reflexivity|]. split.
    + intros t. cbv zeta. destruct (Hinv t) as [Hon Hcount].
      replace (count t + toggles types t [])%nat with (count t)
        by (unfold toggles, occurrences; simpl; lia).
      rewrite occurrences_filter, Hon. revert Hcount.
      destruct (Nat.odd (count t)); lia.
    + intros t Ht. left. apply list_elem_of_In in Ht. apply filter_In in Ht as [Ht _].
      by apply list_elem_of_In.
  - simpl. rewrite Ha, Hidx.
    destruct (String.eqb_spec t0 "") as [->|_]; [done|].
    assert (Hkind : kindOf types a = t0) by (unfold kindOf; by rewrite Hidx).
    set (count' := λ t, (count t + (if decide (t0 = t) then 1 else 0))%nat).
    assert (Hshift : ∀ t, (count' t + toggles types t picks
                           = count t + toggles types t (a :: picks))%nat).
    { intros t. unfold count', toggles. simpl. rewrite Hkind.
      change (t0 :: map (kindOf types) picks) with ([t0] ++ map (kindOf types) picks).
      rewrite occurrences_app, occurrences_singleton. lia. }
    destruct (default false (selectedMap !! t0)) eqn:Hon.
    + destruct (IH count' selected (delete t0 selectedMap)) as (result & Hrun & Hres & Hin).
      { intros t. unfold count'. destruct (Hinv t) as [Hm Hc].
        destruct (decide (t0 = t)) as [<-|Hne'].
        - rewrite lookup_delete_eq. simpl. rewrite Nat.add_1_r, odd_S.
          rewrite Hon in Hm. rewrite <- Hm in *. simpl. split; [done|lia].
        - rewrite lookup_delete_ne by done. by rewrite Nat.add_0_r. }
      exists result. split; [exact Hrun|]. split.
      * intros t. specialize (Hres t). cbv zeta in *. by rewrite Hshift in Hres.
      * intros t Ht. destruct (Hin t Ht) as [?|?]; [by left|right].
        simpl. by right.
    + destruct (IH count' (selected ++ [t0]) (<[ t0 := true ]> selectedMap))
        as (result & Hrun & Hres & Hin).
      { intros t. unfold count'. destruct (Hinv t) as [Hm Hc].
        rewrite occurrences_app, occurrences_singleton.
        destruct (decide (t0 = t)) as [<-|Hne'].
        - rewrite lookup_insert_eq. simpl. rewrite Nat.add_1_r, odd_S.
          rewrite Hon in Hm. rewrite <- Hm in *. simpl. split; [done|lia].
        - rewrite lookup_insert_ne by done. by rewrite !Nat.add_0_r. }
      exists result. split; [exact Hrun|]. split.
      * intros t. specialize (Hres t). cbv zeta in *. by rewrite Hshift in Hres.
      * intros t Ht. destruct (Hin t Ht) as [Hsel|?]; [|right; simpl; by right].
        apply elem_of_app in Hsel as [?|Hsel]; [by left|].
        apply list_elem_of_singleton in Hsel as ->. right. simpl. rewrite Hkind. by left.
Qed.

(** Kinds picked once each come back in the order of the picks. *)
Lemma toggleLoop_fresh (types : list string) (picks : list Answer) (done : Answer)
    (rest : list Answer) (selected : list string) (selectedMap : gmap string bool) :
  Forall (picksKind types) picks →
  an_err done = None → types !! an_idx done = Some "" →
  NoDup (map (kindOf types) picks) →
  (∀ a, a ∈ picks → default false (selectedMap !! kindOf types a) = false) →
  (∀ t, t ∈ selected → default false (selectedMap !! t) = true) →
  toggleLoop types (picks ++ done :: rest) selected selectedMap
  = Some (generator.Ok (selected ++ map (kindOf types) picks), rest).
Proof.
  intros Hpicks Herr Hdone. revert selected selectedMap.
  induction Hpicks as [|a picks [Ha (t0 & Hidx & Hne)] _ IH];
    intros selected selectedMap Hnd Hoff Hon.
  - simpl. rewrite Herr, Hdone. simpl. rewrite app_nil_r. do 2 f_equal.
    f_equal. induction selected as [|x l IHl]; [done|]. simpl.
    rewrite (Hon x) by left. f_equal. apply IHl. intros t Ht. apply Hon. by right.
  - simpl. rewrite Ha, Hidx.
    destruct (String.eqb_spec t0 "") as [->|_]; [done|].
    assert (Hkind : kindOf types a = t0) by (unfold kindOf; by rewrite Hidx).
    simpl in Hnd. apply NoDup_cons in Hnd as [Hfresh Hnd]. rewrite Hkind in Hfresh.
    specialize (Hoff a (ltac:(left)) ) as Hoff0. rewrite Hkind in Hoff0. rewrite Hoff0.
    rewrite IH; [by rewrite Hkind, <- app_assoc|done|..].
    + intros b Hb. rewrite lookup_insert_ne.
      * apply Hoff. by right.
      * intros Heq. apply Hfresh. rewrite Heq. by apply list_elem_of_fmap_2.
    + intros t Ht. apply elem_of_app in Ht as [Ht|Ht].
      * destruct (decide (t0 = t)) as [<-|Hne'].
        -- by rewrite lookup_insert_eq.
        -- rewrite lookup_insert_ne by done. by apply Hon.
      * apply list_elem_of_singleton in Ht as ->. by rewrite lookup_insert_eq.
Qed.

Lemma dsTypes_pick (a : Answer) :
  an_err a = None → (an_idx a < 6)%nat →
  picksKind dsTypes a ∧ kindOf dsTypes a ∈ AvailableDatastores.
Proof.
  intros Herr Hidx. unfold picksKind, kindOf. destruct a as [idx v e]. simpl in *.
  do 6 (destruct idx as [|idx];
        [split; [split; [done|eexists; split; [reflexivity|discriminate]]|];
         apply list_elem_of_In; simpl; tauto|]).
  lia.
Qed.

Lemma rtTypes_pick (a : Answer) :
  an_err a = None → (an_idx a < 6)%nat →
  picksKind rtTypes a ∧ kindOf rtTypes a ∈ AvailableRuntimes.
Proof.
  intros Herr Hidx. unfold picksKind, kindOf. destruct a as [idx v e]. simpl in *.
  do 6 (destruct idx as [|idx];
        [split; [split; [done|eexists; split; [reflexivity|discriminate]]|];
         apply list_elem_of_In; simpl; tauto|]).
  lia.
Qed.

Lemma toggleInv_start : toggleInv (λ _, 0%nat) [] ∅.
Proof. intros t. rewrite lookup_empty. done. Qed.

(** The common statement for both selections. *)
Lemma toggle_selection_aux (types available : list string) (picks : list Answer)
    (done : Answer) (rest : list Answer) :
  (∀ a, an_err a = None → (an_idx a < 6)%nat →
        picksKind types a ∧ kindOf types a ∈ available) →
  NoDup types → types !! 6%nat = Some "" →
  Forall (λ a, an_err a = None ∧ (an_idx a < 6)%nat) picks →
  an_err done = None → an_idx done = 6%nat →
  ∃ result,
    toggleLoop types (picks ++ done :: rest) [] ∅ = Some (generator.Ok result, rest)
    ∧ (∀ t, let n := toggles types t picks in
            (2 * occurrences t result = if Nat.odd n then n + 1 else 0)%nat)
    ∧ Forall (λ t, t ∈ available) result
    ∧ (NoDup (map an_idx picks) → result = map (kindOf types) picks).
Proof.
  intros Htable Htypes Hlast Hpicks Herr Hdone.
  assert (Hpk : Forall (picksKind types) picks).
  { eapply Forall_impl; [exact Hpicks|]. intros a [H1 H2]. by apply Htable. }
  assert (Hd : types !! an_idx done = Some "") by (by rewrite Hdone).
  destruct (toggleLoop_counts types picks done rest (λ _, 0%nat) [] ∅ Hpk Herr Hd
              toggleInv_start) as (result & Hrun & Hres & Hin).
  exists result. split; [exact Hrun|]. split; [exact Hres|]. split.
  - apply Forall_forall. intros t Ht. destruct (Hin t Ht) as [Hnil|Hk].
    + by apply elem_of_nil in Hnil.
    + apply list_elem_of_fmap in Hk as (a & -> & Ha).
      rewrite Forall_forall in Hpicks. destruct (Hpicks a Ha) as [H1 H2].
      by apply Htable.
  - intros Hnd.
    assert (Hnd' : NoDup (map (kindOf types) picks)).
    { clear Hrun Hres Hin Hpk. induction Hpicks as [|a l [Ha1 Ha2] Hl IH]; simpl.
      - constructor.
      - simpl in Hnd. apply NoDup_cons in Hnd as [Hfresh Hnd].
        apply NoDup_cons. split; [|by apply IH].
        intros Hin. apply list_elem_of_fmap in Hin as (b & Heq & Hb).
        apply Hfresh. rewrite Forall_forall in Hl. destruct (Hl b Hb) as [Hb1 Hb2].
        assert (an_idx a = an_idx b) as ->; [|by apply list_elem_of_fmap_2].
        destruct (Htable a Ha1 Ha2) as [(_ & ta & Hta & Hnea) _].
        destruct (Htable b Hb1 Hb2) as [(_ & tb & Htb & Hneb) _].
        unfold kindOf in Heq. rewrite Hta, Htb in Heq. simpl in Heq. subst tb.
        by apply (NoDup_lookup types _ _ ta). }
    rewrite (toggleLoop_fresh types picks done rest [] ∅ Hpk Herr Hd Hnd') in Hrun.
    + by injection Hrun as <-.
    + intros a _. by rewrite lookup_empty.
    + intros t Ht. by apply elem_of_nil in Ht.
Qed.

Lemma toggleLoop_error (types : list string) (picks : list Answer) (bad : Answer)
    (e : string) (rest : list Answer) (selected : list string)
    (selectedMap : gmap string bool) :
  Forall (picksKind types) picks → an_err bad = Some e →
  toggleLoop types (picks ++ bad :: rest) selected selectedMap
  = Some (generator.Err e, rest).
Proof.
  intros Hpicks Herr. revert selected selectedMap.
  induction Hpicks as [|a picks [Ha (t0 & Hidx & Hne)] _ IH]; intros selected selectedMap.
  - simpl. by rewrite Herr.
  - simpl. rewrite Ha, Hidx. destruct (String.eqb_spec t0 "") as [->|_]; [done|].
    destruct (default false (selectedMap !! t0)); apply IH.
Qed.

Lemma dsTypes_NoDup : NoDup dsTypes.
Proof. unfold dsTypes. simpl. solve_NoDup. Qed.

Lemma rtTypes_NoDup : NoDup rtTypes.
Proof. unfold rtTypes. simpl. solve_NoDup. Qed.

(** X28. The selections of init, for a terminal that picks kinds and then
    [Done]: the selection returns and consumes exactly these answers. A kind
    comes back only if it was picked an odd number of times, and then once
    for every time it was switched on: picked n times (n odd), it is in the
    result (n+1)/2 times, so a kind switched on, off and on again is
    configured twice. Every kind of the result is of the enumeration, and
    kinds picked once each come back in the order of the picks. An answer
    with an error ends the selection with that error. The same holds for
    the runtimes. *)
Theorem toggle_selection (w : World) (picks : list Answer) (last : Answer)
    (rest : list Answer) :
  Forall (λ a, an_err a = None ∧ (an_idx a < 6)%nat) picks →
  (∀ e, an_err last = Some e →
        selectDatastores (mkSession w (picks ++ last :: rest))
        = Some (generator.Err e, mkSession w rest)
        ∧ selectRuntimes (mkSession w (picks ++ last :: rest))
          = Some (generator.Err e, mkSession w rest))
  ∧ (an_err last = None → an_idx last = 6%nat →
     (∃ result,
        selectDatastores (mkSession w (picks ++ last :: rest))
        = Some (generator.Ok result, mkSession w rest)
        ∧ (∀ t, let n := toggles dsTypes t picks in
                (2 * occurrences t result = if Nat.odd n then n + 1 else 0)%nat)
        ∧ Forall (λ t, t ∈ AvailableDatastores) result
        ∧ (NoDup (map an_idx picks) → result = map (kindOf dsTypes) picks))
     ∧ (∃ result,
          selectRuntimes (mkSession w (picks ++ last :: rest))
          = Some (generator.Ok result, mkSession w rest)
          ∧ (∀ t, let n := toggles rtTypes t picks in
                  (2 * occurrences t result = if Nat.odd n then n + 1 else 0)%nat)
          ∧ Forall (λ t, t ∈ AvailableRuntimes) result
          ∧ (NoDup (map an_idx picks) → result = map (kindOf rtTypes) picks))).
Proof.
  intros Hpicks. split.
  - intros e Herr. unfold selectDatastores, selectRuntimes. simpl s_answers.
    fold dsTypes. fold rtTypes.
    rewrite !(toggleLoop_error _ picks last e rest); [done|..]; try done.
    + eapply Forall_impl; [exact Hpicks|]. intros a [H1 H2]. by apply rtTypes_pick.
    + eapply Forall_impl; [exact Hpicks|]. intros a [H1 H2]. by apply dsTypes_pick.
  - intros Herr Hdone. split.
    + destruct (toggle_selection_aux dsTypes AvailableDatastores picks last rest
                  dsTypes_pick dsTypes_NoDup eq_refl Hpicks Herr Hdone)
        as (result & Hrun & Hres).
      exists result. unfold selectDatastores. simpl s_answers. fold dsTypes.
      by rewrite Hrun.
    + destruct (toggle_selection_aux rtTypes AvailableRuntimes picks last rest
                  rtTypes_pick rtTypes_NoDup eq_refl Hpicks Herr Hdone)
        as (result & Hrun & Hres).
      exists result. unfold selectRuntimes. simpl s_answers. fold rtTypes.
      by rewrite Hrun.
Qed.

(** The third toggle of one kind: the kind is configured twice. *)
Example toggle_on_off_on :
  selectDatastores
    (mkSession examples.world0
       [mkAnswer 0 "" None; mkAnswer 0 "" None; mkAnswer 0 "" None; mkAnswer 4 "" None;
        mkAnswer 6 "" None])
  = Some (generator.Ok [DatastorePostgres; DatastorePostgres; DatastoreRedis],
          mkSession examples.world0 []).
Proof. vm_compute. reflexivity. Qed.

Lemma toggle_selection_witness :
  let w := examples.world0 in
  let picks := [mkAnswer 4 "" None; mkAnswer 0 "" None] in
  let last := mkAnswer 6 "" None in
  let rest := [mkAnswer 1 "" None] in
  (∀ e, an_err last = Some e →
        selectDatastores (mkSession w (picks ++ last :: rest))
        = Some (generator.Err e, mkSession w rest)
        ∧ selectRuntimes (mkSession w (picks ++ last :: rest))
          = Some (generator.Err e, mkSession w rest))
  ∧ (an_err last = None → an_idx last = 6%nat →
     (∃ result,
        selectDatastores (mkSession w (picks ++ last :: rest))
        = Some (generator.Ok result, mkSession w rest)
        ∧ (∀ t, let n := toggles dsTypes t picks in
                (2 * occurrences t result = if Nat.odd n then n + 1 else 0)%nat)
        ∧ Forall (λ t, t ∈ AvailableDatastores) result
        ∧ (NoDup (map an_idx picks) → result = map (kindOf dsTypes) picks))
     ∧ (∃ result,
          selectRuntimes (mkSession w (picks ++ last :: rest))
          = Some (generator.Ok result, mkSession w rest)
          ∧ (∀ t, let n := toggles rtTypes t picks in
                  (2 * occurrences t result = if Nat.odd n then n + 1 else 0)%nat)
          ∧ Forall (λ t, t ∈ AvailableRuntimes) result
          ∧ (NoDup (map an_idx picks) → result = map (kindOf rtTypes) picks))).
Proof.
  apply (toggle_selection examples.world0
           [mkAnswer 4 "" None; mkAnswer 0 "" None] (mkAnswer 6 "" None)
           [mkAnswer 1 "" None]).
  repeat constructor; simpl; lia.
Defined.

(** *** The interactive path and the profile path *)

(** The framework taken for a runtime from the answer to its question. *)
Definition chosen (rtType : RuntimeType) (a : Answer) : string :=
  match an_err a with
  | Some _ => default "" (head (ri_Frameworks (GetRuntimeInfo rtType)))
  | None => an_value a
  end.

(** The datastore both paths configure for a kind. *)
Definition configured (dsType : DatastoreType) : Datastore :=
  {| ds_Type := dsType; ds_Name := dsType; ds_Image := "";
     ds_Tag := profiles.getDefaultTag dsType;
     ds_Port := goint.add (di_DefaultPort (GetDatastoreInfo dsType)) 0;
     ds_InternalPort := di_DefaultPort (GetDatastoreInfo dsType);
     ds_Volumes := []; ds_Environment := ∅; ds_HealthCheck := None;
     ds_Networks := [] |}.

Lemma BuildProject_eq (profile : profiles.Profile) (name outDir : string) :
  profiles.BuildProjectFromProfile profile name outDir
  = {| proj_Name := name; proj_OutputDir := outDir;
       proj_Datastores := map configured (profiles.prof_Datastores profile);
       proj_Runtimes :=
         materialise (profiles.prof_Datastores profile) 0 (profiles.prof_Runtimes profile);
       proj_Networks := []; proj_Profile := profiles.prof_Name profile |}.
Proof.
  unfold profiles.BuildProjectFromProfile.
  rewrite (foldl_snoc_map (λ dsType : DatastoreType, dsType : string)).
  rewrite (foldl_snoc_map configured).
  simpl app. rewrite map_id.
  pose proof (addProfileRuntime_foldl (profiles.prof_Datastores profile)
                (profiles.prof_Runtimes profile) [] 0) as Hfold.
  destruct (foldl _ _ (profiles.prof_Runtimes profile)) as [rts off]. simpl in Hfold.
  by subst rts.
Qed.

Definition grows (P : Event → Prop) (w w' : World) : Prop :=
  ∃ evs, w_events w' = w_events w ++ evs ∧ Forall P evs.

Lemma grows_refl (P : Event → Prop) (w : World) : grows P w w.
Proof. exists []. by rewrite app_nil_r. Qed.

Lemma grows_trans (P : Event → Prop) (w1 w2 w3 : World) :
  grows P w1 w2 → grows P w2 w3 → grows P w1 w3.
Proof.
  intros (e1 & H1 & F1) (e2 & H2 & F2). exists (e1 ++ e2).
  split; [by rewrite H2, H1, app_assoc|by apply Forall_app].
Qed.

Lemma grows_emit (P : Event → Prop) (w : World) (ev : Event) :
  P ev → grows P w (mkWorld (w_project w) (w_reads w) (w_events w ++ [ev])).
Proof. intros Hev. exists [ev]. split; [done|by constructor]. Qed.

Lemma configureDatastores_run (selected : list DatastoreType) (p : Project) (w : World) :
  ∃ w',
    configureDatastores selected 0 p w
    = Some (mkProject (proj_Name p) (proj_OutputDir p)
              (proj_Datastores p ++ map configured selected) (proj_Runtimes p)
              (proj_Networks p) (proj_Profile p), w')
    ∧ w_project w' = w_project w ∧ w_reads w' = w_reads w
    ∧ grows isPrint w w'.
Proof.
  revert p w. induction selected as [|dsType selected IH]; intros p w.
  - exists w. simpl. rewrite app_nil_r. destruct p. simpl.
    split; [done|]. split; [done|]. split; [done|apply grows_refl].
  - simpl. unfold bind at 1, emit at 1.
    match goal with
    | |- context [configureDatastores selected 0 ?p1 ?w1] =>
        destruct (IH p1 w1) as (w' & Hrun & Hp & Hr & Hg)
    end.
    exists w'. rewrite Hrun. simpl. rewrite <- app_assoc. simpl.
    split; [done|]. split; [done|]. split; [done|].
    eapply grows_trans; [|exact Hg]. by apply grows_emit.
Qed.

Lemma configureRuntimes_run (selected : list RuntimeType) (fas rest : list Answer)
    (dependsOn : list string) (off : Z) (p : Project) (w : World) :
  Forall (λ t, t ∈ AvailableRuntimes) selected →
  length fas = length selected →
  ∃ w',
    configureRuntimes selected dependsOn off p (mkSession w (fas ++ rest))
    = Some (mkProject (proj_Name p) (proj_OutputDir p) (proj_Datastores p)
              (proj_Runtimes p
               ++ materialise dependsOn off
                    (zip_with (λ t a, profiles.mkRuntimeConfig t (chosen t a))
                       selected fas))
              (proj_Networks p) (proj_Profile p),
            mkSession w' rest)
    ∧ w_project w' = w_project w ∧ w_reads w' = w_reads w
    ∧ grows isPrint w w'.
Proof.
  intros Hsel. revert fas off p w.
  induction Hsel as [|rtType selected Hkind _ IH]; intros fas off p w Hlen.
  - destruct fas; [|done]. exists w. simpl. rewrite app_nil_r. destruct p. simpl.
    split; [done|]. split; [done|]. split; [done|apply grows_refl].
  - destruct fas as [|a fas]; [done|]. simpl in Hlen. injection Hlen as Hlen.
    destruct (runtime_frameworks rtType Hkind) as (f0 & f1 & fs & Hfw).
    simpl. unfold bind at 1. unfold selectFramework. rewrite Hfw.
    unfold bind at 1, ask. cbn [s_world s_answers]. cbv beta iota.
    assert (Hchosen : chosen rtType a
                      = match an_err a with Some _ => f0 | None => an_value a end).
    { unfold chosen. rewrite Hfw. done. }
    destruct (an_err a) as [e|] eqn:Ha; unfold ret; cbv beta iota;
      unfold bind at 1, liftC, emit; cbn [s_world s_answers]; cbv beta iota;
      match goal with
      | |- context [configureRuntimes selected dependsOn ?o ?p1 (mkSession ?w1 _)] =>
          destruct (IH fas o p1 w1 Hlen) as (w' & Hrun & Hp & Hr & Hg)
      end;
      exists w'; rewrite Hrun; simpl; rewrite <- app_assoc; simpl; rewrite Hchosen;
      (split; [done|]); (split; [done|]); (split; [done|]);
      (eapply grows_trans; [|exact Hg]); by apply grows_emit.
Qed.

Lemma toggleLoop_result (types : list string) (P : string → Prop)
    (answers : list Answer) (selected : list string) (selectedMap : gmap string bool)
    (result : list string) (rest : list Answer) :
  (∀ t, t ∈ types → t ≠ "" → P t) →
  Forall P selected →
  toggleLoop types answers selected selectedMap = Some (generator.Ok result, rest) →
  Forall P result.
Proof.
  intros Htypes. revert selected selectedMap.
  induction answers as [|a answers IH]; intros selected selectedMap Hsel Hrun; [done|].
  simpl in Hrun. destruct (an_err a); [done|].
  destruct (types !! an_idx a) as [t|] eqn:Hidx; [|done].
  destruct (String.eqb_spec t "") as [->|Hne].
  - injection Hrun as <- _. apply Forall_forall. intros x Hx.
    apply list_elem_of_In, filter_In in Hx as [Hx _]. apply list_elem_of_In in Hx.
    rewrite Forall_forall in Hsel. by apply Hsel.
  - destruct (default false (selectedMap !! t)).
    + by apply (IH selected (delete t selectedMap)).
    + apply (IH (selected ++ [t]) (<[ t := true ]> selectedMap)); [|done].
      apply Forall_app. split; [done|]. constructor; [|done].
      apply Htypes; [|done]. by apply list_elem_of_lookup_2 in Hidx.
Qed.

(** X29. The interactive path and the profile path of init build the same
    project. When the datastore selection returns the kinds [dsel], the
    runtime selection the kinds [rsel], and the terminal then answers one
    framework question per selected runtime, [interactiveInit] returns
    exactly the project that [BuildProjectFromProfile] builds for a profile
    without a name that lists [dsel] and, for every runtime of [rsel], the
    framework of its answer (the first framework of the kind when the
    question fails). On the way it only prints. *)
Theorem interactive_matches_profile (name outDir : string) (s s1 s2 : Session)
    (dsel rsel : list string) (fas rest : list Answer) :
  selectDatastores s = Some (generator.Ok dsel, s1) →
  selectRuntimes s1 = Some (generator.Ok rsel, s2) →
  s_answers s2 = fas ++ rest →
  length fas = length rsel →
  ∃ w',
    interactiveInit name outDir s
    = Some (generator.Ok
              (profiles.BuildProjectFromProfile
                 {| profiles.prof_Name := ""; profiles.prof_Description := "";
                    profiles.prof_Datastores := dsel;
                    profiles.prof_Runtimes :=
                      zip_with (λ t a, profiles.mkRuntimeConfig t (chosen t a))
                        rsel fas |}
                 name outDir),
            mkSession w' rest)
    ∧ w_project w' = w_project (s_world s)
    ∧ w_reads w' = w_reads (s_world s)
    ∧ grows isPrint (s_world s) w'.
Proof.
  intros Hds Hrs Hrest Hlen.
  unfold selectDatastores in Hds. fold dsTypes in Hds.
  destruct (toggleLoop dsTypes (s_answers s) [] ∅) as [[r1 answers1]|] eqn:Hloop1;
    [|done].
  injection Hds as -> <-.
  unfold selectRuntimes in Hrs. simpl s_answers in Hrs. fold rtTypes in Hrs.
  destruct (toggleLoop rtTypes answers1 [] ∅) as [[r2 answers2]|] eqn:Hloop2; [|done].
  injection Hrs as -> <-. simpl in Hrest. subst answers2.
  assert (Hknown : Forall (λ t, t ∈ AvailableRuntimes) rsel).
  { apply (toggleLoop_result rtTypes (λ t, t ∈ AvailableRuntimes) answers1 [] ∅ rsel
             (fas ++ rest)); [|constructor|exact Hloop2].
    intros t Ht Hne. unfold rtTypes in Ht. simpl in Ht.
    repeat (apply elem_of_cons in Ht as [->|Ht];
            [first [done | apply list_elem_of_In; simpl; tauto]|]).
    by apply elem_of_nil in Ht. }
  rewrite BuildProject_eq. simpl.
  unfold interactiveInit.
  unfold bind at 1, liftC at 1, emit at 1.
  unfold bind at 1, selectDatastores. simpl s_answers. fold dsTypes. rewrite Hloop1.
  unfold bind at 1, liftC at 1. simpl s_world.
  match goal with
  | |- context [configureDatastores dsel 0 ?p1 ?w1] =>
      destruct (configureDatastores_run dsel p1 w1) as (wa & Hrun1 & Hp1 & Hr1 & Hg1)
  end.
  rewrite Hrun1. simpl s_answers.
  unfold bind at 1, liftC at 1, emit at 1. simpl s_world. simpl s_answers.
  unfold bind at 1, liftC at 1, emit at 1. simpl s_world. simpl s_answers.
  unfold bind at 1, selectRuntimes. simpl s_answers. fold rtTypes. rewrite Hloop2.
  simpl s_world. unfold bind at 1.
  rewrite (foldl_snoc_map ds_Name). simpl proj_Datastores. simpl app.
  match goal with
  | |- context [configureRuntimes rsel ?deps 0 ?p1 (mkSession ?w1 _)] =>
      destruct (configureRuntimes_run rsel fas rest deps 0 p1 w1 Hknown Hlen)
        as (wb & Hrun2 & Hp2 & Hr2 & Hg2)
  end.
  rewrite Hrun2. unfold ret. simpl.
  exists wb. rewrite map_map. simpl. rewrite map_id.
  split; [done|]. rewrite Hp2, Hr2. simpl. rewrite Hp1, Hr1. simpl.
  split; [done|]. split; [done|].
  destruct Hg1 as (e1 & He1 & F1). destruct Hg2 as (e2 & He2 & F2).
  simpl in He1, He2.
  exists ([EvPrint "Select datastores:"] ++ e1
          ++ [EvPrint ""; EvPrint "Select runtimes:"] ++ e2).
  split.
  - rewrite He2, He1, <- !app_assoc. done.
  - apply Forall_app. split; [by repeat constructor|].
    apply Forall_app. split; [done|].
    apply Forall_app. split; [by repeat constructor|done].
Qed.

Lemma interactive_matches_profile_witness :
  let s := mkSession examples.world0
             [ mkAnswer 0 "" None; mkAnswer 4 "" None; mkAnswer 6 "" None;
               mkAnswer 0 "" None; mkAnswer 1 "" None; mkAnswer 6 "" None;
               mkAnswer 1 "gin" None; mkAnswer 0 "" (Some "^C") ] in
  let fas := [mkAnswer 1 "gin" None; mkAnswer 0 "" (Some "^C")] in
  ∃ w',
    interactiveInit "demo" "." s
    = Some (generator.Ok
              (profiles.BuildProjectFromProfile
                 {| profiles.prof_Name := ""; profiles.prof_Description := "";
                    profiles.prof_Datastores := [DatastorePostgres; DatastoreRedis];
                    profiles.prof_Runtimes :=
                      zip_with (λ t a, profiles.mkRuntimeConfig t (chosen t a))
                        [RuntimeGo; RuntimeNode] fas |}
                 "demo" "."),
            mkSession w' [])
    ∧ w_project w' = w_project (s_world s)
    ∧ w_reads w' = w_reads (s_world s)
    ∧ grows isPrint (s_world s) w'.
Proof.
  apply (interactive_matches_profile "demo" "."
           (mkSession examples.world0
              [ mkAnswer 0 "" None; mkAnswer 4 "" None; mkAnswer 6 "" None;
                mkAnswer 0 "" None; mkAnswer 1 "" None; mkAnswer 6 "" None;
                mkAnswer 1 "gin" None; mkAnswer 0 "" (Some "^C") ])
           (mkSession examples.world0
              [ mkAnswer 0 "" None; mkAnswer 1 "" None; mkAnswer 6 "" None;
                mkAnswer 1 "gin" None; mkAnswer 0 "" (Some "^C") ])
           (mkSession examples.world0
              [ mkAnswer 1 "gin" None; mkAnswer 0 "" (Some "^C") ])
           [DatastorePostgres; DatastoreRedis] [RuntimeGo; RuntimeNode]
           [mkAnswer 1 "gin" None; mkAnswer 0 "" (Some "^C")] []).
  - vm_compute. reflexivity.
  - vm_compute. reflexivity.
  - reflexivity.
  - reflexivity.
Defined.

(** *** What init does to its surroundings *)

Definition safeC {A : Type} (P : Event → Prop) (c : C A) : Prop :=
  ∀ w a w', c w = Some (a, w') → grows P w w'.

Definition safeI {A : Type} (P : Event → Prop) (c : Interactive A) : Prop :=
  ∀ s a s', c s = Some (a, s') → grows P (s_world s) (s_world s').

Lemma safeC_ret {A : Type} (P : Event → Prop) (a : A) : safeC P (ret a).
Proof. intros w a' w' H. injection H as _ <-. apply grows_refl. Qed.

Lemma safeC_bind {A B : Type} (P : Event → Prop) (c : C A) (k : A → C B) :
  safeC P c → (∀ a, safeC P (k a)) → safeC P (bind c k).
Proof.
  intros Hc Hk w b w' H. unfold bind in H.
  destruct (c w) as [[a w1]|] eqn:E; [|done].
  eapply grows_trans; [by eapply Hc|by eapply Hk].
Qed.

Lemma safeC_emit (P : Event → Prop) (ev : Event) : P ev → safeC P (emit ev).
Proof. intros Hev w a w' H. injection H as _ <-. by apply grows_emit. Qed.

Lemma safeC_setProject (P : Event → Prop) (p : Project) : safeC P (setProject p).
Proof. intros w a w' H. injection H as _ <-. exists []. simpl. by rewrite app_nil_r. Qed.

Lemma safeI_ret {A : Type} (P : Event → Prop) (a : A) :
  safeI P (ret a : Interactive A).
Proof. intros s a' s' H. injection H as _ <-. apply grows_refl. Qed.

Lemma safeI_bind {A B : Type} (P : Event → Prop) (c : Interactive A)
    (k : A → Interactive B) :
  safeI P c → (∀ a, safeI P (k a)) → safeI P (bind c k).
Proof.
  intros Hc Hk s b s' H. unfold bind in H.
  destruct (c s) as [[a s1]|] eqn:E; [|done].
  eapply grows_trans; [by eapply Hc|by eapply Hk].
Qed.

Lemma safeI_liftC {A : Type} (P : Event → Prop) (c : C A) :
  safeC P c → safeI P (liftC c).
Proof.
  intros Hc s a s' H. unfold liftC in H.
  destruct (c (s_world s)) as [[a1 w1]|] eqn:E; [|done].
  injection H as _ <-. simpl. by eapply Hc.
Qed.

Lemma safeI_ask (P : Event → Prop) : safeI P ask.
Proof.
  intros s a s' H. unfold ask in H. destruct (s_answers s); [done|].
  injection H as _ <-. apply grows_refl.
Qed.

Lemma safeI_selectDatastores (P : Event → Prop) : safeI P selectDatastores.
Proof.
  intros s a s' H. unfold selectDatastores in H.
  destruct (toggleLoop _ _ _ _) as [[r rest]|]; [|done].
  injection H as _ <-. apply grows_refl.
Qed.

Lemma safeI_selectRuntimes (P : Event → Prop) : safeI P selectRuntimes.
Proof.
  intros s a s' H. unfold selectRuntimes in H.
  destruct (toggleLoop _ _ _ _) as [[r rest]|]; [|done].
  injection H as _ <-. apply grows_refl.
Qed.

Lemma safeI_selectFramework (P : Event → Prop) (rtType : RuntimeType)
    (frameworks : list string) :
  safeI P (selectFramework rtType frameworks).
Proof.
  unfold selectFramework. destruct frameworks as [|f0 [|f1 fs]];
    try apply safeI_ret.
  apply safeI_bind; [apply safeI_ask|]. intros a.
  destruct (an_err a); apply safeI_ret.
Qed.

Lemma safeC_configureDatastores (P : Event → Prop) (selected : list DatastoreType)
    (off : Z) (p : Project) :
  (∀ msg, P (EvPrint msg)) → safeC P (configureDatastores selected off p).
Proof.
  intros HP. revert p. induction selected as [|t selected IH]; intros p; simpl.
  - apply safeC_ret.
  - apply safeC_bind; [by apply safeC_emit|]. intros _. apply IH.
Qed.

Lemma safeI_configureRuntimes (P : Event → Prop) (selected : list RuntimeType)
    (dependsOn : list string) (off : Z) (p : Project) :
  (∀ msg, P (EvPrint msg)) → safeI P (configureRuntimes selected dependsOn off p).
Proof.
  intros HP. revert off p. induction selected as [|t selected IH]; intros off p; simpl.
  - apply safeI_ret.
  - apply safeI_bind; [apply safeI_selectFramework|]. intros fw.
    apply safeI_bind; [by apply safeI_liftC, safeC_emit|]. intros _. apply IH.
Qed.

Lemma safeI_interactiveInit (P : Event → Prop) (name outDir : string) :
  (∀ msg, P (EvPrint msg)) → safeI P (interactiveInit name outDir).
Proof.
  intros HP. unfold interactiveInit.
  apply safeI_bind; [by apply safeI_liftC, safeC_emit|]. intros _.
  apply safeI_bind; [apply safeI_selectDatastores|]. intros [dsel|e];
    [|apply safeI_ret].
  apply safeI_bind; [by apply safeI_liftC, safeC_configureDatastores|]. intros p.
  apply safeI_bind; [by apply safeI_liftC, safeC_emit|]. intros _.
  apply safeI_bind; [by apply safeI_liftC, safeC_emit|]. intros _.
  apply safeI_bind; [apply safeI_selectRuntimes|]. intros [rsel|e];
    [|apply safeI_ret].
  apply safeI_bind; [by apply safeI_configureRuntimes|]. intros p'.
  apply safeI_ret.
Qed.

Section Init.
Context (sh : Shell) (sys : System) (ext : generator.Externals)
        (rnd : generator.RandSource).

Lemma safeC_New_Generate (P : Event → Prop) (p : Project) :
  P (EvGenerate p) → safeC P (New_Generate ext rnd p).
Proof.
  intros HP. unfold New_Generate. apply safeC_bind; [by apply safeC_emit|].
  intros _ w a w' H. destruct (generator.generate _ _ _ _) as [[r st]|]; [|done].
  injection H as _ <-. exists []. simpl. by rewrite app_nil_r.
Qed.

Lemma safeC_Print (P : Event → Prop) (out : generator.GeneratedOutput) :
  (∀ msg, P (EvPrint msg)) → safeC P (GeneratedOutput_Print sh out).
Proof.
  intros HP w a w' H. rewrite Print_run in H. injection H as _ <-.
  exists (printEvents sh out). split; [done|].
  eapply Forall_impl; [apply printEvents_prints|]. intros [] Hev; first [done | apply HP].
Qed.

Lemma safeC_printDockerfileNames (P : Event → Prop) (l : list (string * string)) :
  (∀ msg, P (EvPrint msg)) → safeC P (printDockerfileNames l).
Proof.
  intros HP. induction l as [|[name content] l IH]; simpl.
  - apply safeC_ret.
  - apply safeC_bind; [by apply safeC_emit|]. intros _. apply IH.
Qed.

(** What [runInit] may do: print, generate, and hand the bundle to the
    writer for the directory of --output, unless --dry-run is set. *)
Definition initAllowed (ev : Event) : Prop :=
  match ev with
  | EvWriteFile _ _ => False
  | EvWriteToDir dir _ => dryRun sh = false ∧ dir = filepath_Abs sys (outputDir sh)
  | EvGenerate _ => True
  | EvPrint _ => True
  end.

Lemma runInit_safe : safeI initAllowed (runInit sh sys ext rnd).
Proof.
  assert (HP : ∀ msg, initAllowed (EvPrint msg)) by done.
  unfold runInit. apply safeI_bind.
  { destruct (String.eqb (projectName sh) ""); [|apply safeI_ret].
    cbv zeta. destruct (skipPrompts sh); [apply safeI_ret|].
    apply safeI_bind; [apply safeI_ask|]. intros a.
    destruct (an_err a); apply safeI_ret. }
  intros [name|e]; [|apply safeI_ret].
  apply safeI_bind; [by apply safeI_liftC, safeC_emit|]. intros _.
  apply safeI_bind; [by apply safeI_liftC, safeC_emit|]. intros _.
  apply safeI_bind.
  { destruct (String.eqb (profileName sh) ""); [by apply safeI_interactiveInit|].
    destruct (profiles.GetProfile (profileName sh)) as [profile|]; [|apply safeI_ret].
    cbv zeta.
    apply safeI_bind; [by apply safeI_liftC, safeC_emit|]. intros _.
    apply safeI_bind; [by apply safeI_liftC, safeC_emit|]. intros _.
    apply safeI_ret. }
  intros [project|e]; [|apply safeI_ret].
  apply safeI_bind; [apply safeI_liftC, safeC_setProject|]. intros _.
  apply safeI_bind; [by apply safeI_liftC, safeC_New_Generate|].
  intros [out|e]; [|apply safeI_ret].
  destruct (dryRun sh) eqn:Hdry.
  - apply safeI_bind; [by apply safeI_liftC, safeC_emit|]. intros _.
    apply safeI_bind; [by apply safeI_liftC, safeC_Print|]. intros _.
    apply safeI_ret.
  - cbv zeta. apply safeI_bind; [by apply safeI_liftC, safeC_emit|]. intros _.
    destruct (WriteToDir sys out _); [apply safeI_ret|].
    repeat (apply safeI_bind;
            [first [by apply safeI_liftC, safeC_emit
                   |by apply safeI_liftC, safeC_printDockerfileNames]|intros _]).
    apply safeI_ret.
Qed.

Lemma runInit_unknown_profile (s : Session) (err : option string) (s' : Session) :
  runInit sh sys ext rnd s = Some (err, s') →
  profileName sh ≠ "" → profiles.GetProfile (profileName sh) = None →
  err ≠ None ∧ w_reads (s_world s') = w_reads (s_world s)
  ∧ w_project (s_world s') = w_project (s_world s)
  ∧ grows isPrint (s_world s) (s_world s').
Proof.
  intros Hrun Hname Hnone. apply String.eqb_neq in Hname.
  unfold runInit in Hrun. rewrite Hname, Hnone in Hrun.
  unfold bind at 1 in Hrun.
  match type of Hrun with
  | match ?c s with _ => _ end = _ =>
      assert (Hc : ∀ named s1, c s = Some (named, s1) → s_world s1 = s_world s);
        [|destruct (c s) as [[named s1]|] eqn:Hn; [|done];
          specialize (Hc _ _ eq_refl)]
  end.
  { intros named s1.
    destruct (String.eqb (projectName sh) ""); [|by intros [= _ <-]].
    cbv zeta. destruct (skipPrompts sh); [by intros [= _ <-]|].
    unfold bind, ask. destruct (s_answers s) as [|a rest]; [done|].
    destruct (an_err a); by intros [= _ <-]. }
  destruct named as [name|e].
  - unfold bind, liftC, emit, ret in Hrun. simpl in Hrun.
    injection Hrun as <- <-. simpl. rewrite Hc.
    split; [done|]. split; [done|]. split; [done|].
    eexists [_; _]. rewrite <- app_assoc. split; [reflexivity|]. by repeat constructor.
  - injection Hrun as <- <-. rewrite Hc.
    split; [done|]. split; [done|]. split; [done|]. apply grows_refl.
Qed.

(** X30. What [runInit] does to its surroundings, in every run that
    returns: it never writes a configuration file (a later generate finds
    none, a later add starts from an empty project); it hands a bundle to
    the writer only without --dry-run, and then for the directory of
    --output, whatever the project says; everything else it does is
    printing and generating. With --profile set to a name that is no
    preset it returns an error after printing only: nothing is generated
    and the random source is not read. *)
Theorem init_effects (s : Session) (err : option string) (s' : Session) :
  runInit sh sys ext rnd s = Some (err, s') →
  ∃ evs,
    w_events (s_world s') = w_events (s_world s) ++ evs
    ∧ Forall (λ ev, match ev with
                    | EvWriteFile _ _ => False
                    | EvWriteToDir dir _ =>
                        dryRun sh = false ∧ dir = filepath_Abs sys (outputDir sh)
                    | EvGenerate _ => True
                    | EvPrint _ => True
                    end) evs
    ∧ (profileName sh ≠ "" → profiles.GetProfile (profileName sh) = None →
       err ≠ None ∧ Forall isPrint evs
       ∧ w_reads (s_world s') = w_reads (s_world s)).
Proof.
  intros Hrun. destruct (runInit_safe s err s' Hrun) as (evs & Hevs & Hall).
  exists evs. split; [done|]. split; [exact Hall|].
  intros Hname Hnone.
  destruct (runInit_unknown_profile s err s' Hrun Hname Hnone)
    as (Herr & Hreads & _ & evs' & Hevs' & Hprints).
  split; [done|]. split; [|done].
  rewrite Hevs in Hevs'. apply app_inv_head in Hevs'. by subst.
Qed.

End Init.

(** Init with an unknown preset, and init with a preset under --dry-run. *)
Example init_unknown_profile :
  runInit (examples.shell [] (examples.project [] []) false false "webapp")
    examples.sys0 examples.ext0 examples.rndFixed (mkSession examples.world0 [])
  = Some (Some "unknown profile: webapp. Run 'stackgen list profiles' to see available profiles",
          mkSession
            (mkWorld (w_project examples.world0) 0
               [EvPrint "stackgen - Local Development Environment Generator";
                EvPrint "   Project: demo"])
            []).
Proof. vm_compute. reflexivity. Qed.

Lemma init_effects_witness :
  let sh := examples.shell [] (examples.project [] []) true false "api" in
  let s := mkSession examples.world0 [] in
  let s' := match runInit sh examples.sys0 examples.ext0 examples.rndFixed s with
            | Some (_, s') => s'
            | None => s
            end in
  ∃ evs,
    w_events (s_world s') = w_events (s_world s) ++ evs
    ∧ Forall (λ ev, match ev with
                    | EvWriteFile _ _ => False
                    | EvWriteToDir dir _ =>
                        dryRun sh = false
                        ∧ dir = filepath_Abs examples.sys0 (outputDir sh)
                    | EvGenerate _ => True
                    | EvPrint _ => True
                    end) evs
    ∧ (profileName sh ≠ "" → profiles.GetProfile (profileName sh) = None →
       None ≠ (None : option string) ∧ Forall isPrint evs
       ∧ w_reads (s_world s') = w_reads (s_world s)).
Proof.
  apply (init_effects (examples.shell [] (examples.project [] []) true false "api")
           examples.sys0 examples.ext0 examples.rndFixed
           (mkSession examples.world0 []) None).
  vm_compute. reflexivity.
Defined.

End InitFacts.
